(** * The ESLint client: validation policy, configuration resolution, migration

    A shallow embedding of [client/src/client.ts]: the [Validator] class, the
    event handlers that [ESLintClient.create] registers, [readConfiguration]
    with its working-directory selection, and [parseRulesCustomizations].

    Settings are JSON values read at run time, so they are modelled as an
    untyped [JValue]; the editor (the [vscode] module) is a record of
    observations; the collaborators whose sources live in other files
    ([./settings], [./shared/settings], [./node-utils], node's [path]) are
    taken as operations of a class, so every statement holds for any
    implementation of them. *)

From Stdlib Require Import ZArith String Ascii List Bool Lia.
From stdpp Require Import base option gmap strings list.

Open Scope string_scope.

(** ** JavaScript values *)

#[local] Set Warnings "-register-all".

Inductive JValue : Type :=
| JUndefined
| JNull
| JBool (b : bool)
| JNumber (n : Z)
| JString (s : string)
| JArray (items : list JValue)
| JObject (props : list (string * JValue)).

#[local] Set Warnings "+register-all".

(** A computation that may throw. The payload of the exception is its
    message. *)
Inductive Result (A : Type) : Type :=
| Ok (a : A)
| Throw (message : string).
Arguments Ok {A} a.
Arguments Throw {A} message.

Module JS.

(** [!!v]: the truthiness of a value. *)
Definition truthy (v : JValue) : bool :=
  match v with
  | JUndefined | JNull => false
  | JBool b => b
  | JNumber n => negb (n =? 0)%Z
  | JString s => negb (s =? "")
  | JArray _ | JObject _ => true
  end.

(** [typeof v === 'string'], which is also what [Is.string] of
    [./node-utils] tests. *)
Definition typeof_string (v : JValue) : bool :=
  match v with JString _ => true | _ => false end.

(** [Array.isArray(v)], returning the elements. *)
Definition asArray (v : JValue) : option (list JValue) :=
  match v with JArray items => Some items | _ => None end.

(** [a === b] where [b] is known to be a string. *)
Definition strictEqString (a : JValue) (b : string) : bool :=
  match a with JString s => s =? b | _ => false end.

Fixpoint assoc (key : string) (props : list (string * JValue)) : JValue :=
  match props with
  | [] => JUndefined
  | (k, v) :: rest => if k =? key then v else assoc key rest
  end.

(** [v.key]: reading a property throws a [TypeError] on [null] and
    [undefined]; on the other primitives it yields [undefined], except for
    [length]. *)
Definition getProperty (v : JValue) (key : string) : Result JValue :=
  match v with
  | JUndefined => Throw "TypeError: Cannot read properties of undefined"
  | JNull => Throw "TypeError: Cannot read properties of null"
  | JBool _ | JNumber _ => Ok JUndefined
  | JString s =>
      Ok (if key =? "length" then JNumber (Z.of_nat (String.length s)) else JUndefined)
  | JArray items =>
      Ok (if key =? "length" then JNumber (Z.of_nat (length items)) else JUndefined)
  | JObject props => Ok (assoc key props)
  end.

(** [s.charAt(i)] *)
Definition charAt (s : string) (i : Z) : string :=
  if (i <? 0)%Z then ""
  else match String.get (Z.to_nat i) s with
       | Some c => String c ""
       | None => ""
       end.

(** [s.startsWith(p)] *)
Definition startsWith (s p : string) : bool := String.prefix p s.

End JS.

(** ** The editor's objects, as far as the client observes them *)

Record Uri : Type := {
  scheme : string;
  fsPath : string;
  (** [uri.toString()] *)
  toString : string;
}.

Record TextDocument : Type := {
  uri : Uri;
  languageId : string;
}.

Record WorkspaceFolder : Type := {
  wf_uri : Uri;
  wf_name : string;
}.

(** The second argument of [Workspace.getConfiguration]. *)
Inductive ConfigurationScope : Type :=
| ScopeUri (resource : Uri)
| ScopeDocument (textDocument : TextDocument).

(** A [WorkspaceConfiguration] is the snapshot of one section for one scope:
    the keys that are set, with their values. *)
Module WorkspaceConfiguration.

(** [config.get(key)] *)
Definition get (config : gmap string JValue) (key : string) : JValue :=
  default JUndefined (config !! key).

(** [config.get(key, defaultValue)] *)
Definition getOr (config : gmap string JValue) (key : string) (defaultValue : JValue) : JValue :=
  match get config key with
  | JUndefined => defaultValue
  | v => v
  end.

End WorkspaceConfiguration.

(** What [vscode.workspace] answers at one moment. [getConfiguration] takes
    the section and the optional scope. *)
Record Workspace : Type := {
  getConfiguration : string -> option ConfigurationScope -> gmap string JValue;
  workspaceFolders : option (list WorkspaceFolder);
  getWorkspaceFolder : Uri -> option WorkspaceFolder;
  textDocuments : list TextDocument;
}.

(** ** [./shared/settings] and [./settings] *)

Module Validate.
Inductive t : Type := off | on | probe.

Definition eqb (a b : t) : bool :=
  match a, b with
  | off, off | on, on | probe, probe => true
  | _, _ => false
  end.
End Validate.

Record ValidateItem : Type := {
  language : string;
  autoFix : option bool;
}.

Record LegacyDirectoryItem : Type := {
  legacy_directory : string;
  changeProcessCWD : bool;
}.

(** [{ directory: string; '!cwd'?: boolean }] *)
Record DirectoryItem : Type := {
  directory : string;
  notCwd : option bool;
}.

(** [{ pattern: string; '!cwd'?: boolean }] *)
Record PatternItem : Type := {
  pattern : string;
  pattern_notCwd : option bool;
}.

Record ModeItem : Type := {
  mode : string;
}.

Record RuleCustomization : Type := {
  severity : string;
  rule : string;
}.

(** The type guards of [./settings] and [./shared/settings]. Their bodies are
    in files of their own; [client.ts] relies on what a guard [x is T]
    promises, namely that a value it accepts can be read as a [T]. A guard is
    therefore a partial view: [Some t] when it answers [true], [t] being the
    value seen at type [T]. *)
Class SettingsGuards : Type := {
  ValidateItem_is : JValue -> option ValidateItem;
  LegacyDirectoryItem_is : JValue -> option LegacyDirectoryItem;
  DirectoryItem_is : JValue -> option DirectoryItem;
  PatternItem_is : JValue -> option PatternItem;
  ModeItem_is : JValue -> option ModeItem;
}.

(** ** [class Validator] *)

Module Validator.

Record t : Type := {
  probeFailed : gset string;
}.

Definition new : t := {| probeFailed := ∅ |}.

Definition clear (this : t) : t := {| probeFailed := ∅ |}.

Definition add (this : t) (uri : Uri) : t :=
  {| probeFailed := {[ toString uri ]} ∪ probeFailed this |}.

Section Checking.
Context `{SettingsGuards}.

(** The loop over [validate]: [true] when it returns [Validate.on]. *)
Fixpoint validateLoop (languageId : string) (validate : list JValue) : bool :=
  match validate with
  | [] => false
  | item :: rest =>
      if JS.typeof_string item && JS.strictEqString item languageId then true
      else if match ValidateItem_is item with
              | Some candidate => language candidate =? languageId
              | None => false
              end then true
      else validateLoop languageId rest
  end.

(** The loop over [probe]: [true] when it returns [Validate.probe]. *)
Fixpoint probeLoop (languageId : string) (probe : list JValue) : bool :=
  match probe with
  | [] => false
  | item :: rest =>
      if JS.strictEqString item languageId then true
      else probeLoop languageId rest
  end.

Definition check (this : t) (ws : Workspace) (textDocument : TextDocument) : Validate.t :=
  let config := getConfiguration ws "eslint" (Some (ScopeUri (uri textDocument))) in
  if negb (JS.truthy (WorkspaceConfiguration.getOr config "enable" (JBool true))) then
    Validate.off
  else
    let languageId := languageId textDocument in
    let validate := WorkspaceConfiguration.get config "validate" in
    if match JS.asArray validate with
       | Some items => validateLoop languageId items
       | None => false
       end then Validate.on
    else
      let uri := toString (uri textDocument) in
      if bool_decide (uri ∈ probeFailed this) then Validate.off
      else
        let probe := WorkspaceConfiguration.get config "probe" in
        if match JS.asArray probe with
           | Some items => probeLoop languageId items
           | None => false
           end then Validate.probe
        else Validate.off.

End Checking.

End Validator.

(** ** The collaborators of [ESLintClient.create] *)

(** node's [path] module and [./node-utils]. [path.posix.sep] is the
    constant ["/"]; [path.sep] depends on the platform. A compiled regular
    expression is kept abstract: [RegExp_exec] is [regExp.exec(s)], [None]
    for [null], else the match array. *)
Class NodeUtils : Type := {
  RegExp : Type;
  toOSPath : string -> string;
  toPosixPath : string -> string;
  path_sep : string;
  path_isAbsolute : string -> bool;
  path_join : string -> string -> string;
  path_posix_isAbsolute : string -> bool;
  path_posix_join : string -> string -> string;
  convert2RegExp : string -> option RegExp;
  RegExp_exec : RegExp -> string -> option (list string);
}.

Definition path_posix_sep : string := "/".

(** The [Migration] class of [./settings]: [record] takes the snapshot of
    the legacy settings of a resource, [needsUpdate] inspects it, [update]
    rewrites the settings and may fail with a message, in which case the
    settings it leaves behind are whatever it returns. *)
Class MigrationClass : Type := {
  Migration : Type;
  Migration_record : Workspace -> Uri -> Migration;
  Migration_needsUpdate : Migration -> bool;
  Migration_update : Migration -> Workspace -> Workspace * option string;
}.

(** The answers of the modal migration prompt. *)
Inductive ItemId : Type := yes | no | readme | global | local.

Definition ItemId_eqb (a b : ItemId) : bool :=
  match a, b with
  | yes, yes | no, no | readme, readme | global, global | local, local => true
  | _, _ => false
  end.

(** A button of a prompt: [{ id, title, isCloseAffordance }]. *)
Record MessageItem : Type := {
  item_id : ItemId;
  isCloseAffordance : bool;
}.

(** What the user does with a prompt: picks one of its buttons, or
    dismisses it (the Escape key, the close button). *)
Inductive UserAction : Type :=
| Picks (id : ItemId)
| Dismisses.

(** [Window.showInformationMessage(message, { modal }, ...items)] of the
    editor, as its API documents it: the promise resolves to the item the
    user picks; a modal dialog that is dismissed resolves to the item marked
    [isCloseAffordance]; and it resolves to [undefined] when the dismissed
    message is not modal or no item is so marked. A pick of a button that
    the dialog does not have counts as a dismissal. *)
Definition showInformationMessage (modal : bool) (items : list MessageItem)
    (action : UserAction) : option ItemId :=
  let dismissed :=
    if modal then item_id <$> List.find isCloseAffordance items else None in
  match action with
  | Picks id =>
      if existsb (fun item => ItemId_eqb (item_id item) id) items then Some id
      else dismissed
  | Dismisses => dismissed
  end.

Record DocumentFilter : Type := {
  filter_scheme : string;
  filter_pattern : string;
}.

(** The language client and the editor services the handlers call.
    [userAction n] is what the user does with the [n]-th modal prompt of the
    session. [config_update] is
    [config.update(key, value, ConfigurationTarget.Global)]: the settings it
    leaves and, when the promise is rejected, the error.
    [getProvider method document] tells whether
    [client.getFeature(method).getProvider(document)] is a provider, that
    is, whether the document is one the feature is registered for. *)
Class Host : Type := {
  protocol2Code_asUri : string -> Uri;
  code2Protocol_asUri : Uri -> string;
  Languages_match : DocumentFilter -> TextDocument -> bool;
  userAction : nat -> UserAction;
  config_update : Workspace -> string -> JValue -> Workspace * option string;
  getProvider : string -> TextDocument -> bool;
}.

(** The remaining pieces of [./shared/settings] that [readConfiguration]
    calls on setting values. *)
Class SharedSettings : Type := {
  ESLintSeverity_off : JValue;
  ESLintSeverity_from : JValue -> JValue;
  CodeActionsOnSaveMode_all : JValue;
  CodeActionsOnSaveMode_from : JValue -> JValue;
  CodeActionsOnSaveRules_from : JValue -> JValue;
}.

(** ** [ConfigurationSettings] *)

(** [settings.workingDirectory : ModeItem | DirectoryItem | undefined] *)
Inductive WorkingDirectory : Type :=
| WDMode (item : ModeItem)
| WDDirectory (item : DirectoryItem).

Record WorkspaceFolderSettings : Type := {
  wfs_name : string;
  wfs_uri : string;
}.

Record CodeActionOnSave : Type := {
  caos_mode : JValue;
  caos_rules : JValue;
}.

Record ConfigurationSettings : Type := {
  validate : Validate.t;
  packageManager : JValue;
  useESLintClass : JValue;
  experimentalUseFlatConfig : JValue;
  codeActionOnSave : CodeActionOnSave;
  format : bool;
  quiet : JValue;
  onIgnoredFiles : JValue;
  options : JValue;
  rulesCustomizations : list RuleCustomization;
  run : JValue;
  nodePath : JValue;
  workingDirectory : option WorkingDirectory;
  workspaceFolder : option WorkspaceFolderSettings;
  disableRuleComment : JValue;
  showDocumentation : JValue;
}.

(** [ConfigurationParams] of the language server protocol. *)
Record ConfigurationItem : Type := {
  scopeUri : option string;
  section : option string;
}.

Record ConfigurationParams : Type := {
  items : option (list ConfigurationItem);
}.

(** ** The state that [ESLintClient.create] closes over *)

(** What the client does to the outside, in the order it does it.
    [SendDidClose] and [SendDidOpen] are a listener calling [send] of a
    provider of the language client, [Next method] is a middleware passing
    the notification on to the server with [next]. *)
Inductive Effect : Type :=
| SendDidClose (document : TextDocument)
| SendDidOpen (document : TextDocument)
| Next (method : string)
| ShowMigrationPrompt (resource : Uri) (folder : option string)
| OpenExternal (url : string)
| MigrationFailed (message : string)
| ShowErrorMessage (message : string).

Definition isPrompt (e : Effect) : bool :=
  match e with ShowMigrationPrompt _ _ => true | _ => false end.

Section Client.
Context `{SettingsGuards, NodeUtils, MigrationClass, Host, SharedSettings}.

Record Client : Type := {
  validator : Validator.t;
  syncedDocuments : gmap string TextDocument;
  migration : option Migration;
  notNow : bool;
  (** the editor, as it is now *)
  workspace : Workspace;
  effects : list Effect;
}.

Definition emit (e : Effect) (c : Client) : Client :=
  {| validator := validator c; syncedDocuments := syncedDocuments c;
     migration := migration c; notNow := notNow c; workspace := workspace c;
     effects := effects c ++ [e] |}.

Definition setValidator (v : Validator.t) (c : Client) : Client :=
  {| validator := v; syncedDocuments := syncedDocuments c;
     migration := migration c; notNow := notNow c; workspace := workspace c;
     effects := effects c |}.

Definition setSyncedDocuments (m : gmap string TextDocument) (c : Client) : Client :=
  {| validator := validator c; syncedDocuments := m;
     migration := migration c; notNow := notNow c; workspace := workspace c;
     effects := effects c |}.

Definition setMigration (m : option Migration) (c : Client) : Client :=
  {| validator := validator c; syncedDocuments := syncedDocuments c;
     migration := m; notNow := notNow c; workspace := workspace c;
     effects := effects c |}.

Definition setNotNow (b : bool) (c : Client) : Client :=
  {| validator := validator c; syncedDocuments := syncedDocuments c;
     migration := migration c; notNow := b; workspace := workspace c;
     effects := effects c |}.

Definition setWorkspace (ws : Workspace) (c : Client) : Client :=
  {| validator := validator c; syncedDocuments := syncedDocuments c;
     migration := migration c; notNow := notNow c; workspace := ws;
     effects := effects c |}.

(** The number of modal prompts shown so far. *)
Definition promptsShown (c : Client) : nat :=
  length (filter (fun e => isPrompt e = true) (effects c)).

Definition packageJsonFilter : DocumentFilter :=
  {| filter_scheme := "file"; filter_pattern := "**/package.json" |}.
Definition configFileFilter : DocumentFilter :=
  {| filter_scheme := "file";
     filter_pattern := "**/{.eslintr{c.js,c.yaml,c.yml,c,c.json},eslint.config.js}" |}.

(** The condition shared by the [didOpen] middleware and [filterCells]. *)
Definition shouldSync (c : Client) (document : TextDocument) : bool :=
  Languages_match packageJsonFilter document
  || Languages_match configFileFilter document
  || negb (Validate.eqb (Validator.check (validator c) (workspace c) document) Validate.off).

(** *** The middleware for single documents *)

(** [middleware.didOpen] *)
Definition didOpen (document : TextDocument) (c : Client) : Client :=
  if shouldSync c document then
    let c := emit (Next "textDocument/didOpen") c in
    setSyncedDocuments (<[toString (uri document) := document]> (syncedDocuments c)) c
  else c.

(** [middleware.didClose] *)
Definition didClose (document : TextDocument) (c : Client) : Client :=
  let uri := toString (uri document) in
  if bool_decide (is_Some (syncedDocuments c !! uri)) then
    let c := setSyncedDocuments (delete uri (syncedDocuments c)) c in
    emit (Next "textDocument/didClose") c
  else c.

(** *** The listeners and request handlers *)

(** [client.getFeature(method).getProvider(document)?.send(document)].
    The provider of the language client hands the document to the
    middleware of this file for that notification, with the sending itself
    as [next], before [send] returns; so the middleware decides whether the
    notification goes out, and updates [syncedDocuments], within the loop
    that calls [send]. Without a provider nothing happens. The promise that
    [send] returns is not awaited, and its [catch] only logs. *)
Definition sendDidClose (document : TextDocument) (c : Client) : Client :=
  if getProvider "textDocument/didClose" document
  then didClose document (emit (SendDidClose document) c)
  else c.

Definition sendDidOpen (document : TextDocument) (c : Client) : Client :=
  if getProvider "textDocument/didOpen" document
  then didOpen document (emit (SendDidOpen document) c)
  else c.

(** [Workspace.onDidChangeConfiguration]. The first loop goes over the
    entries of [syncedDocuments] while [send] deletes from it: an entry
    that has been deleted before its turn is not visited. *)
Definition onDidChangeConfiguration (c : Client) : Client :=
  let c := setValidator (Validator.clear (validator c)) c in
  let c :=
    fold_left (fun c entry =>
      if bool_decide (is_Some (syncedDocuments c !! fst entry))
         && Validate.eqb (Validator.check (validator c) (workspace c) (snd entry)) Validate.off
      then sendDidClose (snd entry) c else c)
      (map_to_list (syncedDocuments c)) c in
  fold_left (fun c textDocument =>
    if negb (bool_decide (is_Some (syncedDocuments c !! toString (uri textDocument))))
       && negb (Validate.eqb (Validator.check (validator c) (workspace c) textDocument) Validate.off)
    then sendDidOpen textDocument c else c)
    (textDocuments (workspace c)) c.

(** [client.onRequest(ProbeFailedRequest.type, ...)] *)
Definition onProbeFailed (params_textDocument_uri : string) (c : Client) : Client :=
  let c := setValidator (Validator.add (validator c) (protocol2Code_asUri params_textDocument_uri)) c in
  fold_left (fun c document =>
    if toString (uri document) =? params_textDocument_uri
    then sendDidClose document c else c)
    (textDocuments (workspace c)) c.

(** [middleware.workspace.didChangeWatchedFile] *)
Definition didChangeWatchedFile (c : Client) : Client :=
  let c := setValidator (Validator.clear (validator c)) c in
  emit (Next "workspace/didChangeWatchedFiles") c.

(** *** The middleware for notebooks *)

Definition syncCells (cells : list TextDocument) (c : Client) : Client :=
  fold_left (fun c document =>
    setSyncedDocuments (<[toString (uri document) := document]> (syncedDocuments c)) c)
    cells c.

Definition unsyncCells (cells : list TextDocument) (c : Client) : Client :=
  fold_left (fun c document =>
    setSyncedDocuments (delete (toString (uri document)) (syncedDocuments c)) c)
    cells c.

(** [middleware.notebooks.didOpen]; the cells are the ones [filterCells]
    let through. *)
Definition notebooksDidOpen (cells : list TextDocument) (c : Client) : Client :=
  syncCells cells (emit (Next "notebookDocument/didOpen") c).

(** [middleware.notebooks.didChange] *)
Definition notebooksDidChange (didOpenCells didCloseCells : option (list TextDocument))
    (c : Client) : Client :=
  let c := match didOpenCells with Some cells => syncCells cells c | None => c end in
  let c := match didCloseCells with Some cells => unsyncCells cells c | None => c end in
  emit (Next "notebookDocument/didChange") c.

(** [middleware.notebooks.didClose] *)
Definition notebooksDidClose (cells : list TextDocument) (c : Client) : Client :=
  emit (Next "notebookDocument/didClose") (unsyncCells cells c).

(** [notebookDocumentOptions.filterCells] *)
Definition filterCells (c : Client) (cells : list TextDocument) : list TextDocument :=
  filter (fun document => shouldSync c document = true) cells.

(** *** [readConfiguration] *)

(** Code that changes the client's state and may throw. An exception keeps
    the state changes made before it. *)
Definition M (A : Type) : Type := Client -> Result A * Client.

Definition ret {A} (a : A) : M A := fun c => (Ok a, c).

Definition bind {A B} (m : M A) (k : A -> M B) : M B :=
  fun c => match m c with
           | (Ok a, c') => k a c'
           | (Throw e, c') => (Throw e, c')
           end.

Definition gets {A} (f : Client -> A) : M A := fun c => (Ok (f c), c).

Definition modify (f : Client -> Client) : M unit := fun c => (Ok tt, f c).

Definition liftResult {A} (r : Result A) : M A := fun c => (r, c).

Notation "'let*' x ':=' m 'in' k" := (bind m (fun x => k))
  (at level 10, x name, m at level 100, k at level 200).
Notation "m ;; k" := (bind m (fun _ => k))
  (at level 100, k at level 200, right associativity).

Fixpoint mapM {A B} (f : A -> M B) (l : list A) : M (list B) :=
  match l with
  | [] => ret []
  | a :: rest =>
      let* b := f a in
      let* bs := mapM f rest in
      ret (b :: bs)
  end.

Fixpoint mapResult {A B} (f : A -> Result B) (l : list A) : Result (list B) :=
  match l with
  | [] => Ok []
  | a :: rest =>
      match f a with
      | Throw e => Throw e
      | Ok b => match mapResult f rest with
                | Throw e => Throw e
                | Ok bs => Ok (b :: bs)
                end
      end
  end.

Definition getTextDocument (c : Client) (uri : Uri) : option TextDocument :=
  syncedDocuments c !! toString uri.

(** The callback of [rawConfig.map]: [Some] customization, or [None] for
    [undefined]. *)
Definition parseRuleCustomization (rawValue : JValue) : Result (option RuleCustomization) :=
  match JS.getProperty rawValue "severity" with
  | Throw e => Throw e
  | Ok (JString severity) =>
      match JS.getProperty rawValue "rule" with
      | Throw e => Throw e
      | Ok (JString rule) => Ok (Some {| severity := severity; rule := rule |})
      | Ok _ => Ok None
      end
  | Ok _ => Ok None
  end.

Definition parseRulesCustomizations (rawConfig : JValue) : Result (list RuleCustomization) :=
  if negb (JS.truthy rawConfig) then Ok []
  else match JS.asArray rawConfig with
       | None => Ok []
       | Some rawValues =>
           match mapResult parseRuleCustomization rawValues with
           | Throw e => Throw e
           | Ok mapped => Ok (omap id mapped)
           end
       end.

Definition getRuleCustomizations (config : gmap string JValue) (uri : Uri)
    : Result (list RuleCustomization) :=
  let customizations :=
    if scheme uri =? "vscode-notebook-cell"
    then WorkspaceConfiguration.getOr config "notebooks.rules.customizations" JUndefined
    else JUndefined in
  let customizations :=
    match customizations with
    | JUndefined | JNull => WorkspaceConfiguration.get config "rules.customizations"
    | _ => customizations
    end in
  parseRulesCustomizations customizations.

(** [migrationSemaphore.lock(thunk)] for a request that does not overlap
    another one: the single slot is free, so the thunk runs at once and the
    slot is released when it is done. Overlapping requests are the subject
    of [Module Interleaving]. *)
Definition migrationSemaphore_lock {A} (thunk : M A) : M A := thunk.

(** The four buttons of the migration prompt; "Not now" is the one that a
    dismissal triggers. *)
Definition migrationItems : list MessageItem :=
  [ {| item_id := yes; isCloseAffordance := false |};
    {| item_id := global; isCloseAffordance := false |};
    {| item_id := readme; isCloseAffordance := false |};
    {| item_id := no; isCloseAffordance := true |} ].

(** What [await Window.showInformationMessage(..., { modal: true }, ...)]
    gives for the [n]-th prompt of the session. *)
Definition selectedAt (n : nat) : option ItemId :=
  showInformationMessage true migrationItems (userAction n).

(** The selected answer of the prompt, acted upon. An update of the
    settings that fails is caught and reported for "Yes"; for "Never
    migrate" nothing catches it. *)
Definition onSelected (m : Migration) (selected : option ItemId) : M unit :=
  match selected with
  | None => ret tt
  | Some yes =>
      let* ws := gets workspace in
      let (ws', error) := Migration_update m ws in
      modify (setWorkspace ws') ;;
      match error with
      | Some message => modify (emit (MigrationFailed message))
      | None => ret tt
      end
  | Some no => modify (setNotNow true)
  | Some global =>
      let* ws := gets workspace in
      let (ws', error) := config_update ws "migration.2_x" (JString "off") in
      modify (setWorkspace ws') ;;
      match error with
      | Some message => liftResult (Throw message)
      | None => ret tt
      end
  | Some readme =>
      modify (setNotNow true) ;;
      modify (emit (OpenExternal "https://github.com/microsoft/vscode-eslint#settings-migration"))
  | Some local => ret tt
  end.

(** [try { body } finally { finalizer }] *)
Definition tryFinally {A} (body : M A) (finalizer : Client -> Client) : M A :=
  fun c => let (r, c') := body c in (r, finalizer c').

(** The thunk passed to [migrationSemaphore.lock]. *)
Definition migrate (resource : Uri) (workspaceFolder : option WorkspaceFolder) : M unit :=
  let* ws := gets workspace in
  let globalMigration :=
    WorkspaceConfiguration.getOr (getConfiguration ws "eslint" None) "migration.2_x" (JString "on") in
  let* notNow := gets notNow in
  if negb notNow && JS.strictEqString globalMigration "on" then
    tryFinally
      (let m := Migration_record ws resource in
       modify (setMigration (Some m)) ;;
       if Migration_needsUpdate m then
         let folder := wf_name <$> workspaceFolder in
         let* n := gets promptsShown in
         modify (emit (ShowMigrationPrompt resource folder)) ;;
         onSelected m (selectedAt n)
       else ret tt)
      (setMigration None)
  else ret tt.

(** **** The working directory *)

(** What the chain of type tests at the head of the loop body leaves in
    [directory], [pattern] and [noCWD], or the [ModeItem] branch that ends
    in [continue]. *)
Inductive Entry : Type :=
| ModeEntry (item : ModeItem)
| Candidate (directory pattern : option string) (noCWD : bool).

Definition readEntry (entry : JValue) : Entry :=
  match entry with
  | JString s => Candidate (Some s) None false
  | _ =>
    match LegacyDirectoryItem_is entry with
    | Some e => Candidate (Some (legacy_directory e)) None (negb (changeProcessCWD e))
    | None =>
      match DirectoryItem_is entry with
      | Some e => Candidate (Some (directory e)) None (default false (notCwd e))
      | None =>
        match PatternItem_is entry with
        | Some e => Candidate None (Some (pattern e)) (default false (pattern_notCwd e))
        | None =>
          match ModeItem_is entry with
          | Some e => ModeEntry e
          | None => Candidate None None false
          end
        end
      end
    end
  end.

(** [if (s.charAt(s.length - 1) !== sep) { s = s + sep; }] *)
Definition terminate (sep s : string) : string :=
  if negb (JS.charAt s (Z.of_nat (String.length s) - 1) =? sep) then s +:+ sep else s.

(** [itemValue] at the end of the block that starts with
    [let itemValue: string | undefined]. *)
Definition itemValue (filePath workspaceFolderPath : option string)
    (directory pattern : option string) : option string :=
  match directory, pattern with
  | None, None => None
  | _, _ =>
    match filePath with
    | None => None
    | Some filePath =>
      match directory with
      | Some directory =>
          let directory := toOSPath directory in
          let directory :=
            match workspaceFolderPath with
            | Some root =>
                if negb (path_isAbsolute directory) then path_join root directory
                else directory
            | None => directory
            end in
          let directory := terminate path_sep directory in
          if JS.startsWith filePath directory then Some directory else None
      | None =>
        match pattern with
        | Some pattern =>
            if (0 <? String.length pattern)%nat then
              let pattern :=
                match workspaceFolderPath with
                | Some root =>
                    if negb (path_posix_isAbsolute pattern)
                    then path_posix_join (toPosixPath root) pattern
                    else pattern
                | None => pattern
                end in
              let pattern := terminate path_posix_sep pattern in
              match convert2RegExp pattern with
              | Some regExp =>
                  match RegExp_exec regExp filePath with
                  | Some (match0 :: _) => Some match0
                  | _ => None
                  end
              | None => None
              end
            else None
        | None => None
        end
      end
    end
  end.

(** One round of [for (const entry of workingDirectories)].
    [ModeItem.is(workingDirectory)] tells the two members of the union
    [ModeItem | DirectoryItem] apart. *)
Definition workingDirectoryStep (filePath workspaceFolderPath : option string)
    (workingDirectory : option WorkingDirectory) (entry : JValue)
    : option WorkingDirectory :=
  match readEntry entry with
  | ModeEntry item => Some (WDMode item)
  | Candidate dir pat noCWD =>
      match itemValue filePath workspaceFolderPath dir pat with
      | Some itemValue =>
          match workingDirectory with
          | None | Some (WDMode _) =>
              Some (WDDirectory {| directory := itemValue; notCwd := Some noCWD |})
          | Some (WDDirectory current) =>
              if (String.length (directory current) <? String.length itemValue)%nat
              then Some (WDDirectory {| directory := itemValue; notCwd := Some noCWD |})
              else workingDirectory
          end
      | None => workingDirectory
      end
  end.

Definition documentFilePath (document : TextDocument) : option string :=
  if scheme (uri document) =? "file" then Some (fsPath (uri document)) else None.

Definition folderPath (workspaceFolder : option WorkspaceFolder) : option string :=
  match workspaceFolder with
  | Some folder =>
      if scheme (wf_uri folder) =? "file" then Some (fsPath (wf_uri folder)) else None
  | None => None
  end.

(** The value assigned to [settings.workingDirectory] when
    [workingDirectories] is an array. *)
Definition selectWorkingDirectory (document : TextDocument)
    (workspaceFolder : option WorkspaceFolder) (workingDirectories : list JValue)
    : option WorkingDirectory :=
  fold_left (workingDirectoryStep (documentFilePath document) (folderPath workspaceFolder))
    workingDirectories None.

(** **** The settings of one item *)

(** The object literal assigned to [settings]. *)
Definition initialSettings (config : gmap string JValue) (rules : list RuleCustomization)
    : ConfigurationSettings :=
  {| validate := Validate.off;
     packageManager := WorkspaceConfiguration.getOr config "packageManager" (JString "npm");
     useESLintClass := WorkspaceConfiguration.getOr config "useESLintClass" (JBool false);
     experimentalUseFlatConfig :=
       WorkspaceConfiguration.getOr config "experimentalUseFlatConfig" (JBool false);
     codeActionOnSave := {| caos_mode := CodeActionsOnSaveMode_all; caos_rules := JUndefined |};
     format := false;
     quiet := WorkspaceConfiguration.getOr config "quiet" (JBool false);
     onIgnoredFiles :=
       ESLintSeverity_from (WorkspaceConfiguration.getOr config "onIgnoredFiles" ESLintSeverity_off);
     options := WorkspaceConfiguration.getOr config "options" (JObject []);
     rulesCustomizations := rules;
     run := WorkspaceConfiguration.getOr config "run" (JString "onType");
     nodePath :=
       match WorkspaceConfiguration.getOr config "nodePath" JUndefined with
       | JUndefined | JNull => JNull
       | v => v
       end;
     workingDirectory := None;
     workspaceFolder := None;
     disableRuleComment :=
       WorkspaceConfiguration.getOr config "codeAction.disableRuleComment"
         (JObject [("enable", JBool true); ("location", JString "separateLine");
                   ("commentStyle", JString "line")]);
     showDocumentation :=
       WorkspaceConfiguration.getOr config "codeAction.showDocumentation"
         (JObject [("enable", JBool true)]) |}.

Definition setValidate (v : Validate.t) (s : ConfigurationSettings) : ConfigurationSettings :=
  {| validate := v; packageManager := packageManager s; useESLintClass := useESLintClass s;
     experimentalUseFlatConfig := experimentalUseFlatConfig s;
     codeActionOnSave := codeActionOnSave s; format := format s; quiet := quiet s;
     onIgnoredFiles := onIgnoredFiles s; options := options s;
     rulesCustomizations := rulesCustomizations s; run := run s; nodePath := nodePath s;
     workingDirectory := workingDirectory s; workspaceFolder := workspaceFolder s;
     disableRuleComment := disableRuleComment s; showDocumentation := showDocumentation s |}.

Definition setFormat (b : bool) (caos : CodeActionOnSave) (s : ConfigurationSettings)
    : ConfigurationSettings :=
  {| validate := validate s; packageManager := packageManager s;
     useESLintClass := useESLintClass s;
     experimentalUseFlatConfig := experimentalUseFlatConfig s;
     codeActionOnSave := caos; format := b; quiet := quiet s;
     onIgnoredFiles := onIgnoredFiles s; options := options s;
     rulesCustomizations := rulesCustomizations s; run := run s; nodePath := nodePath s;
     workingDirectory := workingDirectory s; workspaceFolder := workspaceFolder s;
     disableRuleComment := disableRuleComment s; showDocumentation := showDocumentation s |}.

Definition setWorkspaceFolder (f : option WorkspaceFolderSettings) (s : ConfigurationSettings)
    : ConfigurationSettings :=
  {| validate := validate s; packageManager := packageManager s;
     useESLintClass := useESLintClass s;
     experimentalUseFlatConfig := experimentalUseFlatConfig s;
     codeActionOnSave := codeActionOnSave s; format := format s; quiet := quiet s;
     onIgnoredFiles := onIgnoredFiles s; options := options s;
     rulesCustomizations := rulesCustomizations s; run := run s; nodePath := nodePath s;
     workingDirectory := workingDirectory s; workspaceFolder := f;
     disableRuleComment := disableRuleComment s; showDocumentation := showDocumentation s |}.

Definition setWorkingDirectory (wd : option WorkingDirectory) (s : ConfigurationSettings)
    : ConfigurationSettings :=
  {| validate := validate s; packageManager := packageManager s;
     useESLintClass := useESLintClass s;
     experimentalUseFlatConfig := experimentalUseFlatConfig s;
     codeActionOnSave := codeActionOnSave s; format := format s; quiet := quiet s;
     onIgnoredFiles := onIgnoredFiles s; options := options s;
     rulesCustomizations := rulesCustomizations s; run := run s; nodePath := nodePath s;
     workingDirectory := wd; workspaceFolder := workspaceFolder s;
     disableRuleComment := disableRuleComment s; showDocumentation := showDocumentation s |}.

(** The truthiness of an optional string property. *)
Definition given (s : option string) : bool :=
  match s with
  | Some s => negb (s =? "")
  | None => false
  end.

(** What [readConfiguration] does with [settings] once the synced
    [document] of the item is at hand. *)
Definition completeSettings (config : gmap string JValue)
    (workspaceFolder : option WorkspaceFolder) (document : TextDocument)
    (settings : ConfigurationSettings) : M ConfigurationSettings :=
  let* settings :=
    if JS.truthy (WorkspaceConfiguration.getOr config "enabled" (JBool true)) then
      let* v := gets (fun c => Validator.check (validator c) (workspace c) document) in
      ret (setValidate v settings)
    else ret settings in
  let settings :=
    if negb (Validate.eqb (validate settings) Validate.off) then
      setFormat
        (JS.truthy (WorkspaceConfiguration.getOr config "format.enable" (JBool false)))
        {| caos_mode :=
             CodeActionsOnSaveMode_from
               (WorkspaceConfiguration.getOr config "codeActionsOnSave.mode"
                  CodeActionsOnSaveMode_all);
           caos_rules :=
             CodeActionsOnSaveRules_from
               (WorkspaceConfiguration.getOr config "codeActionsOnSave.rules" JNull) |}
        settings
    else settings in
  let settings :=
    match workspaceFolder with
    | Some folder =>
        setWorkspaceFolder
          (Some {| wfs_name := wf_name folder; wfs_uri := code2Protocol_asUri (wf_uri folder) |})
          settings
    | None => settings
    end in
  let workingDirectories :=
    WorkspaceConfiguration.getOr config "workingDirectories" JUndefined in
  let settings :=
    match JS.asArray workingDirectories with
    | Some entries =>
        setWorkingDirectory (selectWorkingDirectory document workspaceFolder entries) settings
    | None => settings
    end in
  ret settings.

(** The body of [for (const item of params.items)]; [None] is the [null]
    pushed for an item that is not a per-resource lookup. *)
Definition readItem (item : ConfigurationItem) : M (option ConfigurationSettings) :=
  if given (section item) || negb (given (scopeUri item)) then ret None
  else
    let item_scopeUri := default "" (scopeUri item) in
    let resource := protocol2Code_asUri item_scopeUri in
    let* textDocument := gets (fun c => getTextDocument c resource) in
    let* ws := gets workspace in
    let config :=
      getConfiguration ws "eslint"
        (Some match textDocument with
              | Some document => ScopeDocument document
              | None => ScopeUri resource
              end) in
    let workspaceFolder :=
      if scheme resource =? "untitled" then
        match workspaceFolders ws with
        | Some folders => head folders
        | None => None
        end
      else getWorkspaceFolder ws resource in
    migrationSemaphore_lock (migrate resource workspaceFolder) ;;
    let* rules := liftResult (getRuleCustomizations config resource) in
    let settings := initialSettings config rules in
    let* document := gets (fun c => syncedDocuments c !! item_scopeUri) in
    match document with
    | None => ret (Some settings)
    | Some document =>
        let* settings := completeSettings config workspaceFolder document settings in
        ret (Some settings)
    end.

Definition readConfiguration (params : ConfigurationParams)
    : M (list (option ConfigurationSettings)) :=
  match items params with
  | None => ret []
  | Some items => mapM readItem items
  end.

(** *** The session *)

(** The events of a session. [EditorChanged ws] is the editor moving on by
    itself (settings edited, documents opened or closed, a language mode
    changed); the others are the listeners, middleware and request handlers
    being called. *)
Inductive Event : Type :=
| EditorChanged (ws : Workspace)
| DidChangeConfiguration
| ProbeFailedRequest (uri : string)
| DidChangeWatchedFile
| DidOpen (document : TextDocument)
| DidClose (document : TextDocument)
| NotebooksDidOpen (cells : list TextDocument)
| NotebooksDidChange (didOpenCells didCloseCells : option (list TextDocument))
| NotebooksDidClose (cells : list TextDocument)
| ConfigurationRequest (params : ConfigurationParams).

Definition handle (c : Client) (e : Event) : Client :=
  match e with
  | EditorChanged ws => setWorkspace ws c
  | DidChangeConfiguration => onDidChangeConfiguration c
  | ProbeFailedRequest uri => onProbeFailed uri c
  | DidChangeWatchedFile => didChangeWatchedFile c
  | DidOpen document => didOpen document c
  | DidClose document => didClose document c
  | NotebooksDidOpen cells => notebooksDidOpen cells c
  | NotebooksDidChange o cl => notebooksDidChange o cl c
  | NotebooksDidClose cells => notebooksDidClose cells c
  | ConfigurationRequest params => snd (readConfiguration params c)
  end.

Definition runEvents (events : list Event) (c : Client) : Client :=
  fold_left handle events c.

(** The state right after [ESLintClient.create]. *)
Definition create (validator : Validator.t) (ws : Workspace) : Client :=
  {| validator := validator; syncedDocuments := ∅; migration := None; notNow := false;
     workspace := ws; effects := [] |}.

End Client.

(** ** The validation policy in the words of its description *)

Section Policy.
Context `{SettingsGuards}.

(** The configuration's [enable] flag; it is on unless set. *)
Definition enableFlag (config : gmap string JValue) : bool :=
  JS.truthy (WorkspaceConfiguration.getOr config "enable" (JBool true)).

(** A configured list; a setting that is not an array is no list at all. *)
Definition configuredList (config : gmap string JValue) (key : string) : list JValue :=
  default [] (JS.asArray (WorkspaceConfiguration.get config key)).

(** An entry of the [validate] list names a language tag when it is that
    tag as a plain string, or a descriptor whose [language] is that tag. *)
Definition namesLanguage (languageId : string) (entry : JValue) : bool :=
  JS.strictEqString entry languageId
  || match ValidateItem_is entry with
     | Some descriptor => language descriptor =? languageId
     | None => false
     end.

Definition isLanguage (languageId : string) (entry : JValue) : bool :=
  JS.strictEqString entry languageId.

(** The five rules, in order, the first match winning. *)
Definition classify (enable : bool) (validateList probeList : list JValue)
    (probeFailedSet : gset string) (uri languageId : string) : Validate.t :=
  if negb enable then Validate.off
  else if existsb (namesLanguage languageId) validateList then Validate.on
  else if bool_decide (uri ∈ probeFailedSet) then Validate.off
  else if existsb (isLanguage languageId) probeList then Validate.probe
  else Validate.off.

(** The configuration that [check] consults for a document. *)
Definition configOf (ws : Workspace) (document : TextDocument) : gmap string JValue :=
  getConfiguration ws "eslint" (Some (ScopeUri (uri document))).

End Policy.

(** ** A concrete host *)

(** Instances of the collaborators on which the definitions above can be
    evaluated. *)
Module Sample.

Definition stringProperty (v : JValue) (key : string) : option string :=
  match v with
  | JObject props => match JS.assoc key props with JString s => Some s | _ => None end
  | _ => None
  end.

Definition boolProperty (v : JValue) (key : string) : option bool :=
  match v with
  | JObject props => match JS.assoc key props with JBool b => Some b | _ => None end
  | _ => None
  end.

(** Modelled from the spec: the type guards of [./settings] and
    [./shared/settings], whose sources are in other files. A descriptor is
    an object that carries the string property it is named after:
    [{language}], [{directory}] with or without ['!cwd'], the legacy
    [{directory, changeProcessCWD}], [{pattern}] and [{mode}]. *)
Definition guards : SettingsGuards :=
  {| ValidateItem_is v :=
       l ← stringProperty v "language";
       Some {| language := l; autoFix := boolProperty v "autoFix" |};
     LegacyDirectoryItem_is v :=
       d ← stringProperty v "directory";
       b ← boolProperty v "changeProcessCWD";
       Some {| legacy_directory := d; changeProcessCWD := b |};
     DirectoryItem_is v :=
       d ← stringProperty v "directory";
       Some {| directory := d; notCwd := boolProperty v "!cwd" |};
     PatternItem_is v :=
       p ← stringProperty v "pattern";
       Some {| pattern := p; pattern_notCwd := boolProperty v "!cwd" |};
     ModeItem_is v :=
       m ← stringProperty v "mode";
       Some {| mode := m |} |}.

(** A POSIX host. Paths are joined without normalisation, and a pattern is
    compiled to the expression that matches it literally at the start of
    the path, which is what [convert2RegExp] gives for a pattern without
    wildcards. *)
Definition posix : NodeUtils :=
  {| RegExp := string;
     toOSPath s := s;
     toPosixPath s := s;
     path_sep := "/";
     path_isAbsolute s := String.prefix "/" s;
     path_join a b := a +:+ "/" +:+ b;
     path_posix_isAbsolute s := String.prefix "/" s;
     path_posix_join a b := a +:+ "/" +:+ b;
     convert2RegExp p := Some p;
     RegExp_exec p s := if String.prefix p s then Some [p] else None |}.

(** A migration that is needed for as long as the legacy setting
    [autoFixOnSave] is set, and whose update leaves the settings alone. *)
Definition legacySetting : MigrationClass :=
  {| Migration := bool;
     Migration_record ws resource :=
       JS.truthy
         (WorkspaceConfiguration.get
            (getConfiguration ws "eslint" (Some (ScopeUri resource))) "autoFixOnSave");
     Migration_needsUpdate m := m;
     Migration_update m ws := (ws, None) |}.

Definition fileUri (path : string) : Uri :=
  {| scheme := "file"; fsPath := path; toString := "file://" +:+ path |}.

Definition parseUri (s : string) : Uri :=
  if String.prefix "file://" s
  then {| scheme := "file"; fsPath := substring 7 (String.length s - 7) s; toString := s |}
  else {| scheme := "untitled"; fsPath := s; toString := s |}.

(** A host whose user does [actions n] with the [n]-th prompt, whose
    settings can always be written, and whose language client has a
    provider for every document. *)
Definition host (actions : nat -> UserAction) : Host :=
  {| protocol2Code_asUri := parseUri;
     code2Protocol_asUri := toString;
     Languages_match _ _ := false;
     userAction := actions;
     config_update ws key value :=
       ({| getConfiguration section scope := <[key := value]> (getConfiguration ws section scope);
           workspaceFolders := workspaceFolders ws;
           getWorkspaceFolder := getWorkspaceFolder ws;
           textDocuments := textDocuments ws |}, None);
     getProvider _ _ := true |}.

Definition sharedSettings : SharedSettings :=
  {| ESLintSeverity_off := JString "off";
     ESLintSeverity_from v := v;
     CodeActionsOnSaveMode_all := JString "all";
     CodeActionsOnSaveMode_from v := v;
     CodeActionsOnSaveRules_from v := v |}.

(** An editor with the same settings for every scope and no workspace
    folder. *)
Definition editor (config : gmap string JValue) (documents : list TextDocument) : Workspace :=
  {| getConfiguration _ _ := config;
     workspaceFolders := None;
     getWorkspaceFolder _ := None;
     textDocuments := documents |}.

Definition javascript (path : string) : TextDocument :=
  {| uri := fileUri path; languageId := "javascript" |}.

Definition directoryRule (d : string) : JValue := JObject [("directory", JString d)].
Definition patternRule (p : string) : JValue := JObject [("pattern", JString p)].
Definition modeRule (m : string) : JValue := JObject [("mode", JString m)].

Definition client (ws : Workspace) : @Client legacySetting :=
  @create legacySetting Validator.new ws.

(** A user who dismisses every prompt, and one who answers "Not now". *)
Definition dismissing : Host := host (fun _ => Dismisses).
Definition declining : Host := host (fun _ => Picks no).

(** A user who answers "Never migrate Settings", on a host whose user
    settings cannot be written. *)
Definition readOnly : Host :=
  {| protocol2Code_asUri := parseUri;
     code2Protocol_asUri := toString;
     Languages_match _ _ := false;
     userAction _ := Picks global;
     config_update ws key value := (ws, Some "Unable to write into user settings.");
     getProvider _ _ := true |}.

(** JavaScript and TypeScript are probed, TypeScript is also validated. *)
Definition probing : Workspace :=
  editor {[ "probe" := JArray [JString "javascript"; JString "typescript"];
            "validate" := JArray [JString "typescript"] ]}
    [javascript "/a/b.js"].

(** The legacy auto-fix-on-save setting is present. *)
Definition legacy : Workspace :=
  editor {[ "autoFixOnSave" := JBool true;
            "validate" := JArray [JString "javascript"] ]}
    [javascript "/a/b.js"].

(** The rules-customization array has a [null] entry. *)
Definition nullRule : Workspace :=
  editor {[ "rules.customizations" :=
              JArray [JObject [("rule", JString "no-*"); ("severity", JString "warn")];
                      JNull] ]}
    [javascript "/a/b.js"].

Definition request (scopeUri : string) (section : option string) : ConfigurationParams :=
  {| items := Some [ {| scopeUri := Some scopeUri; section := section |} ] |}.

End Sample.

(** ** The working-directory rules in the words of their description *)

Section Rules.
Context `{SettingsGuards, NodeUtils}.

(** A [Mode] rule is an entry that takes the [ModeItem] branch. *)
Definition isModeRule (entry : JValue) : bool :=
  match readEntry entry with
  | ModeEntry _ => true
  | Candidate _ _ _ => false
  end.

(** The match of a [Directory] or [Pattern] rule on a file path: its match
    value and the [noCWD] flag that comes with it. A [Mode] rule has none. *)
Definition matchOf (filePath workspaceFolderPath : option string) (entry : JValue)
    : option (string * bool) :=
  match readEntry entry with
  | ModeEntry _ => None
  | Candidate dir pat noCWD =>
      (fun value => (value, noCWD)) <$> itemValue filePath workspaceFolderPath dir pat
  end.

(** Every match of [entry] is shorter than [n] characters. *)
Definition matchesBelow (filePath workspaceFolderPath : option string) (n : nat)
    (entry : JValue) : Prop :=
  forall value noCWD,
    matchOf filePath workspaceFolderPath entry = Some (value, noCWD) ->
    (String.length value < n)%nat.

(** Every match of [entry] has at most [n] characters. *)
Definition matchesUpTo (filePath workspaceFolderPath : option string) (n : nat)
    (entry : JValue) : Prop :=
  forall value noCWD,
    matchOf filePath workspaceFolderPath entry = Some (value, noCWD) ->
    (String.length value <= n)%nat.

(** [value] is the longest match of the rules on the file path, and the
    first declared one among those of its length. *)
Definition longestFirstDeclared (filePath workspaceFolderPath : option string)
    (entries : list JValue) (value : string) (noCWD : bool) : Prop :=
  exists before entry after,
    entries = (before ++ entry :: after)%list
    /\ matchOf filePath workspaceFolderPath entry = Some (value, noCWD)
    /\ Forall (matchesBelow filePath workspaceFolderPath (String.length value)) before
    /\ Forall (matchesUpTo filePath workspaceFolderPath (String.length value)) after.


(** What the loop has in [workingDirectory] after the rules [entries]. *)
Definition selected (filePath workspaceFolderPath : option string)
    (entries : list JValue) (current : option WorkingDirectory) : Prop :=
  match current with
  | None => Forall (fun e => matchOf filePath workspaceFolderPath e = None) entries
  | Some (WDMode item) =>
      Forall (fun e => matchOf filePath workspaceFolderPath e = None) entries
      /\ exists entry, entry ∈ entries /\ readEntry entry = ModeEntry item
  | Some (WDDirectory item) =>
      exists noCWD,
        notCwd item = Some noCWD
        /\ longestFirstDeclared filePath workspaceFolderPath entries (directory item) noCWD
  end.

End Rules.

(** ** Configuration resolution in the words of its description *)

Section Resolution.
Context `{SettingsGuards, NodeUtils, MigrationClass, Host, SharedSettings}.

(** A well-formed rule customization: an object whose [severity] and
    [rule] are strings. Anything else is malformed. *)
Definition customizationOf (rawValue : JValue) : option RuleCustomization :=
  match rawValue with
  | JObject props =>
      match JS.assoc "severity" props, JS.assoc "rule" props with
      | JString severity, JString rule => Some {| severity := severity; rule := rule |}
      | _, _ => None
      end
  | _ => None
  end.

(** An entry on which a property can be read. *)
Definition readable (rawValue : JValue) : bool :=
  match rawValue with
  | JUndefined | JNull => false
  | _ => true
  end.

(** A rules-customization source all of whose entries are readable. *)
Definition readableSource (rawConfig : JValue) : bool :=
  match rawConfig with
  | JArray rawValues => forallb readable rawValues
  | _ => true
  end.

(** The editor holds readable rules-customization sources for every
    scope. *)
Definition readableCustomizations (ws : Workspace) : Prop :=
  forall scope,
    let config := getConfiguration ws "eslint" scope in
    readableSource (WorkspaceConfiguration.get config "notebooks.rules.customizations") = true
    /\ readableSource (WorkspaceConfiguration.get config "rules.customizations") = true.

(** The item is not a per-resource lookup: it has a section that is not
    the empty string, or no scope URI other than the empty string. *)
Definition notPerResource (item : ConfigurationItem) : bool :=
  given (section item) || negb (given (scopeUri item)).

Definition resourceOf (item : ConfigurationItem) : Uri :=
  protocol2Code_asUri (default "" (scopeUri item)).

(** The configuration snapshot [readConfiguration] takes for an item. *)
Definition itemConfig (c : Client) (item : ConfigurationItem) : gmap string JValue :=
  getConfiguration (workspace c) "eslint"
    (Some match getTextDocument c (resourceOf item) with
          | Some document => ScopeDocument document
          | None => ScopeUri (resourceOf item)
          end).

(** The workspace folder [readConfiguration] takes for an item. *)
Definition itemFolder (c : Client) (item : ConfigurationItem) : option WorkspaceFolder :=
  if scheme (resourceOf item) =? "untitled" then
    match workspaceFolders (workspace c) with
    | Some folders => head folders
    | None => None
    end
  else getWorkspaceFolder (workspace c) (resourceOf item).

(** The state in which the settings of an item are built: the one its
    migration step leaves. *)
Definition afterMigration (c : Client) (item : ConfigurationItem) : Client :=
  snd (migrate (resourceOf item) (itemFolder c item) c).

(** The result entry of an item: [null] when the item is not a
    per-resource lookup, settings otherwise. *)
Definition answers (item : ConfigurationItem) (result : option ConfigurationSettings)
    : Prop :=
  if notPerResource item then result = None else is_Some result.

(** The resource-level flag read under the key [enabled]; on unless set. *)
Definition resourceEnabled (config : gmap string JValue) : bool :=
  JS.truthy (WorkspaceConfiguration.getOr config "enabled" (JBool true)).

End Resolution.

(** ** Relations between two states of a session *)

Section Steps.
Context `{SettingsGuards, NodeUtils, MigrationClass, Host, SharedSettings}.

(** A step is silent when it shows no prompt and keeps the validator, the
    deferral flag and the editor; it may send notifications and change the
    set of synced documents. *)
Definition silent (c c' : Client) : Prop :=
  validator c' = validator c /\ notNow c' = notNow c /\ workspace c' = workspace c
  /\ promptsShown c' = promptsShown c.

(** Every run of [m] relates the state before to the state after, whether
    it returns or throws. *)
Definition respects {A} (R : relation Client) (m : M A) : Prop :=
  forall c, R c (snd (m c)).

(** The events whose handler calls [validator.clear()]. *)
Definition clearsProbeFailed (e : Event) : bool :=
  match e with
  | DidChangeConfiguration | DidChangeWatchedFile => true
  | _ => false
  end.

Definition keepsValidator (c c' : Client) : Prop := validator c' = validator c.

(** The answers that set [notNow]: "Not now" and "Open Readme". *)
Definition defers (selected : option ItemId) : bool :=
  match selected with
  | Some no | Some readme => true
  | _ => false
  end.

(** How the prompts and the deferral flag move between two states of a
    session: prompts are only added; once [notNow] is set it stays set and
    nothing is added; and a deferring answer to one of the added prompts
    leaves [notNow] set. *)
Definition deferral (c c' : Client) : Prop :=
  (promptsShown c <= promptsShown c')%nat
  /\ (notNow c = true -> notNow c' = true /\ promptsShown c' = promptsShown c)
  /\ (forall n, (promptsShown c <= n < promptsShown c')%nat ->
        defers (selectedAt n) = true -> notNow c' = true).

(** The validator and the synced documents are the same after [migrate]. *)
Definition keepsDocuments (c c' : Client) : Prop :=
  validator c' = validator c /\ syncedDocuments c' = syncedDocuments c.

(** The editor keeps readable customizations across a step. *)
Definition keepsReadable (c c' : Client) : Prop :=
  readableCustomizations (workspace c) -> readableCustomizations (workspace c').

End Steps.

(** ** Overlapping configuration requests *)

(** [readConfiguration] and [migrateSettings] are asynchronous: a call is
    suspended at each [await], and other calls and events run in between.
    Here they are cut at their awaits and interleaved turn by turn, on the
    state that the handlers share. *)
Module Interleaving.

Section System.
Context `{SettingsGuards, NodeUtils, MigrationClass, Host, SharedSettings}.

(** *** [readConfiguration], cut at [await migrationSemaphore.lock(...)] *)

(** A request suspended at the [await]: what the loop body has computed for
    the item it is at, the items still to come and the results pushed so
    far. *)
Record Suspended : Type := {
  at_scopeUri : string;
  at_resource : Uri;
  at_config : gmap string JValue;
  at_workspaceFolder : option WorkspaceFolder;
  rest : list ConfigurationItem;
  result : list (option ConfigurationSettings);
}.

(** From the head of the loop to the next call of [lock], or to the
    [return] after the last item. *)
Fixpoint advance (items : list ConfigurationItem)
    (result : list (option ConfigurationSettings)) (c : Client)
    : Suspended + list (option ConfigurationSettings) :=
  match items with
  | [] => inr result
  | item :: rest =>
      if given (section item) || negb (given (scopeUri item)) then
        advance rest (result ++ [None])%list c
      else
        inl {| at_scopeUri := default "" (scopeUri item);
               at_resource := resourceOf item;
               at_config := itemConfig c item;
               at_workspaceFolder := itemFolder c item;
               rest := rest;
               result := result |}
  end.

(** From the entry of [readConfiguration]. *)
Definition begin (params : ConfigurationParams) (c : Client)
    : Suspended + list (option ConfigurationSettings) :=
  match items params with
  | None => inr []
  | Some items => advance items [] c
  end.

(** The loop body after the [await], up to [result.push(settings)]. *)
Definition itemSettings (request : Suspended) : M ConfigurationSettings :=
  bind (liftResult (getRuleCustomizations (at_config request) (at_resource request)))
    (fun rules =>
       let settings := initialSettings (at_config request) rules in
       bind (gets (fun c => syncedDocuments c !! at_scopeUri request))
         (fun document =>
            match document with
            | None => ret settings
            | Some document =>
                completeSettings (at_config request) (at_workspaceFolder request)
                  document settings
            end)).

(** *** The thunk, cut at the [await] of the prompt *)

(** One call of [migrationSemaphore.lock], with the request that awaits
    it. *)
Record Call : Type := {
  call_id : nat;
  call_request : Suspended;
}.

(** Where a thunk that has been started is: at its first statement, at the
    [await] of the prompt, or past its [finally] clause with its outcome. *)
Inductive Stage : Type :=
| Entered
| Prompting (m : Migration)
| Leaving (outcome : Result unit).

(** The thunk from its first statement to the [await] of the prompt:
    [Some m] when the prompt has been shown for the migration [m]. *)
Definition beforePrompt (call : Call) (c : Client) : Client * option Migration :=
  let globalMigration :=
    WorkspaceConfiguration.getOr (getConfiguration (workspace c) "eslint" None)
      "migration.2_x" (JString "on") in
  if negb (notNow c) && JS.strictEqString globalMigration "on" then
    let m := Migration_record (workspace c) (at_resource (call_request call)) in
    let c := setMigration (Some m) c in
    if Migration_needsUpdate m then
      (emit (ShowMigrationPrompt (at_resource (call_request call))
               (wf_name <$> at_workspaceFolder (call_request call))) c, Some m)
    else (setMigration None c, None)
  else (c, None).

(** The thunk from the answer of the prompt to its end. *)
Definition afterPrompt (m : Migration) (selected : option ItemId) : M unit :=
  tryFinally (onSelected m selected) (setMigration None).

(** *** [migrateSettings], cut at its two awaits *)

(** Where a call of [migrateSettings] is: at [await pickFolder(...)], or at
    [await migration.update()] with the migration it has recorded. *)
Inductive CommandStage : Type :=
| Picking (folders : list WorkspaceFolder)
| Updating (m : Migration).

(** *** The turns *)

(** Modelled from the spec: the [Semaphore] of [./node-utils], whose source
    is in another file. It is the single-slot mutual-exclusion gate of the
    description: [capacity] is one, [lock] queues the thunk, a queued thunk
    is started only while fewer than [capacity] thunks are active, and the
    slot is given back when the thunk has finished, on every path; the
    promise of [lock] then settles as the thunk did. [active] is the
    semaphore's own counter; [running] holds the thunks that have really
    been started and have not finished. [returned] collects what the
    requests have been answered, and [commands] holds the calls of
    [migrateSettings] that have not returned. *)
Record System : Type := {
  shared : Client;
  issued : nat;
  active : nat;
  waiting : list Call;
  running : gmap nat (Call * Stage);
  returned : list (Result (list (option ConfigurationSettings)));
  commands : gmap nat CommandStage;
}.

Definition capacity : nat := 1.

Definition initial (c : Client) : System :=
  {| shared := c; issued := 0; active := 0; waiting := []; running := ∅;
     returned := []; commands := ∅ |}.

Definition setShared (c : Client) (s : System) : System :=
  {| shared := c; issued := issued s; active := active s; waiting := waiting s;
     running := running s; returned := returned s; commands := commands s |}.

Definition setRunning (r : gmap nat (Call * Stage)) (s : System) : System :=
  {| shared := shared s; issued := issued s; active := active s; waiting := waiting s;
     running := r; returned := returned s; commands := commands s |}.

Definition setCommands (m : gmap nat CommandStage) (s : System) : System :=
  {| shared := shared s; issued := issued s; active := active s; waiting := waiting s;
     running := running s; returned := returned s; commands := m |}.

(** The request is answered, or rejected. *)
Definition answer (r : Result (list (option ConfigurationSettings))) (s : System) : System :=
  {| shared := shared s; issued := issued s; active := active s; waiting := waiting s;
     running := running s; returned := returned s ++ [r]; commands := commands s |}.

(** [migrationSemaphore.lock(thunk)]: the thunk is queued. *)
Definition lock (request : Suspended) (s : System) : System :=
  {| shared := shared s; issued := S (issued s); active := active s;
     waiting := waiting s ++ [{| call_id := issued s; call_request := request |}];
     running := running s; returned := returned s; commands := commands s |}.

(** The request goes on to its next [await] or to its end. *)
Definition enter (next : Suspended + list (option ConfigurationSettings)) (s : System)
    : System :=
  match next with
  | inl request => lock request s
  | inr result => answer (Ok result) s
  end.

(** The semaphore starts the first thunk of its queue. *)
Definition start (call : Call) (queue : list Call) (s : System) : System :=
  {| shared := shared s; issued := issued s; active := S (active s); waiting := queue;
     running := <[call_id call := (call, Entered)]> (running s);
     returned := returned s; commands := commands s |}.

(** The semaphore takes the slot back. *)
Definition release (call : Call) (s : System) : System :=
  {| shared := shared s; issued := issued s; active := pred (active s);
     waiting := waiting s; running := delete (call_id call) (running s);
     returned := returned s; commands := commands s |}.

(** The request that awaited the call goes on: rejected as the thunk was,
    or through the rest of the loop body and on to the next item. *)
Definition resume (call : Call) (outcome : Result unit) (s : System) : System :=
  match outcome with
  | Throw message => answer (Throw message) s
  | Ok _ =>
      match itemSettings (call_request call) (shared s) with
      | (Throw message, c) => answer (Throw message) (setShared c s)
      | (Ok settings, c) =>
          enter (advance (rest (call_request call))
                   (result (call_request call) ++ [Some settings])%list c)
            (setShared c s)
      end
  end.

(** [migrateSettings] up to [await pickFolder(...)]. *)
Definition command (s : System) : System :=
  match workspaceFolders (workspace (shared s)) with
  | None =>
      setShared
        (emit (ShowErrorMessage
                 "ESLint settings can only be converted if VS Code is opened on a workspace folder.")
           (shared s)) s
  | Some folders =>
      {| shared := shared s; issued := S (issued s); active := active s;
         waiting := waiting s; running := running s; returned := returned s;
         commands := <[issued s := Picking folders]> (commands s) |}
  end.

(** [migrateSettings] from the folder picked to [await migration.update()],
    or to its end. *)
Definition picked (id : nat) (choice : option WorkspaceFolder) (s : System) : System :=
  match choice with
  | None => setCommands (delete id (commands s)) s
  | Some folder =>
      let m := Migration_record (workspace (shared s)) (wf_uri folder) in
      if Migration_needsUpdate m then setCommands (<[id := Updating m]> (commands s)) s
      else setCommands (delete id (commands s)) s
  end.

(** [migrateSettings] from the settled update to its end. *)
Definition updated (id : nat) (m : Migration) (s : System) : System :=
  let (ws, error) := Migration_update m (workspace (shared s)) in
  let c := setWorkspace ws (shared s) in
  let c :=
    match error with
    | Some message => emit (MigrationFailed message) c
    | None => c
    end in
  setCommands (delete id (commands s)) (setShared c s).

Inductive Label : Type :=
| Started (id : nat)
| Checked (id : nat)
| Answered (id : nat) (action : UserAction)
| Finished (id : nat)
| Occurred (e : Event)
| Commanded
| Picked (id : nat) (choice : option WorkspaceFolder)
| Updated (id : nat).

Definition isRequest (e : Event) : bool :=
  match e with ConfigurationRequest _ => true | _ => false end.

(** One turn of the event loop. [pickFolder] of [./vscode-utils] is not
    under [src/]: it is taken to resolve to one of the folders it is
    given, or to [undefined]. *)
Inductive step : System -> Label -> System -> Prop :=
| step_request s params :
    step s (Occurred (ConfigurationRequest params)) (enter (begin params (shared s)) s)
| step_start s call queue :
    waiting s = call :: queue ->
    (active s < capacity)%nat ->
    step s (Started (call_id call)) (start call queue s)
| step_check s call :
    running s !! call_id call = Some (call, Entered) ->
    step s (Checked (call_id call))
      (setRunning
         (<[call_id call :=
              (call, match snd (beforePrompt call (shared s)) with
                     | Some m => Prompting m
                     | None => Leaving (Ok tt)
                     end)]> (running s))
         (setShared (fst (beforePrompt call (shared s))) s))
| step_answer s call m action :
    running s !! call_id call = Some (call, Prompting m) ->
    let selected := showInformationMessage true migrationItems action in
    step s (Answered (call_id call) action)
      (setRunning
         (<[call_id call := (call, Leaving (fst (afterPrompt m selected (shared s))))]>
            (running s))
         (setShared (snd (afterPrompt m selected (shared s))) s))
| step_finish s call outcome :
    running s !! call_id call = Some (call, Leaving outcome) ->
    step s (Finished (call_id call)) (resume call outcome (release call s))
| step_occur s e :
    isRequest e = false ->
    step s (Occurred e) (setShared (handle (shared s) e) s)
| step_command s :
    step s Commanded (command s)
| step_picked s id folders choice :
    commands s !! id = Some (Picking folders) ->
    (forall folder, choice = Some folder -> folder ∈ folders) ->
    step s (Picked id choice) (picked id choice s)
| step_updated s id m :
    commands s !! id = Some (Updating m) ->
    step s (Updated id) (updated id m s).

(** Several turns in a row. *)
Inductive steps : System -> list Label -> System -> Prop :=
| steps_done s : steps s [] s
| steps_next s label s' trace s'' :
    step s label s' -> steps s' trace s'' -> steps s (label :: trace) s''.

(** The states a session can be in, with the turns that led there, oldest
    first. *)
Inductive reachable (c : Client) : list Label -> System -> Prop :=
| reachable_initial : reachable c [] (initial c)
| reachable_step trace s label s' :
    reachable c trace s -> step s label s' -> reachable c (trace ++ [label]) s'.

(** A thunk with its prompt open. *)
Definition prompting (entry : nat * (Call * Stage)) : Prop :=
  match snd (snd entry) with
  | Prompting _ => True
  | _ => False
  end.

#[global] Instance prompting_dec entry : Decision (prompting entry).
Proof. unfold prompting. destruct (snd (snd entry)); apply _. Defined.


(** A call of [migrateSettings] whose update is under way. *)
Definition updating (entry : nat * CommandStage) : Prop :=
  match snd entry with
  | Updating _ => True
  | Picking _ => False
  end.

#[global] Instance updating_dec entry : Decision (updating entry).
Proof. unfold updating. destruct (snd entry); apply _. Defined.


(** The semaphore is free and nothing waits for it. *)
Definition idle (s : System) : Prop :=
  active s = 0%nat /\ waiting s = [] /\ running s = ∅.


End System.

End Interleaving.

(** ** The server options *)

(** [typeof v] for a value read from the settings. *)
Definition JS_typeof (v : JValue) : string :=
  match v with
  | JUndefined => "undefined"
  | JBool _ => "boolean"
  | JNumber _ => "number"
  | JString _ => "string"
  | JNull | JArray _ | JObject _ => "object"
  end.

(** [v ?? d] *)
Definition JS_coalesce (v d : JValue) : JValue :=
  match v with
  | JUndefined | JNull => d
  | _ => v
  end.

(** [v.concat(args)] where [args] is an array of strings: an array is
    extended, a string is followed by [args.toString()], and no other value
    read from the settings has the method. *)
Definition JS_concat (v : JValue) (args : list string) : Result JValue :=
  match v with
  | JArray items => Ok (JArray (items ++ map JString args))
  | JString s => Ok (JString (s +:+ String.concat "," args))
  | _ => Throw "TypeError: concat is not a function"
  end.

Definition sanitize (value : JValue) (type : string) (def : JValue) : JValue :=
  match value with
  | JArray items => JArray (List.filter (fun item => JS_typeof item =? type) items)
  | _ => if negb (JS_typeof value =? type) then def else value
  end.

Inductive TransportKind : Type := ipc.

(** One of the two [NodeModule] descriptions of [ServerOptions]; [env] is
    the object built key by key, or [None] for [undefined]. *)
Record NodeModule : Type := {
  nm_module : string;
  nm_transport : TransportKind;
  nm_runtime : JValue;
  nm_execArgv : JValue;
  nm_cwd : string;
  nm_env : option (list (string * JValue));
}.

Record ServerOptions : Type := {
  so_run : NodeModule;
  so_debug : NodeModule;
}.

(** What the platform answers: [Uri.joinPath], [Uri.parse], [process.cwd()]
    and the three values of [CodeActionKind] the client names. *)
Class Platform : Type := {
  Uri_joinPath : Uri -> list string -> Uri;
  Uri_parse : string -> Uri;
  process_cwd : string;
  CodeActionKind_Source : string;
  CodeActionKind_SourceFixAll : string;
  CodeActionKind_QuickFix : string;
}.

Definition debugArgv : list string := ["--nolazy"; "--inspect=6011"].

(** [env = env || {}; env.KEY = value;] for a key that is not yet set. *)
Definition setEnv (env : option (list (string * JValue))) (key : string) (value : JValue)
    : option (list (string * JValue)) :=
  Some (default [] env ++ [(key, value)])%list.

Section ServerOptions.
Context `{Platform}.

Definition createServerOptions (ws : Workspace) (extensionUri : Uri) : Result ServerOptions :=
  let serverModule := fsPath (Uri_joinPath extensionUri ["server"; "out"; "eslintServer.js"]) in
  let eslintConfig := getConfiguration ws "eslint" None in
  let debug :=
    sanitize (JS_coalesce (WorkspaceConfiguration.getOr eslintConfig "debug" (JBool false))
                (JBool false)) "boolean" (JBool false) in
  let runtime :=
    sanitize (JS_coalesce (WorkspaceConfiguration.getOr eslintConfig "runtime" JNull)
                JUndefined) "string" JUndefined in
  let execArgv :=
    sanitize (JS_coalesce (WorkspaceConfiguration.getOr eslintConfig "execArgv" JNull)
                JUndefined) "string" JUndefined in
  let nodeEnv :=
    sanitize (JS_coalesce (WorkspaceConfiguration.getOr eslintConfig "nodeEnv" JNull)
                JUndefined) "string" JUndefined in
  let env := None in
  let env :=
    if JS.truthy debug then setEnv env "DEBUG" (JString "eslint:*,-eslint:code-path") else env in
  let env :=
    match nodeEnv with
    | JUndefined => env
    | _ => setEnv env "NODE_ENV" nodeEnv
    end in
  match (match execArgv with
         | JUndefined => Ok (JArray (map JString debugArgv))
         | _ => JS_concat execArgv debugArgv
         end) with
  | Throw e => Throw e
  | Ok debugExecArgv =>
      Ok {| so_run := {| nm_module := serverModule; nm_transport := ipc;
                         nm_runtime := runtime; nm_execArgv := execArgv;
                         nm_cwd := process_cwd; nm_env := env |};
            so_debug := {| nm_module := serverModule; nm_transport := ipc;
                           nm_runtime := runtime; nm_execArgv := debugExecArgv;
                           nm_cwd := process_cwd; nm_env := env |} |}
  end.

End ServerOptions.

(** ** The middleware that filters by the synced documents *)

Record Diagnostic : Type := {
  diag_source : option string;
  diag_message : string;
}.

(** [CodeActionContext]: [only] is the value of the requested kind. *)
Record CodeActionContext : Type := {
  only : option string;
  diagnostics : list Diagnostic;
  triggerKind : nat;
}.

(** What the in-flight migration does with a settings notification. *)
Inductive Forwarding : Type :=
| Forwarded
| CapturedByMigration.

Section Middleware.
Context `{SettingsGuards, NodeUtils, MigrationClass, Host, SharedSettings, Platform}.

Definition supportedQuickFixKinds : gset string :=
  {[ CodeActionKind_Source; CodeActionKind_SourceFixAll;
     CodeActionKind_SourceFixAll +:+ ".eslint"; CodeActionKind_QuickFix ]}.

(** The test of [didChange], [willSave], [willSaveWaitUntil] and [didSave]:
    the event is passed to [next] exactly when its document is synced. *)
Definition passesOn (c : Client) (document : TextDocument) : bool :=
  bool_decide (is_Some (syncedDocuments c !! toString (uri document))).

Definition isESLintDiagnostic (diagnostic : Diagnostic) : bool :=
  match diag_source diagnostic with
  | Some source => source =? "eslint"
  | None => false
  end.

(** [middleware.provideCodeActions]: [None] when it answers [[]] itself,
    [Some newContext] when it calls [next] with that context. *)
Definition provideCodeActions (c : Client) (document : TextDocument)
    (context : CodeActionContext) : option CodeActionContext :=
  if negb (bool_decide (is_Some (syncedDocuments c !! toString (uri document)))) then None
  else if match only context with
          | Some kind => negb (bool_decide (kind ∈ supportedQuickFixKinds))
          | None => false
          end then None
  else if match only context with
          | None => (length (diagnostics context) =? 0)%nat
          | Some _ => false
          end then None
  else
    let eslintDiagnostics := List.filter isESLintDiagnostic (diagnostics context) in
    if match only context with
       | None => (length eslintDiagnostics =? 0)%nat
       | Some _ => false
       end then None
    else Some {| only := only context; diagnostics := eslintDiagnostics;
                 triggerKind := triggerKind context |}.

(** [middleware.workspace.didChangeConfiguration] *)
Definition didChangeConfiguration (c : Client) (sections : option (list string)) : Forwarding :=
  match migration c with
  | Some _ =>
      match sections with
      | None | Some [] => CapturedByMigration
      | Some (_ :: _) => Forwarded
      end
  | None => Forwarded
  end.

End Middleware.

(** ** The status bar, the exit flag and the install hint *)

(** [Status] of [./shared/customMessages], with the three values that
    [updateStatusBar] tells apart. *)
Module Status.
Inductive t : Type := ok | warn | error.

Definition eqb (a b : t) : bool :=
  match a, b with
  | ok, ok | warn, warn | error, error => true
  | _, _ => false
  end.
End Status.

(** [State] of the language client. *)
Module State.
Inductive t : Type := Stopped | Starting | Running.
End State.

(** The fields of the status bar item that the client writes; a theme
    colour is its identifier. *)
Record StatusBarItem : Type := {
  sbi_name : string;
  sbi_text : string;
  sbi_command : string;
  sbi_color : option string;
  sbi_backgroundColor : option string;
  sbi_tooltip : option string;
  sbi_visible : bool;
}.

(** The value stored under [noESLintMessageShown] in the global state. *)
Record NoESLintState : Type := {
  nes_global : option bool;
  nes_workspaces : option (gmap string bool);
}.

(** What these handlers do to the outside. A message is recorded by the
    call site and the values it is built from, not by its wording. *)
Inductive Notice : Type :=
| ClientInfo (text : string)
| WarnNoConfig (fileLocation : string) (folder : option string)
| InfoNoLibrary (path : string) (folder : option string) (packageManager : JValue)
| MessageNoLibrary (path : string)
| ErrorServerExit (code detail : JValue)
| MessageServerExit
| OutputChannelShow (preserveFocus : bool)
| UpdateGlobalState (state : NoESLintState)
| OpenUrl (url : Uri).

Inductive CloseAction : Type :=
| DoNotRestart
| Restart.

(** [CloseHandlerResult] of the language client. *)
Record CloseHandlerResult : Type := {
  action : CloseAction;
  close_message : option string
}.

(** The part of the closure of [ESLintClient.create] that the status bar and
    the notifications of the server use, with the editor as it is now. *)
Record Shell : Type := {
  serverCalledProcessExit : bool;
  serverRunning : option bool;
  documentStatus : gmap string Status.t;
  statusBarItem : StatusBarItem;
  noESLintMessageShown : option NoESLintState;
  shellWorkspace : Workspace;
  activeTextEditor : option TextDocument;
  notices : list Notice;
}.

Definition starting : string := "ESLint server is starting.".
Definition running_text : string := "ESLint server is running.".
Definition stopped : string := "ESLint server stopped.".

Section Shell.
Context `{Platform}.

Definition notice (n : Notice) (sh : Shell) : Shell :=
  {| serverCalledProcessExit := serverCalledProcessExit sh;
     serverRunning := serverRunning sh; documentStatus := documentStatus sh;
     statusBarItem := statusBarItem sh; noESLintMessageShown := noESLintMessageShown sh;
     shellWorkspace := shellWorkspace sh; activeTextEditor := activeTextEditor sh;
     notices := notices sh ++ [n] |}.

Definition setServerCalledProcessExit (b : bool) (sh : Shell) : Shell :=
  {| serverCalledProcessExit := b;
     serverRunning := serverRunning sh; documentStatus := documentStatus sh;
     statusBarItem := statusBarItem sh; noESLintMessageShown := noESLintMessageShown sh;
     shellWorkspace := shellWorkspace sh; activeTextEditor := activeTextEditor sh;
     notices := notices sh |}.

Definition setServerRunning (r : option bool) (sh : Shell) : Shell :=
  {| serverCalledProcessExit := serverCalledProcessExit sh;
     serverRunning := r; documentStatus := documentStatus sh;
     statusBarItem := statusBarItem sh; noESLintMessageShown := noESLintMessageShown sh;
     shellWorkspace := shellWorkspace sh; activeTextEditor := activeTextEditor sh;
     notices := notices sh |}.

Definition setDocumentStatus (m : gmap string Status.t) (sh : Shell) : Shell :=
  {| serverCalledProcessExit := serverCalledProcessExit sh;
     serverRunning := serverRunning sh; documentStatus := m;
     statusBarItem := statusBarItem sh; noESLintMessageShown := noESLintMessageShown sh;
     shellWorkspace := shellWorkspace sh; activeTextEditor := activeTextEditor sh;
     notices := notices sh |}.

Definition setStatusBarItem (item : StatusBarItem) (sh : Shell) : Shell :=
  {| serverCalledProcessExit := serverCalledProcessExit sh;
     serverRunning := serverRunning sh; documentStatus := documentStatus sh;
     statusBarItem := item; noESLintMessageShown := noESLintMessageShown sh;
     shellWorkspace := shellWorkspace sh; activeTextEditor := activeTextEditor sh;
     notices := notices sh |}.

Definition setNoESLintMessageShown (state : NoESLintState) (sh : Shell) : Shell :=
  {| serverCalledProcessExit := serverCalledProcessExit sh;
     serverRunning := serverRunning sh; documentStatus := documentStatus sh;
     statusBarItem := statusBarItem sh; noESLintMessageShown := Some state;
     shellWorkspace := shellWorkspace sh; activeTextEditor := activeTextEditor sh;
     notices := notices sh |}.

Definition setEditor (ws : Workspace) (active : option TextDocument) (sh : Shell) : Shell :=
  {| serverCalledProcessExit := serverCalledProcessExit sh;
     serverRunning := serverRunning sh; documentStatus := documentStatus sh;
     statusBarItem := statusBarItem sh; noESLintMessageShown := noESLintMessageShown sh;
     shellWorkspace := ws; activeTextEditor := active;
     notices := notices sh |}.

(** The value of [status] in [updateStatusBar(uri)]. *)
Definition statusOf (sh : Shell) (requested : option string) : Status.t :=
  match serverRunning sh with
  | Some false => Status.error
  | _ =>
      let shown :=
        match requested with
        | Some u => Some u
        | None => (fun editor => toString (uri editor)) <$> activeTextEditor sh
        end in
      match shown with
      | Some u => default Status.ok (documentStatus sh !! u)
      | None => Status.ok
      end
  end.

Definition updateStatusBar (requested : option string) (sh : Shell) : Shell :=
  let status := statusOf sh requested in
  let text := "ESLint" in
  let icon :=
    match status with
    | Status.ok => None
    | Status.warn => Some "$(alert)"
    | Status.error => Some "$(issue-opened)"
    end in
  let foregroundColor :=
    match status with
    | Status.ok => "statusBarItem.foreground"
    | Status.warn => "statusBarItem.warningForeground"
    | Status.error => "statusBarItem.errorForeground"
    end in
  let backgroundColor :=
    match status with
    | Status.ok => "statusBarItem.background"
    | Status.warn => "statusBarItem.warningBackground"
    | Status.error => "statusBarItem.errorBackground"
    end in
  let alwaysShow :=
    WorkspaceConfiguration.getOr (getConfiguration (shellWorkspace sh) "eslint" None)
      "alwaysShowStatus" (JBool false) in
  setStatusBarItem
    {| sbi_name := sbi_name (statusBarItem sh);
       sbi_text := match icon with
                   | Some icon => icon +:+ " " +:+ text
                   | None => text
                   end;
       sbi_command := sbi_command (statusBarItem sh);
       sbi_color := Some foregroundColor;
       sbi_backgroundColor := Some backgroundColor;
       sbi_tooltip :=
         Some match serverRunning sh with
              | None => starting
              | Some true => running_text
              | Some false => stopped
              end;
       sbi_visible := JS.truthy alwaysShow || negb (Status.eqb status Status.ok) |}
    sh.

Definition updateDocumentStatus (params_uri : string) (state : Status.t) (sh : Shell) : Shell :=
  updateStatusBar (Some params_uri)
    (setDocumentStatus (<[params_uri := state]> (documentStatus sh)) sh).

(** [client.onNotification(ExitCalled.type, ...)]; [answer] is the id of the
    button the user picks in the error message, if any. *)
Definition onExitCalled (code detail : JValue) (answer : option nat) (sh : Shell) : Shell :=
  let sh := setServerCalledProcessExit true sh in
  let sh := notice (ErrorServerExit code detail) sh in
  let sh := notice MessageServerExit sh in
  match answer with
  | Some 1 => notice (OutputChannelShow false) sh
  | _ => sh
  end.

(** [client.onRequest(NoConfigRequest.type, ...)] *)
Definition onNoConfig (documentUri : string) (sh : Shell) : Shell :=
  let document := Uri_parse documentUri in
  let workspaceFolder := getWorkspaceFolder (shellWorkspace sh) document in
  let sh := notice (WarnNoConfig (fsPath document) (wf_name <$> workspaceFolder)) sh in
  updateDocumentStatus documentUri Status.error sh.

(** [client.onRequest(NoESLintLibraryRequest.type, ...)]; [answer] is the id
    of the button the user picks in the information message, if it is
    shown. *)
Definition onNoESLintLibrary (sourceUri : string) (answer : option nat) (sh : Shell) : Shell :=
  let state :=
    default {| nes_global := None; nes_workspaces := None |} (noESLintMessageShown sh) in
  let source := Uri_parse sourceUri in
  let workspaceFolder := getWorkspaceFolder (shellWorkspace sh) source in
  let packageManager :=
    WorkspaceConfiguration.getOr
      (getConfiguration (shellWorkspace sh) "eslint" (Some (ScopeUri source)))
      "packageManager" (JString "npm") in
  match workspaceFolder with
  | Some folder =>
      let sh := notice (InfoNoLibrary (fsPath source) (Some (wf_name folder)) packageManager) sh in
      let workspaces := default ∅ (nes_workspaces state) in
      if negb (default false (workspaces !! toString (wf_uri folder))) then
        let state :=
          {| nes_global := nes_global state;
             nes_workspaces := Some (<[toString (wf_uri folder) := true]> workspaces) |} in
        let sh := notice (UpdateGlobalState state) (setNoESLintMessageShown state sh) in
        let sh := notice (MessageNoLibrary (fsPath source)) sh in
        match answer with
        | Some 1 => notice (OutputChannelShow true) sh
        | _ => sh
        end
      else sh
  | None =>
      let sh := notice (InfoNoLibrary (fsPath source) None packageManager) sh in
      if negb (default false (nes_global state)) then
        let state := {| nes_global := Some true; nes_workspaces := nes_workspaces state |} in
        let sh := notice (UpdateGlobalState state) (setNoESLintMessageShown state sh) in
        let sh := notice (MessageNoLibrary (fsPath source)) sh in
        match answer with
        | Some 1 => notice (OutputChannelShow true) sh
        | _ => sh
        end
      else sh
  end.

(** [client.onDidChangeState] *)
Definition onDidChangeState (newState : State.t) (sh : Shell) : Shell :=
  let sh :=
    match newState with
    | State.Starting => setServerRunning None (notice (ClientInfo "ESLint server is starting") sh)
    | State.Running => setServerRunning (Some true) (notice (ClientInfo running_text) sh)
    | State.Stopped => setServerRunning (Some false) (notice (ClientInfo stopped) sh)
    end in
  updateStatusBar None sh.

(** [Workspace.onDidCloseTextDocument] *)
Definition onDidCloseTextDocument (document : TextDocument) (sh : Shell) : Shell :=
  updateStatusBar None
    (setDocumentStatus (delete (toString (uri document)) (documentStatus sh)) sh).

(** [errorHandler.closed]. [defaultClosed] is the answer of
    [defaultErrorHandler.closed()], the handler of the language client,
    which is asked only when the server has not announced its exit; it
    restarts the server unless it has crashed too often, and then refuses
    as well. *)
Definition errorHandler_closed (sh : Shell) (defaultClosed : CloseHandlerResult) :
    CloseHandlerResult :=
  if serverCalledProcessExit sh then {| action := DoNotRestart; close_message := None |}
  else defaultClosed.

Inductive ShellEvent : Type :=
| ShellEditorChanged (ws : Workspace) (active : option TextDocument)
| ShowOutputChannelNotification
| StatusNotification (params_uri : string) (state : Status.t)
| ExitCalledNotification (code detail : JValue) (answer : option nat)
| NoConfigRequest (documentUri : string)
| NoESLintLibraryRequest (sourceUri : string) (answer : option nat)
| OpenESLintDocRequest (url : string)
| DidChangeState (newState : State.t)
| DidChangeActiveTextEditor
| DidCloseTextDocument (document : TextDocument).

Definition shellHandle (sh : Shell) (e : ShellEvent) : Shell :=
  match e with
  | ShellEditorChanged ws active => setEditor ws active sh
  | ShowOutputChannelNotification => notice (OutputChannelShow false) sh
  | StatusNotification u state => updateDocumentStatus u state sh
  | ExitCalledNotification code detail answer => onExitCalled code detail answer sh
  | NoConfigRequest documentUri => onNoConfig documentUri sh
  | NoESLintLibraryRequest sourceUri answer => onNoESLintLibrary sourceUri answer sh
  | OpenESLintDocRequest url => notice (OpenUrl (Uri_parse url)) sh
  | DidChangeState newState => onDidChangeState newState sh
  | DidChangeActiveTextEditor => updateStatusBar None sh
  | DidCloseTextDocument document => onDidCloseTextDocument document sh
  end.

Definition shellRun (events : list ShellEvent) (sh : Shell) : Shell :=
  fold_left shellHandle events sh.

(** The closure right after [ESLintClient.create], for the stored install
    hints [stored]. *)
Definition shellCreate (stored : option NoESLintState) (ws : Workspace)
    (active : option TextDocument) : Shell :=
  {| serverCalledProcessExit := false;
     serverRunning := None;
     documentStatus := ∅;
     statusBarItem :=
       {| sbi_name := "ESLint"; sbi_text := "ESLint";
          sbi_command := "eslint.showOutputChannel";
          sbi_color := None; sbi_backgroundColor := None; sbi_tooltip := None;
          sbi_visible := false |};
     noESLintMessageShown := stored;
     shellWorkspace := ws;
     activeTextEditor := active;
     notices := [] |}.

Definition isDidChangeState (e : ShellEvent) : bool :=
  match e with DidChangeState _ => true | _ => false end.

Definition isExitCalled (e : ShellEvent) : bool :=
  match e with ExitCalledNotification _ _ _ => true | _ => false end.

(** The text of the status bar item for a status. *)
Definition statusText (status : Status.t) : string :=
  match status with
  | Status.ok => "ESLint"
  | Status.warn => "$(alert) ESLint"
  | Status.error => "$(issue-opened) ESLint"
  end.

(** The key under which the install hint of a document is remembered: the
    URI of its workspace folder, or [None] for a file outside any folder. *)
Definition hintKey (sh : Shell) (sourceUri : string) : option string :=
  (fun folder => toString (wf_uri folder))
    <$> getWorkspaceFolder (shellWorkspace sh) (Uri_parse sourceUri).

(** Whether the install hint for that key has been shown, as stored. *)
Definition hintShown (sh : Shell) (key : option string) : bool :=
  let state :=
    default {| nes_global := None; nes_workspaces := None |} (noESLintMessageShown sh) in
  match key with
  | Some k => default false (default ∅ (nes_workspaces state) !! k)
  | None => default false (nes_global state)
  end.

(** The number of install hints shown so far. *)
Definition hintsShown (sh : Shell) : nat :=
  length (List.filter (fun n => match n with MessageNoLibrary _ => true | _ => false end)
            (notices sh)).

End Shell.

(** ** A concrete platform *)

Module SamplePlatform.

(** A platform on which paths are joined with ["/"] and the code action
    kinds have the values of the editor's API. *)
Definition platform : Platform :=
  {| Uri_joinPath base segments :=
       Sample.fileUri (fsPath base +:+ "/" +:+ String.concat "/" segments);
     Uri_parse := Sample.parseUri;
     process_cwd := "/";
     CodeActionKind_Source := "source";
     CodeActionKind_SourceFixAll := "source.fixAll";
     CodeActionKind_QuickFix := "quickfix" |}.

(** An editor in which every file under [/ws/] belongs to the folder [ws]. *)
Definition inFolder (config : gmap string JValue) : Workspace :=
  {| getConfiguration _ _ := config;
     workspaceFolders := Some [ {| wf_uri := Sample.fileUri "/ws"; wf_name := "ws" |} ];
     getWorkspaceFolder resource :=
       if String.prefix "/ws/" (fsPath resource)
       then Some {| wf_uri := Sample.fileUri "/ws"; wf_name := "ws" |}
       else None;
     textDocuments := [] |}.

Definition shell : Shell := shellCreate None (inFolder ∅) None.

(** An editor in which [/a/b.js] is validated, while validation is switched
    off for the resource and formatting is asked for. *)
Definition formatting : Workspace :=
  Sample.editor {[ "validate" := JArray [JString "javascript"];
                   "enabled" := JBool false;
                   "format.enable" := JBool true ]}
    [Sample.javascript "/a/b.js"].


End SamplePlatform.

(** ** Words for the statements about a session *)

(** The documents an event hands to the middleware to be synced. *)
Definition opens (e : Event) : list TextDocument :=
  match e with
  | DidOpen document => [document]
  | NotebooksDidOpen cells => cells
  | NotebooksDidChange (Some cells) _ => cells
  | _ => []
  end.

(** The event that runs the settings-change listener. *)
Definition isSettingsChange (e : Event) : bool :=
  match e with
  | DidChangeConfiguration => true
  | _ => false
  end.

(** The effects that are notifications to the server: the ones the
    listeners send themselves and the ones the middleware passes on. *)
Definition isNotification (e : Effect) : bool :=
  match e with
  | SendDidClose _ | SendDidOpen _ | Next _ => true
  | _ => false
  end.

(** [s] ends with [suffix]. *)
Definition endsWith (s suffix : string) : Prop := exists front, s = front +:+ suffix.

(** * Properties *)

Section ValidatorFacts.
Context `{SettingsGuards}.

Lemma namesLanguage_iff languageId entry :
  namesLanguage languageId entry = true <->
  entry = JString languageId
  \/ exists descriptor,
       ValidateItem_is entry = Some descriptor /\ language descriptor = languageId.
Proof.
  unfold namesLanguage. rewrite orb_true_iff. split.
  - intros [Hs | Hd].
    + left. destruct entry; simpl in Hs; try discriminate.
      apply String.eqb_eq in Hs. now subst.
    + right. destruct (ValidateItem_is entry) as [d|]; [|discriminate].
      exists d. split; [reflexivity|]. now apply String.eqb_eq.
  - intros [-> | (d & Hd & <-)].
    + left. simpl. apply String.eqb_refl.
    + right. rewrite Hd. apply String.eqb_refl.
Qed.

Lemma validateLoop_existsb languageId validate :
  Validator.validateLoop languageId validate = existsb (namesLanguage languageId) validate.
Proof.
  induction validate as [|item rest IH]; [reflexivity|].
  simpl. rewrite IH. unfold namesLanguage.
  destruct item; simpl; try reflexivity;
    try (destruct (ValidateItem_is _) as [d|]; [destruct (language d =? languageId)|];
         reflexivity).
  destruct (s =? languageId); [reflexivity|].
  destruct (ValidateItem_is _) as [d|]; [destruct (language d =? languageId)|]; reflexivity.
Qed.

Lemma probeLoop_existsb languageId probe :
  Validator.probeLoop languageId probe = existsb (isLanguage languageId) probe.
Proof.
  induction probe as [|item rest IH]; [reflexivity|].
  simpl. rewrite IH. unfold isLanguage.
  now destruct (JS.strictEqString item languageId).
Qed.

Lemma validate_setting_existsb languageId (validate : option (list JValue)) :
  match validate with
  | Some items => Validator.validateLoop languageId items
  | None => false
  end = existsb (namesLanguage languageId) (default [] validate).
Proof. destruct validate; [apply validateLoop_existsb | reflexivity]. Qed.

Lemma probe_setting_existsb languageId (probe : option (list JValue)) :
  match probe with
  | Some items => Validator.probeLoop languageId items
  | None => false
  end = existsb (isLanguage languageId) (default [] probe).
Proof. destruct probe; [apply probeLoop_existsb | reflexivity]. Qed.

Lemma check_classify this ws document :
  Validator.check this ws document =
  classify (enableFlag (configOf ws document))
    (configuredList (configOf ws document) "validate")
    (configuredList (configOf ws document) "probe")
    (Validator.probeFailed this) (toString (uri document)) (languageId document).
Proof.
  unfold Validator.check, classify, enableFlag, configOf, configuredList.
  destruct (negb _); [reflexivity|].
  destruct (JS.asArray (WorkspaceConfiguration.get _ "validate")) as [validate|];
    destruct (JS.asArray (WorkspaceConfiguration.get _ "probe")) as [probe|];
    simpl; rewrite <- ?validateLoop_existsb, <- ?probeLoop_existsb; reflexivity.
Qed.

(** C1. [Validator.check] applies the five rules in their fixed order, the
    first match deciding: [off] when the [enable] flag is false; else [on]
    when an entry of the [validate] list (a plain string, or a descriptor
    seen through [ValidateItem.is]) is the document's language tag; else
    [off] when the document's URI is in the probe-failed set; else [probe]
    when an entry of the [probe] list is the language tag; else [off]. *)
Theorem check_rules_in_order (this : Validator.t) (ws : Workspace) (document : TextDocument) :
  Validator.check this ws document =
  let config := getConfiguration ws "eslint" (Some (ScopeUri (uri document))) in
  if negb (enableFlag config) then Validate.off
  else if existsb (namesLanguage (languageId document)) (configuredList config "validate")
  then Validate.on
  else if bool_decide (toString (uri document) ∈ Validator.probeFailed this) then Validate.off
  else if existsb (isLanguage (languageId document)) (configuredList config "probe")
  then Validate.probe
  else Validate.off.
Proof.
  unfold Validator.check, enableFlag, configuredList. cbv zeta.
  destruct (negb _); [reflexivity|].
  rewrite validate_setting_existsb, probe_setting_existsb.
  reflexivity.
Qed.

End ValidatorFacts.

(** ** What the handlers leave alone *)

Section Frames.
Context `{SettingsGuards, NodeUtils, MigrationClass, Host, SharedSettings}.


#[local] Instance silent_preorder : PreOrder silent.
Proof.
  split.
  - intros c. now repeat split.
  - intros a b c (?&?&?&?) (?&?&?&?). repeat split; congruence.
Qed.

Lemma promptsShown_emit e c :
  promptsShown (emit e c) = (promptsShown c + if isPrompt e then 1 else 0)%nat.
Proof.
  unfold promptsShown, emit. simpl. rewrite filter_app, length_app.
  f_equal. unfold filter at 1. simpl. destruct (isPrompt e); simpl; [|reflexivity].
  destruct (decide (true = true)); [reflexivity|congruence].
Qed.

Lemma silent_emit e c : isPrompt e = false -> silent c (emit e c).
Proof.
  intros He. repeat split. rewrite promptsShown_emit, He. lia.
Qed.

Lemma silent_setSyncedDocuments m c : silent c (setSyncedDocuments m c).
Proof. now repeat split. Qed.

Lemma fold_left_related {X} (R : relation Client) `{!PreOrder R}
    (f : Client -> X -> Client) (l : list X) :
  (forall c x, R c (f c x)) -> forall c, R c (fold_left f l c).
Proof.
  intros Hf. induction l as [|x l IH]; intros c; simpl; [reflexivity|].
  etransitivity; [apply Hf | apply IH].
Qed.

Lemma silent_didOpen document c : silent c (didOpen document c).
Proof.
  unfold didOpen. destruct (shouldSync c document); [|reflexivity].
  etransitivity; [|apply silent_setSyncedDocuments].
  apply silent_emit. reflexivity.
Qed.

Lemma silent_didClose document c : silent c (didClose document c).
Proof.
  unfold didClose. case_bool_decide; [|reflexivity].
  etransitivity; [|apply silent_emit; reflexivity].
  apply silent_setSyncedDocuments.
Qed.

Lemma silent_syncCells cells c : silent c (syncCells cells c).
Proof. unfold syncCells. apply (fold_left_related silent); intros; apply silent_setSyncedDocuments. Qed.

Lemma silent_unsyncCells cells c : silent c (unsyncCells cells c).
Proof. unfold unsyncCells. apply (fold_left_related silent); intros; apply silent_setSyncedDocuments. Qed.

Lemma silent_notebooksDidOpen cells c : silent c (notebooksDidOpen cells c).
Proof.
  unfold notebooksDidOpen.
  etransitivity; [|apply silent_syncCells].
  apply silent_emit. reflexivity.
Qed.

Lemma silent_notebooksDidChange o cl c : silent c (notebooksDidChange o cl c).
Proof.
  unfold notebooksDidChange.
  etransitivity; [|apply silent_emit; reflexivity].
  etransitivity; [|destruct cl; [apply silent_unsyncCells | reflexivity]].
  destruct o; [apply silent_syncCells | reflexivity].
Qed.

Lemma silent_notebooksDidClose cells c : silent c (notebooksDidClose cells c).
Proof.
  unfold notebooksDidClose.
  etransitivity; [|apply silent_emit; reflexivity].
  apply silent_unsyncCells.
Qed.

Lemma silent_sendDidClose document c : silent c (sendDidClose document c).
Proof.
  unfold sendDidClose. destruct (getProvider _ _); [|reflexivity].
  etransitivity; [|apply silent_didClose]. apply silent_emit. reflexivity.
Qed.

Lemma silent_sendDidOpen document c : silent c (sendDidOpen document c).
Proof.
  unfold sendDidOpen. destruct (getProvider _ _); [|reflexivity].
  etransitivity; [|apply silent_didOpen]. apply silent_emit. reflexivity.
Qed.

(** The two listeners that reset the validator are silent from there on. *)
Lemma silent_onDidChangeConfiguration c :
  silent (setValidator (Validator.clear (validator c)) c) (onDidChangeConfiguration c).
Proof.
  unfold onDidChangeConfiguration. cbv zeta.
  etransitivity; [|apply (fold_left_related silent)];
    [apply (fold_left_related silent)|];
    intros c' x;
    match goal with |- silent _ (if ?b then _ else _) => destruct b end;
    try reflexivity; first [apply silent_sendDidClose | apply silent_sendDidOpen].
Qed.

Lemma silent_didChangeWatchedFile c :
  silent (setValidator (Validator.clear (validator c)) c) (didChangeWatchedFile c).
Proof. apply silent_emit. reflexivity. Qed.

Lemma silent_onProbeFailed uri c :
  silent (setValidator (Validator.add (validator c) (protocol2Code_asUri uri)) c)
    (onProbeFailed uri c).
Proof.
  unfold onProbeFailed. cbv zeta. apply (fold_left_related silent). intros c' x.
  destruct (_ =? _); [apply silent_sendDidClose | reflexivity].
Qed.

(** *** Stateful code *)


Section Respects.
Context (R : relation Client) `{!PreOrder R}.

Lemma respects_ret {A} (a : A) : respects R (ret a).
Proof. intros c. reflexivity. Qed.

Lemma respects_gets {A} (f : Client -> A) : respects R (gets f).
Proof. intros c. reflexivity. Qed.

Lemma respects_liftResult {A} (r : Result A) : respects R (liftResult r).
Proof. intros c. reflexivity. Qed.

Lemma respects_modify (f : Client -> Client) :
  (forall c, R c (f c)) -> respects R (modify f).
Proof. intros Hf c. apply Hf. Qed.

Lemma respects_bind {A B} (m : M A) (k : A -> M B) :
  respects R m -> (forall a, respects R (k a)) -> respects R (bind m k).
Proof.
  intros Hm Hk c. unfold bind. specialize (Hm c).
  destruct (m c) as [[a|e] c']; simpl in *; [|exact Hm].
  etransitivity; [exact Hm | apply Hk].
Qed.

Lemma respects_mapM {A B} (f : A -> M B) (l : list A) :
  (forall a, respects R (f a)) -> respects R (mapM f l).
Proof.
  intros Hf. induction l as [|a l IH]; simpl.
  - apply respects_ret.
  - apply respects_bind; [apply Hf|]. intros b.
    apply respects_bind; [apply IH|]. intros bs. apply respects_ret.
Qed.

Lemma respects_completeSettings config folder document settings :
  respects R (completeSettings config folder document settings).
Proof.
  unfold completeSettings.
  apply respects_bind; [|intros; apply respects_ret].
  destruct (JS.truthy _); [|apply respects_ret].
  apply respects_bind; [apply respects_gets | intros; apply respects_ret].
Qed.

(** [readConfiguration] changes the state only inside [migrate]. *)
Lemma respects_readConfiguration params :
  (forall resource folder, respects R (migrate resource folder)) ->
  respects R (readConfiguration params).
Proof.
  intros Hmigrate. unfold readConfiguration.
  destruct (items params) as [l|]; [|apply respects_ret].
  apply respects_mapM. intros item. unfold readItem.
  destruct (_ || _); [apply respects_ret|].
  apply respects_bind; [apply respects_gets | intros textDocument].
  apply respects_bind; [apply respects_gets | intros ws].
  apply respects_bind; [apply Hmigrate | intros _].
  apply respects_bind; [apply respects_liftResult | intros rules].
  apply respects_bind; [apply respects_gets | intros [document|]].
  - apply respects_bind; [apply respects_completeSettings | intros; apply respects_ret].
  - apply respects_ret.
Qed.

End Respects.

(** [migrate] is a sequence of elementary state changes. *)
Lemma respects_migrate (R : relation Client) `{!PreOrder R} resource folder :
  (forall c m, R c (setMigration m c)) ->
  (forall c, R c (setNotNow true c)) ->
  (forall c e, R c (emit e c)) ->
  (forall c m, R c (setWorkspace (fst (Migration_update m (workspace c))) c)) ->
  (forall c, R c (setWorkspace
                    (fst (config_update (workspace c) "migration.2_x" (JString "off"))) c)) ->
  respects R (migrate resource folder).
Proof.
  intros Hmig Hnot Hemit Hupd Hcfg c.
  unfold migrate, tryFinally, bind, gets, modify, ret. simpl.
  destruct (negb (notNow c) && _); simpl; [|reflexivity].
  set (m := Migration_record (workspace c) resource).
  destruct (Migration_needsUpdate m); simpl;
    [|etransitivity; [apply (Hmig c (Some m)) | apply Hmig]].
  set (c1 := emit _ (setMigration (Some m) c)).
  assert (Hfirst : R c c1) by (etransitivity; [apply (Hmig c (Some m)) | apply Hemit]).
  unfold onSelected, bind, gets, modify, liftResult, ret.
  destruct (selectedAt _) as [[]|]; simpl.
  - pose proof (Hupd c1 m) as Hstep. change (workspace c1) with (workspace c) in *.
    destruct (Migration_update m (workspace c)) as [ws' [message|]]; simpl in *.
    + etransitivity; [exact Hfirst|]. etransitivity; [exact Hstep|].
      etransitivity; [apply Hemit | apply Hmig].
    + etransitivity; [exact Hfirst|]. etransitivity; [exact Hstep | apply Hmig].
  - etransitivity; [exact Hfirst|]. etransitivity; [apply Hnot | apply Hmig].
  - etransitivity; [exact Hfirst|]. etransitivity; [apply Hnot|].
    etransitivity; [apply Hemit | apply Hmig].
  - pose proof (Hcfg c1) as Hstep. change (workspace c1) with (workspace c) in *.
    destruct (config_update (workspace c) _ _) as [ws' [message|]]; simpl in *;
      (etransitivity; [exact Hfirst|]; etransitivity; [exact Hstep | apply Hmig]).
  - etransitivity; [exact Hfirst | apply Hmig].
  - etransitivity; [exact Hfirst | apply Hmig].
Qed.

(** [migrate] throws only when "Never migrate" could not be written. *)
Lemma migrate_returns resource folder c :
  (forall ws, snd (config_update ws "migration.2_x" (JString "off")) = None) ->
  fst (migrate resource folder c) = Ok tt.
Proof.
  intros Hwritten.
  unfold migrate, tryFinally, bind, gets, modify, ret. simpl.
  destruct (negb (notNow c) && _); simpl; [|reflexivity].
  destruct (Migration_needsUpdate _); simpl; [|reflexivity].
  unfold onSelected, bind, gets, modify, liftResult, ret.
  destruct (selectedAt _) as [[]|]; simpl; try reflexivity.
  - now destruct (Migration_update _ _) as [ws' [message|]].
  - match goal with
    | |- context [config_update ?ws ?k ?v] =>
        pose proof (Hwritten ws) as Hnone; destruct (config_update ws k v) as [ws' error]
    end.
    simpl in Hnone. now subst error.
Qed.

End Frames.

(** ** The probe-failed set across a session *)

Section ProbeFailed.
Context `{SettingsGuards, NodeUtils, MigrationClass, Host, SharedSettings}.


#[local] Instance keepsValidator_preorder : PreOrder keepsValidator.
Proof. split; [now intros c | intros a b c; unfold keepsValidator; congruence]. Qed.

Lemma keepsValidator_migrate resource folder :
  respects keepsValidator (migrate resource folder).
Proof. apply respects_migrate; try apply _; now intros. Qed.

(** The validator after one event. *)
Lemma validator_handle c e :
  validator (handle c e) =
  match e with
  | DidChangeConfiguration | DidChangeWatchedFile => Validator.clear (validator c)
  | ProbeFailedRequest uri => Validator.add (validator c) (protocol2Code_asUri uri)
  | _ => validator c
  end.
Proof.
  destruct e as [ws| |u| |d|d|cells|opened closed|cells|params]; simpl.
  - reflexivity.
  - apply (silent_onDidChangeConfiguration c).
  - apply (silent_onProbeFailed u c).
  - apply (silent_didChangeWatchedFile c).
  - apply (silent_didOpen d c).
  - apply (silent_didClose d c).
  - apply (silent_notebooksDidOpen cells c).
  - apply (silent_notebooksDidChange opened closed c).
  - apply (silent_notebooksDidClose cells c).
  - apply (respects_readConfiguration keepsValidator params keepsValidator_migrate c).
Qed.

Lemma probeFailed_kept c events x :
  Forall (fun e => clearsProbeFailed e = false) events ->
  x ∈ Validator.probeFailed (validator c) ->
  x ∈ Validator.probeFailed (validator (runEvents events c)).
Proof.
  unfold runEvents. intros Hev. revert c.
  induction Hev as [|e events He _ IH]; intros c Hx; simpl; [exact Hx|].
  apply IH. rewrite validator_handle.
  destruct e; try discriminate; try exact Hx.
  simpl. set_solver.
Qed.

Lemma check_off_when_probe_failed this ws document :
  toString (uri document) ∈ Validator.probeFailed this ->
  existsb (namesLanguage (languageId document))
    (configuredList (configOf ws document) "validate") = false ->
  Validator.check this ws document = Validate.off.
Proof.
  intros Hin Hvalidate. rewrite check_classify. unfold classify.
  rewrite Hvalidate. rewrite bool_decide_eq_true_2 by exact Hin.
  now destruct (negb _).
Qed.

(** C2, as the code has it. Once the probe-failed request has added a URI,
    [check] answers [off] for every document with that URI whose language
    tag is not named by the [validate] list, whatever the [probe] list
    says, after any sequence of events that contains neither a
    configuration change nor a watched-file change (the two events that
    clear the set). *)
Theorem probe_failure_overrides_probe (c : Client) (failed : string) (events : list Event)
    (document : TextDocument) :
  let c' := runEvents events (handle c (ProbeFailedRequest failed)) in
  Forall (fun e => clearsProbeFailed e = false) events ->
  toString (uri document) = toString (protocol2Code_asUri failed) ->
  existsb (namesLanguage (languageId document))
    (configuredList (configOf (workspace c') document) "validate") = false ->
  Validator.check (validator c') (workspace c') document = Validate.off.
Proof.
  intros c' Hevents Huri Hvalidate.
  apply check_off_when_probe_failed; [|exact Hvalidate].
  apply probeFailed_kept; [exact Hevents|].
  rewrite validator_handle, Huri. simpl. set_solver.
Qed.

(** C10. A watched-file change empties the probe-failed set, as a
    configuration change does; right after it a document whose language
    tag is in the [probe] list (and not in the [validate] list, the
    [enable] flag being on) is classified [probe] again, whether or not
    its probe had failed before, and no setting has changed. *)
Theorem watched_file_change_clears (c : Client) (document : TextDocument) :
  let c' := handle c DidChangeWatchedFile in
  let config := configOf (workspace c) document in
  enableFlag config = true ->
  existsb (namesLanguage (languageId document)) (configuredList config "validate") = false ->
  existsb (isLanguage (languageId document)) (configuredList config "probe") = true ->
  Validator.probeFailed (validator c') = ∅
  /\ Validator.probeFailed (validator (handle c DidChangeConfiguration)) = ∅
  /\ workspace c' = workspace c
  /\ Validator.check (validator c') (workspace c') document = Validate.probe.
Proof.
  intros c' config Henable Hvalidate Hprobe.
  assert (Hv : validator c' = Validator.clear (validator c)) by apply validator_handle.
  assert (Hw : workspace c' = workspace c) by apply (silent_didChangeWatchedFile c).
  split; [now rewrite Hv|]. split; [now rewrite validator_handle|]. split; [exact Hw|].
  rewrite check_classify, Hv, Hw. fold config. unfold classify.
  rewrite Henable, Hvalidate, Hprobe. simpl.
  rewrite bool_decide_eq_false_2 by set_solver. reflexivity.
Qed.

End ProbeFailed.

(** ** Deferring the migration *)

Section Deferral.
Context `{SettingsGuards, NodeUtils, MigrationClass, Host, SharedSettings}.


#[local] Instance deferral_preorder : PreOrder deferral.
Proof.
  split.
  - intros c. split; [lia|]. split; [now intros|]. intros n Hn. lia.
  - intros a b c (Hab & Kab & Dab) (Hbc & Kbc & Dbc). split; [lia|]. split.
    + intros Ha. destruct (Kab Ha) as [Hb Eb]. destruct (Kbc Hb) as [Hc Ec].
      split; [exact Hc | congruence].
    + intros n Hn Hd.
      destruct (Nat.lt_ge_cases n (promptsShown b)) as [Hlt|Hge].
      * apply Kbc. apply (Dab n); [lia | exact Hd].
      * apply (Dbc n); [lia | exact Hd].
Qed.

Lemma deferral_quiet c c' :
  notNow c' = notNow c -> promptsShown c' = promptsShown c -> deferral c c'.
Proof.
  intros Hn Hp. split; [lia|]. split; [intros; split; congruence|]. intros n Hlt. lia.
Qed.

Lemma deferral_silent c c' : silent c c' -> deferral c c'.
Proof. intros (_ & Hn & _ & Hp). now apply deferral_quiet. Qed.

Lemma deferral_migrate resource folder : respects deferral (migrate resource folder).
Proof.
  intros c. unfold migrate, tryFinally, bind, gets, modify, ret. simpl.
  destruct (notNow c) eqn:HnotNow; simpl; [reflexivity|].
  destruct (JS.strictEqString _ "on"); simpl; [|reflexivity].
  destruct (Migration_needsUpdate _); simpl; [|now apply deferral_quiet].
  change (promptsShown (setMigration _ c)) with (promptsShown c).
  unfold onSelected, bind, gets, modify, liftResult, ret.
  assert (Hstep : forall c' : Client,
             promptsShown c' = S (promptsShown c) ->
             (defers (selectedAt (promptsShown c)) = true -> notNow c' = true) ->
             deferral c c').
  { intros c' Hp Hflag. split; [lia|]. split; [congruence|].
    intros n Hn Hd. replace n with (promptsShown c) in Hd by lia. auto. }
  destruct (selectedAt (promptsShown c)) as [[]|] eqn:Hanswer; simpl;
    try destruct (Migration_update _ _) as [ws' [message|]];
    try destruct (config_update _ _ _) as [ws' [message|]]; simpl;
    (apply Hstep;
     [ unfold promptsShown; simpl; rewrite ?filter_app, ?length_app; simpl; lia
     | simpl; congruence ]).
Qed.

Lemma deferral_handle c e : deferral c (handle c e).
Proof.
  destruct e as [ws| |u| |d|d|cells|opened closed|cells|params]; simpl.
  - now apply deferral_quiet.
  - etransitivity; [|apply deferral_silent, silent_onDidChangeConfiguration].
    now apply deferral_quiet.
  - etransitivity; [|apply deferral_silent, silent_onProbeFailed].
    now apply deferral_quiet.
  - etransitivity; [|apply deferral_silent, silent_didChangeWatchedFile].
    now apply deferral_quiet.
  - apply deferral_silent, silent_didOpen.
  - apply deferral_silent, silent_didClose.
  - apply deferral_silent, silent_notebooksDidOpen.
  - apply deferral_silent, silent_notebooksDidChange.
  - apply deferral_silent, silent_notebooksDidClose.
  - apply (respects_readConfiguration deferral params deferral_migrate c).
Qed.

Lemma deferral_runEvents events c : deferral c (runEvents events c).
Proof. apply (fold_left_related deferral). apply deferral_handle. Qed.

(** C7. Once a migration prompt of the session has been answered with
    "Not now" or "Open Readme", or has been dismissed (the dialog is modal
    and "Not now" is its close affordance, so a dismissal is the answer
    "Not now"), no later event of the session shows a prompt again,
    whatever [needsUpdate] says and however many configuration requests
    follow. *)
Theorem migration_deferred_for_session (c : Client) (before after : list Event) (n : nat) :
  let c1 := runEvents before c in
  (promptsShown c <= n < promptsShown c1)%nat ->
  userAction n = Picks no \/ userAction n = Picks readme \/ userAction n = Dismisses ->
  notNow c1 = true /\ promptsShown (runEvents after c1) = promptsShown c1.
Proof.
  intros c1 Hn Hanswer.
  assert (Hflag : notNow c1 = true).
  { apply (deferral_runEvents before c) with n; [exact Hn|].
    unfold selectedAt. destruct Hanswer as [-> | [-> | ->]]; reflexivity. }
  split; [exact Hflag|]. now apply (deferral_runEvents after c1).
Qed.

End Deferral.

(** ** The selection of the working directory *)

Section WorkingDirectories.
Context `{SettingsGuards, NodeUtils}.
Variables filePath workspaceFolderPath : option string.

#[local] Abbreviation step := (workingDirectoryStep filePath workspaceFolderPath).
#[local] Abbreviation matchOf' := (matchOf filePath workspaceFolderPath).

Lemma step_mode current entry item :
  readEntry entry = ModeEntry item -> step current entry = Some (WDMode item).
Proof. unfold workingDirectoryStep. now intros ->. Qed.

Lemma step_no_match current entry :
  isModeRule entry = false -> matchOf' entry = None -> step current entry = current.
Proof.
  unfold workingDirectoryStep, isModeRule, matchOf.
  destruct (readEntry entry) as [item|dir pat noCWD]; [discriminate|].
  intros _. now destruct (itemValue _ _ dir pat).
Qed.

Lemma step_match current entry value noCWD :
  matchOf' entry = Some (value, noCWD) ->
  step current entry =
  match current with
  | Some (WDDirectory item) =>
      if (String.length (directory item) <? String.length value)%nat
      then Some (WDDirectory {| directory := value; notCwd := Some noCWD |})
      else current
  | _ => Some (WDDirectory {| directory := value; notCwd := Some noCWD |})
  end.
Proof.
  unfold workingDirectoryStep, matchOf.
  destruct (readEntry entry) as [item|dir pat flag]; [discriminate|].
  destruct (itemValue _ _ dir pat) as [v|]; [|discriminate].
  simpl. intros [= -> ->]. now destruct current as [[m|item]|].
Qed.






Lemma fold_mode_last entries entry item current :
  readEntry entry = ModeEntry item ->
  fold_left step (entries ++ [entry]) current = Some (WDMode item).
Proof. intros Hentry. rewrite fold_left_app. simpl. now apply step_mode. Qed.

End WorkingDirectories.

Section WorkingDirectoryClaims.
Context `{SettingsGuards, NodeUtils}.


(** C4, where the code departs from the claim. A [Mode] rule declared last
    is the result of the loop whatever the rules before it matched: it
    replaces the running best instead of staying a fallback. *)
Theorem mode_rule_replaces_running_best (document : TextDocument)
    (workspaceFolder : option WorkspaceFolder) (workingDirectories : list JValue)
    (entry : JValue) (item : ModeItem) :
  readEntry entry = ModeEntry item ->
  selectWorkingDirectory document workspaceFolder (workingDirectories ++ [entry])
  = Some (WDMode item).
Proof. intros Hentry. unfold selectWorkingDirectory. now apply fold_mode_last. Qed.

End WorkingDirectoryClaims.

Section WorkingDirectoryExamples.
Import Sample.
#[local] Existing Instance guards.
#[local] Existing Instance posix.



(** The failing input of C4: [Directory("/a/")] matches [/a/b/c.js], and
    the [Mode] rule declared after it is the result. *)
Lemma mode_rule_replaces_running_best_witness :
  matchOf (Some "/a/b/c.js") None (directoryRule "/a/") = Some ("/a/", false)
  /\ readEntry (modeRule "auto") = ModeEntry {| mode := "auto" |}
  /\ selectWorkingDirectory (javascript "/a/b/c.js") None
       [directoryRule "/a/"; modeRule "auto"]
     = Some (WDMode {| mode := "auto" |}).
Proof.
  split; [reflexivity|]. split; [reflexivity|].
  apply (mode_rule_replaces_running_best (javascript "/a/b/c.js") None
           [directoryRule "/a/"] (modeRule "auto")).
  reflexivity.
Defined.

End WorkingDirectoryExamples.

(** ** Rule customizations *)

Section RuleCustomizations.

Lemma parseRuleCustomization_readable rawValue :
  readable rawValue = true ->
  parseRuleCustomization rawValue = Ok (customizationOf rawValue).
Proof.
  destruct rawValue as [| |b|n|s|l|props]; try discriminate; intros _;
    try reflexivity.
  unfold parseRuleCustomization, customizationOf. simpl.
  destruct (JS.assoc "severity" props); try reflexivity.
  now destruct (JS.assoc "rule" props).
Qed.

Lemma parseRuleCustomization_unreadable rawValue :
  readable rawValue = false -> exists message, parseRuleCustomization rawValue = Throw message.
Proof.
  destruct rawValue; try discriminate; intros _; eexists; reflexivity.
Qed.

Lemma mapResult_readable rawValues :
  forallb readable rawValues = true ->
  mapResult parseRuleCustomization rawValues = Ok (map customizationOf rawValues).
Proof.
  induction rawValues as [|v l IH]; simpl; [reflexivity|].
  intros [Hv Hl]%andb_true_iff.
  now rewrite (parseRuleCustomization_readable v Hv), (IH Hl).
Qed.

Lemma mapResult_unreadable rawValues :
  forallb readable rawValues = false ->
  exists message, mapResult parseRuleCustomization rawValues = Throw message.
Proof.
  induction rawValues as [|v l IH]; simpl; [discriminate|].
  destruct (readable v) eqn:Hv; simpl.
  - intros Hl. destruct (IH Hl) as [message Hm].
    rewrite (parseRuleCustomization_readable v Hv), Hm. now exists message.
  - intros _. destruct (parseRuleCustomization_unreadable v Hv) as [message ->].
    now exists message.
Qed.

Lemma omap_id_map {A B} (f : A -> option B) (l : list A) : omap id (map f l) = omap f l.
Proof.
  induction l as [|a l IH]; [reflexivity|].
  change (omap id (map f (a :: l))) with
    (match f a with Some b => b :: omap id (map f l) | None => omap id (map f l) end).
  rewrite IH. reflexivity.
Qed.

(** On a source whose entries are all readable, the malformed entries are
    dropped one by one and the well-formed ones are kept in order; a source
    that is no array gives the empty list. *)
Lemma parseRulesCustomizations_readable rawConfig :
  readableSource rawConfig = true ->
  parseRulesCustomizations rawConfig =
  Ok match rawConfig with
     | JArray rawValues => omap customizationOf rawValues
     | _ => []
     end.
Proof.
  unfold parseRulesCustomizations.
  destruct rawConfig as [| |b|n|s|rawValues|props]; simpl; intros Hr;
    try reflexivity; try now destruct (negb _).
  now rewrite (mapResult_readable rawValues Hr), omap_id_map.
Qed.

(** C9, where the code departs from the claim. An entry [null] (or
    [undefined]) of the rules-customization array is not dropped: reading
    its [severity] throws, and the exception leaves
    [parseRulesCustomizations], hence the whole configuration request. *)
Theorem null_customization_entry_throws (rawValues : list JValue) :
  forallb readable rawValues = false ->
  exists message, parseRulesCustomizations (JArray rawValues) = Throw message.
Proof.
  intros Hr. unfold parseRulesCustomizations. simpl.
  destruct (mapResult_unreadable rawValues Hr) as [message ->]. now exists message.
Qed.

End RuleCustomizations.

(** ** Resolving a batch *)

Section Batches.
Context `{SettingsGuards, NodeUtils, MigrationClass, Host, SharedSettings}.


#[local] Instance keepsDocuments_preorder : PreOrder keepsDocuments.
Proof.
  split; [now intros c | intros a b c [? ?] [? ?]; split; congruence].
Qed.

Lemma keepsDocuments_migrate resource folder :
  respects keepsDocuments (migrate resource folder).
Proof. apply respects_migrate; try apply _; now intros. Qed.


Lemma completeSettings_run config folder document settings c :
  exists settings',
    completeSettings config folder document settings c = (Ok settings', c)
    /\ validate settings' =
       if resourceEnabled config
       then Validator.check (validator c) (workspace c) document
       else validate settings.
Proof.
  unfold completeSettings, resourceEnabled, bind, gets, ret.
  destruct (JS.truthy _); simpl.
  - eexists. split; [reflexivity|].
    destruct (negb _), folder, (JS.asArray _); reflexivity.
  - eexists. split; [reflexivity|].
    destruct (negb _), folder, (JS.asArray _); reflexivity.
Qed.

(** One per-resource item: the state moves by its migration step; the
    outcome is the exception of that step or of the rule customizations, or
    settings. *)
Lemma readItem_perResource c item :
  notPerResource item = false ->
  let c1 := afterMigration c item in
  match fst (migrate (resourceOf item) (itemFolder c item) c) with
  | Throw message => readItem item c = (Throw message, c1)
  | Ok _ =>
      match getRuleCustomizations (itemConfig c item) (resourceOf item) with
      | Throw message => readItem item c = (Throw message, c1)
      | Ok rules =>
          exists settings,
            readItem item c = (Ok (Some settings), c1)
            /\ validate settings =
               match syncedDocuments c !! default "" (scopeUri item) with
               | Some document =>
                   if resourceEnabled (itemConfig c item)
                   then Validator.check (validator c) (workspace c1) document
                   else Validate.off
               | None => Validate.off
               end
      end
  end.
Proof.
  intros Hitem c1. unfold readItem. fold (notPerResource item). rewrite Hitem.
  unfold migrationSemaphore_lock, bind, gets, liftResult, ret. cbv beta.
  fold (resourceOf item). fold (itemFolder c item). fold (itemConfig c item).
  pose proof (keepsDocuments_migrate (resourceOf item) (itemFolder c item) c) as [Hv Hs].
  unfold c1, afterMigration.
  destruct (migrate (resourceOf item) (itemFolder c item) c) as [[[]|message] c'];
    simpl in Hv, Hs; [|reflexivity]. simpl.
  destruct (getRuleCustomizations _ _) as [rules|message]; [|reflexivity].
  rewrite Hs.
  destruct (syncedDocuments c !! default "" (scopeUri item)) as [document|].
  - destruct (completeSettings_run (itemConfig c item) (itemFolder c item) document
                (initialSettings (itemConfig c item) rules) c') as (settings & -> & Hval).
    exists settings. split; [reflexivity|]. now rewrite Hval, Hv.
  - eexists. split; reflexivity.
Qed.

Lemma readItem_notPerResource c item :
  notPerResource item = true -> readItem item c = (Ok None, c).
Proof. intros Hitem. unfold readItem. fold (notPerResource item). now rewrite Hitem. Qed.

Lemma getRuleCustomizations_readable config resource :
  readableSource (WorkspaceConfiguration.get config "notebooks.rules.customizations") = true ->
  readableSource (WorkspaceConfiguration.get config "rules.customizations") = true ->
  exists rules, getRuleCustomizations config resource = Ok rules.
Proof.
  intros Hnotebook Hgeneral. unfold getRuleCustomizations.
  assert (Hsame : WorkspaceConfiguration.getOr config "notebooks.rules.customizations"
                    JUndefined
                  = WorkspaceConfiguration.get config "notebooks.rules.customizations").
  { unfold WorkspaceConfiguration.getOr. now destruct (WorkspaceConfiguration.get _ _). }
  rewrite Hsame.
  destruct (scheme resource =? "vscode-notebook-cell").
  - destruct (WorkspaceConfiguration.get config "notebooks.rules.customizations") eqn:E;
      eexists; apply parseRulesCustomizations_readable; assumption.
  - eexists. now apply parseRulesCustomizations_readable.
Qed.


#[local] Instance keepsReadable_preorder : PreOrder keepsReadable.
Proof. split; [now intros c | intros a b c Hab Hbc Ha; auto]. Qed.

(** The state in which the items after [before] are read. *)
Lemma mapM_readItem_cons item l c b c1 :
  readItem item c = (Ok b, c1) ->
  snd (mapM readItem (item :: l) c) = snd (mapM readItem l c1).
Proof.
  intros Hitem. simpl. unfold bind at 1. rewrite Hitem. unfold bind, ret.
  now destruct (mapM readItem l c1) as [[bs|e] c'].
Qed.

Section Readable.
Hypothesis update_readable :
  forall m ws, readableCustomizations ws ->
               readableCustomizations (fst (Migration_update m ws)).
Hypothesis never_migrate_readable :
  forall ws, readableCustomizations ws ->
             readableCustomizations (fst (config_update ws "migration.2_x" (JString "off"))).
Hypothesis never_migrate_written :
  forall ws, snd (config_update ws "migration.2_x" (JString "off")) = None.

Lemma keepsReadable_migrate resource folder :
  respects keepsReadable (migrate resource folder).
Proof.
  apply respects_migrate; try apply _; try now intros.
  - intros c m Hc. now apply update_readable.
  - intros c Hc. now apply never_migrate_readable.
Qed.

Lemma readItem_return c item :
  readableCustomizations (workspace c) ->
  exists result,
    readItem item c = (Ok result, if notPerResource item then c else afterMigration c item)
    /\ answers item result.
Proof.
  intros Hc. unfold answers. destruct (notPerResource item) eqn:Hitem.
  - exists None. split; [now apply readItem_notPerResource | reflexivity].
  - pose proof (readItem_perResource c item Hitem) as Hrun. simpl in Hrun.
    rewrite (migrate_returns _ _ _ never_migrate_written) in Hrun.
    destruct (Hc (Some match getTextDocument c (resourceOf item) with
                       | Some document => ScopeDocument document
                       | None => ScopeUri (resourceOf item)
                       end)) as [Hnotebook Hgeneral].
    destruct (getRuleCustomizations_readable _ (resourceOf item) Hnotebook Hgeneral)
      as [rules Hrules].
    unfold itemConfig in Hrun at 1. rewrite Hrules in Hrun.
    destruct Hrun as (settings & Hrun & _).
    exists (Some settings). split; [exact Hrun | now exists settings].
Qed.

Lemma readItems_return (l : list ConfigurationItem) :
  forall c, readableCustomizations (workspace c) ->
  exists results,
    fst (mapM readItem l c) = Ok results
    /\ Forall2 answers l results
    /\ forall i item,
         l !! i = Some item ->
         exists result,
           results !! i = Some result
           /\ fst (readItem item (snd (mapM readItem (take i l) c))) = Ok result.
Proof.
  induction l as [|item l IH]; intros c Hc.
  - exists []. split; [reflexivity|]. split; [constructor|]. intros i item Hi.
    now rewrite lookup_nil in Hi.
  - destruct (readItem_return c item Hc) as (result & Hitem & Hanswer).
    set (c1 := if notPerResource item then c else afterMigration c item) in *.
    assert (Hc1 : readableCustomizations (workspace c1)).
    { unfold c1. destruct (notPerResource item); [exact Hc|].
      now apply (keepsReadable_migrate (resourceOf item) (itemFolder c item) c). }
    destruct (IH c1 Hc1) as (results & Hres & Hall & Hthere).
    exists (result :: results). split; [|split].
    + simpl. unfold bind at 1. rewrite Hitem. unfold bind, ret.
      destruct (mapM readItem l c1) as [[bs|e] c']; simpl in *; [|discriminate].
      now injection Hres as ->.
    + now constructor.
    + intros [|i] item' Hi.
      * simpl in Hi. injection Hi as <-. exists result. split; [reflexivity|].
        simpl. now rewrite Hitem.
      * simpl in Hi. destruct (Hthere i item' Hi) as (result' & Hlookup & Hread).
        exists result'. split; [exact Hlookup|].
        change (take (S i) (item :: l)) with (item :: take i l).
        now rewrite (mapM_readItem_cons item (take i l) c result c1 Hitem).
Qed.

End Readable.

(** C5, as the code has it. When the rules-customization sources of the
    editor hold no [null] or [undefined] entry, neither a migration update
    nor "Never migrate" puts one there, and "Never migrate" can be written,
    [readConfiguration] returns one result per item, in the order of the
    items: the result at each position is the answer to the item at that
    position, read in the state that the items before it have left; it is
    [null] for an item with a section other than the empty string or
    without a scope URI other than the empty string, and settings for every
    other item. *)
Theorem readConfiguration_answers_each_item (c : Client) (params : ConfigurationParams) :
  readableCustomizations (workspace c) ->
  (forall m ws, readableCustomizations ws ->
                readableCustomizations (fst (Migration_update m ws))) ->
  (forall ws, readableCustomizations ws ->
              readableCustomizations
                (fst (config_update ws "migration.2_x" (JString "off")))) ->
  (forall ws, snd (config_update ws "migration.2_x" (JString "off")) = None) ->
  exists results,
    fst (readConfiguration params c) = Ok results
    /\ length results = length (default [] (items params))
    /\ Forall2 answers (default [] (items params)) results
    /\ forall i item,
         default [] (items params) !! i = Some item ->
         exists result,
           results !! i = Some result
           /\ fst (readItem item
                     (snd (readConfiguration
                             {| items := Some (take i (default [] (items params))) |} c)))
              = Ok result.
Proof.
  intros Hc Hupdate Hnever Hwritten. unfold readConfiguration.
  destruct (items params) as [l|]; simpl.
  - destruct (readItems_return Hupdate Hnever Hwritten l c Hc)
      as (results & Hres & Hall & Hthere).
    exists results. split; [exact Hres|]. split; [|split; [exact Hall | exact Hthere]].
    symmetry. apply (Forall2_length _ _ _ Hall).
  - exists []. split; [reflexivity|]. split; [reflexivity|]. split; [constructor|].
    intros i item Hi. now rewrite lookup_nil in Hi.
Qed.


End Batches.

(** ** The properties on a concrete host *)

Section ProbeFailedExamples.
Import Sample.
#[local] Existing Instance guards.
#[local] Existing Instance posix.
#[local] Existing Instance legacySetting.
#[local] Existing Instance sharedSettings.
#[local] Existing Instance dismissing.

Lemma probe_failure_overrides_probe_witness :
  let c := client probing in
  let events := [DidOpen (javascript "/c.js");
                 ConfigurationRequest (request "file:///a/b.js" None)] in
  let c' := runEvents events (handle c (ProbeFailedRequest "file:///a/b.js")) in
  Validator.check (validator c) (workspace c) (javascript "/a/b.js") = Validate.probe
  /\ Validator.check (validator c') (workspace c') (javascript "/a/b.js") = Validate.off.
Proof.
  split; [reflexivity|].
  apply (probe_failure_overrides_probe (client probing) "file:///a/b.js"
           [DidOpen (javascript "/c.js");
            ConfigurationRequest (request "file:///a/b.js" None)]
           (javascript "/a/b.js")).
  - repeat constructor.
  - reflexivity.
  - vm_compute. reflexivity.
Defined.

(** C2 as stated fails twice. After the probe of [/a/b.js] has failed, a
    document with that URI whose language tag is in the [probe] list is
    classified [on] when the tag is in the [validate] list as well (the
    language mode of the file was changed); and the document is classified
    [probe] again after a watched-file change, no configuration change
    having happened. *)
Lemma probe_failure_override_exceptions :
  let c := handle (client probing) (ProbeFailedRequest "file:///a/b.js") in
  let retagged := {| uri := fileUri "/a/b.js"; languageId := "typescript" |} in
  toString (fileUri "/a/b.js") ∈ Validator.probeFailed (validator c)
  /\ Validator.check (validator c) (workspace c) retagged = Validate.on
  /\ let c' := runEvents [DidChangeWatchedFile] c in
     Validator.check (validator c') (workspace c') (javascript "/a/b.js") = Validate.probe.
Proof.
  split; [vm_compute; set_solver|]. split; reflexivity.
Qed.

Lemma watched_file_change_clears_witness :
  let c := handle (client probing) (ProbeFailedRequest "file:///a/b.js") in
  let c' := handle c DidChangeWatchedFile in
  Validator.check (validator c) (workspace c) (javascript "/a/b.js") = Validate.off
  /\ Validator.probeFailed (validator c') = ∅
  /\ Validator.probeFailed (validator (handle c DidChangeConfiguration)) = ∅
  /\ workspace c' = workspace c
  /\ Validator.check (validator c') (workspace c') (javascript "/a/b.js") = Validate.probe.
Proof.
  split; [reflexivity|].
  apply (watched_file_change_clears
           (handle (client probing) (ProbeFailedRequest "file:///a/b.js"))
           (javascript "/a/b.js")); vm_compute; reflexivity.
Defined.

End ProbeFailedExamples.

Section DecliningUser.
Import Sample.
#[local] Existing Instance guards.
#[local] Existing Instance posix.
#[local] Existing Instance legacySetting.
#[local] Existing Instance sharedSettings.
#[local] Existing Instance declining.

Lemma readableCustomizations_editor config documents :
  readableSource (WorkspaceConfiguration.get config "notebooks.rules.customizations") = true ->
  readableSource (WorkspaceConfiguration.get config "rules.customizations") = true ->
  readableCustomizations (editor config documents).
Proof. intros Hn Hg scope. now split. Qed.

Lemma readableCustomizations_config_update ws key value :
  key <> "notebooks.rules.customizations" -> key <> "rules.customizations" ->
  readableCustomizations ws -> readableCustomizations (fst (config_update ws key value)).
Proof.
  intros Hn Hg Hws scope. simpl. unfold WorkspaceConfiguration.get.
  rewrite !lookup_insert_ne by assumption. apply Hws.
Qed.

Lemma readConfiguration_answers_each_item_witness :
  let batch :=
    {| items := Some [ {| scopeUri := Some "file:///a/b.js"; section := None |};
                       {| scopeUri := Some "file:///a/b.js"; section := Some "eslint" |};
                       {| scopeUri := None; section := None |} ] |} in
  exists first,
    fst (readConfiguration batch (client legacy)) = Ok [Some first; None; None].
Proof.
  destruct (readConfiguration_answers_each_item (client legacy)
              {| items := Some [ {| scopeUri := Some "file:///a/b.js"; section := None |};
                                 {| scopeUri := Some "file:///a/b.js";
                                    section := Some "eslint" |};
                                 {| scopeUri := None; section := None |} ] |})
    as (results & Hresults & Hlength & Hanswers & _).
  - apply readableCustomizations_editor; reflexivity.
  - intros m ws Hws. exact Hws.
  - intros ws Hws. apply readableCustomizations_config_update; [discriminate..|exact Hws].
  - reflexivity.
  - simpl in Hanswers.
    destruct results as [|r1 [|r2 [|r3 [|r4 results]]]]; try discriminate.
    apply Forall2_cons in Hanswers as [H1 Hanswers].
    apply Forall2_cons in Hanswers as [H2 Hanswers].
    apply Forall2_cons in Hanswers as [H3 _].
    vm_compute in H1, H2, H3. destruct H1 as [first ->]. subst r2 r3.
    exists first. exact Hresults.
Defined.

(** C5 as stated fails: an item that carries the section [""] next to its
    scope URI is answered with settings, not with [null]. *)
Lemma empty_section_is_resolved :
  let item := {| scopeUri := Some "file:///a/b.js"; section := Some "" |} in
  exists settings,
    fst (readConfiguration {| items := Some [item] |} (client legacy)) = Ok [Some settings].
Proof. eexists. vm_compute. reflexivity. Qed.


(** The failing input of C9: one well-formed entry followed by [null]. The
    exception leaves [readConfiguration], so the batch has no result. *)
Lemma null_customization_entry_throws_witness :
  (exists message,
     parseRulesCustomizations
       (JArray [JObject [("rule", JString "no-*"); ("severity", JString "warn")]; JNull])
     = Throw message)
  /\ fst (readConfiguration (request "file:///a/b.js" None) (client nullRule))
     = Throw "TypeError: Cannot read properties of null".
Proof.
  split.
  - apply (null_customization_entry_throws
             [JObject [("rule", JString "no-*"); ("severity", JString "warn")]; JNull]).
    reflexivity.
  - vm_compute. reflexivity.
Defined.

End DecliningUser.

Section DismissingUser.
Import Sample.
#[local] Existing Instance guards.
#[local] Existing Instance posix.
#[local] Existing Instance legacySetting.
#[local] Existing Instance sharedSettings.
#[local] Existing Instance dismissing.

(** Scenario 4, with a dismissal: the legacy setting is present, the user
    dismisses the first prompt, and two more requests show no prompt. *)
Lemma migration_deferred_for_session_witness :
  let ask := ConfigurationRequest (request "file:///a/b.js" None) in
  let c1 := runEvents [ask] (client legacy) in
  promptsShown c1 = 1%nat
  /\ notNow c1 = true
  /\ promptsShown (runEvents [ask; ask] c1) = promptsShown c1.
Proof.
  split; [reflexivity|].
  apply (migration_deferred_for_session (client legacy)
           [ConfigurationRequest (request "file:///a/b.js" None)]
           [ConfigurationRequest (request "file:///a/b.js" None);
            ConfigurationRequest (request "file:///a/b.js" None)] 0).
  - vm_compute. lia.
  - right. right. reflexivity.
Defined.

End DismissingUser.

(** ** A request that is rejected *)

Section ReadOnlySettings.
Import Sample.
#[local] Existing Instance guards.
#[local] Existing Instance posix.
#[local] Existing Instance legacySetting.
#[local] Existing Instance sharedSettings.
#[local] Existing Instance readOnly.

(** Why C5 asks that "Never migrate" can be written: the [await] of
    [config.update] in the thunk is not in a [try], so a rejected write
    rejects the call of [lock], and with it the whole request. The
    migration record is cleared all the same. *)
Lemma never_migrate_failure_rejects_request :
  let run := readConfiguration (request "file:///a/b.js" None) (client legacy) in
  fst run = Throw "Unable to write into user settings."
  /\ migration (snd run) = None.
Proof. vm_compute. now split. Qed.

End ReadOnlySettings.

(** ** Overlapping requests: one migration at a time *)

Section Serialization.
Context `{SettingsGuards, NodeUtils, MigrationClass, Host, SharedSettings}.
Import Interleaving.

(** *** The cuts are the code *)

(** The thunk cut at the prompt is the thunk of [readConfiguration]: run
    without interruption, with what the user does with this prompt, the two
    halves do what [migrate] does. *)
Lemma migrate_cut (call : Call) (c : Client) :
  migrate (at_resource (call_request call)) (at_workspaceFolder (call_request call)) c =
  match beforePrompt call c with
  | (c1, Some m) => afterPrompt m (selectedAt (promptsShown c)) c1
  | (c1, None) => (Ok tt, c1)
  end.
Proof.
  unfold migrate, tryFinally, beforePrompt, afterPrompt, tryFinally, bind, gets, modify, ret.
  simpl.
  destruct (negb (notNow c) && _); simpl; [|reflexivity].
  destruct (Migration_needsUpdate _); simpl; reflexivity.
Qed.

(** The loop body cut at the lock is the loop body: the part before the
    call, the thunk, and the part after the [await]. *)
Lemma readItem_cut (item : ConfigurationItem) (c : Client) :
  readItem item c =
  match advance [item] [] c with
  | inr _ => (Ok None, c)
  | inl request =>
      match migrate (at_resource request) (at_workspaceFolder request) c with
      | (Throw message, c1) => (Throw message, c1)
      | (Ok _, c1) =>
          match itemSettings request c1 with
          | (Throw message, c2) => (Throw message, c2)
          | (Ok settings, c2) => (Ok (Some settings), c2)
          end
      end
  end.
Proof.
  unfold readItem, advance, itemSettings.
  destruct (given (section item) || negb (given (scopeUri item))); [reflexivity|].
  unfold migrationSemaphore_lock, bind, gets, liftResult, ret. cbv beta.
  fold (resourceOf item). fold (itemFolder c item). fold (itemConfig c item). simpl.
  destruct (migrate (resourceOf item) (itemFolder c item) c) as [[[]|message] c1];
    [|reflexivity].
  destruct (getRuleCustomizations _ _) as [rules|message]; [|reflexivity].
  destruct (syncedDocuments c1 !! default "" (scopeUri item)) as [document|];
    [|reflexivity].
  now destruct (completeSettings _ _ _ _ c1) as [[settings|message] c2].
Qed.

(** *** The semaphore *)









(** *** A request that meets no other is the code run through *)

Lemma steps_app s trace s' trace' s'' :
  steps s trace s' -> steps s' trace' s'' -> steps s (trace ++ trace') s''.
Proof.
  induction 1 as [|s label s1 trace s2 Hstep _ IH]; intros Hrest; [exact Hrest|].
  simpl. eapply steps_next; [exact Hstep | now apply IH].
Qed.

Lemma reachable_steps c trace s trace' s' :
  reachable c trace s -> steps s trace' s' -> reachable c (trace ++ trace') s'.
Proof.
  intros Hreach Hsteps. revert trace Hreach.
  induction Hsteps as [|s label s1 trace' s2 Hstep _ IH]; intros trace Hreach.
  - now rewrite app_nil_r.
  - change (label :: trace') with ([label] ++ trace')%list. rewrite app_assoc.
    apply IH. now apply reachable_step with s.
Qed.

Lemma steps_same s s' : s = s' -> steps s [] s'.
Proof. intros ->. constructor. Qed.

(** With the slot free and nobody waiting, a queued thunk is started at
    once and runs to its end as [migrate] does, the user doing with the
    prompt what they do with the prompt of that number. *)
Lemma uncontended_thunk (request : Suspended) (c : Client) (n : nat)
    (answers : list (Result (list (option ConfigurationSettings))))
    (others : gmap nat CommandStage) :
  let s := {| shared := c; issued := n; active := 0; waiting := []; running := ∅;
              returned := answers; commands := others |} in
  let call := {| call_id := n; call_request := request |} in
  let run := migrate (at_resource request) (at_workspaceFolder request) c in
  exists trace,
    steps (lock request s) trace
      {| shared := snd run; issued := S n; active := 1; waiting := [];
         running := {[ n := (call, Leaving (fst run)) ]};
         returned := answers; commands := others |}.
Proof.
  intros s call run. subst run.
  change (migrate (at_resource request) (at_workspaceFolder request) c)
    with (migrate (at_resource (call_request call)) (at_workspaceFolder (call_request call)) c).
  rewrite (migrate_cut call c).
  destruct (beforePrompt call c) as [c1 [m|]] eqn:Hbefore.
  - exists [Started n; Checked n; Answered n (userAction (promptsShown c))].
    eapply steps_next; [apply (step_start _ call []); [reflexivity | unfold capacity; simpl; lia]|].
    eapply steps_next; [apply (step_check _ call); apply lookup_insert_eq|].
    eapply steps_next; [apply (step_answer _ call m (userAction (promptsShown c)))|].
    + simpl. rewrite Hbefore. simpl. apply lookup_insert_eq.
    + apply steps_same. unfold setRunning, setShared, start, lock. simpl.
      rewrite Hbefore. simpl. fold (selectedAt (promptsShown c)).
      rewrite !insert_insert_eq, insert_empty. reflexivity.
  - exists [Started n; Checked n].
    eapply steps_next; [apply (step_start _ call []); [reflexivity | unfold capacity; simpl; lia]|].
    eapply steps_next; [apply (step_check _ call); apply lookup_insert_eq|].
    apply steps_same. unfold setRunning, setShared, start, lock. simpl.
    rewrite Hbefore. simpl. rewrite !insert_insert_eq, insert_empty. reflexivity.
Qed.

Lemma itemSettings_advance item rest result c c1 :
  given (section item) || negb (given (scopeUri item)) = false ->
  itemSettings {| at_scopeUri := default "" (scopeUri item);
                  at_resource := resourceOf item;
                  at_config := itemConfig c item;
                  at_workspaceFolder := itemFolder c item;
                  rest := rest; result := result |} c1
  = match advance [item] [] c with
    | inl request => itemSettings request c1
    | inr _ => (Throw "", c1)
    end.
Proof. intros Hitem. simpl. now rewrite Hitem. Qed.

(** A request that finds the semaphore free and meets no other request
    goes through the system as [readConfiguration] runs: it leaves the
    semaphore free again, the client is left as the code leaves it, and the
    request is answered, or rejected, as the code returns, or throws. *)
Lemma uncontended_items (items : list ConfigurationItem) :
  forall (result : list (option ConfigurationSettings)) (s : System),
    idle s ->
    exists trace s',
      steps (enter (advance items result (shared s)) s) trace s'
      /\ idle s'
      /\ commands s' = commands s
      /\ shared s' = snd (mapM readItem items (shared s))
      /\ returned s' =
         (returned s
          ++ [match fst (mapM readItem items (shared s)) with
              | Ok results => Ok (result ++ results)%list
              | Throw message => Throw message
              end])%list.
Proof.
  induction items as [|item items IH]; intros result s Hidle.
  - exists [], (answer (Ok result) s). simpl. rewrite app_nil_r.
    repeat split; try apply Hidle. constructor.
  - destruct s as [c n a w r answers others]. destruct Hidle as (Ha & Hw & Hr).
    simpl in Ha, Hw, Hr. subst a w r. cbn [shared commands returned].
    assert (Hmap : mapM readItem (item :: items) c =
              match readItem item c with
              | (Ok b, c1) =>
                  match mapM readItem items c1 with
                  | (Ok bs, c2) => (Ok (b :: bs), c2)
                  | (Throw message, c2) => (Throw message, c2)
                  end
              | (Throw message, c1) => (Throw message, c1)
              end).
    { simpl. unfold bind, ret. destruct (readItem item c) as [[b|message] c1]; [|reflexivity].
      now destruct (mapM readItem items c1) as [[bs|message] c2]. }
    rewrite Hmap, (readItem_cut item c). clear Hmap. cbn [advance].
    destruct (given (section item) || negb (given (scopeUri item))) eqn:Hskip.
    + destruct (IH (result ++ [None])%list
                  {| shared := c; issued := n; active := 0; waiting := []; running := ∅;
                     returned := answers; commands := others |})
        as (trace & s' & Hsteps & Hidle' & Hcommands & Hshared & Hreturned);
        [now repeat split|].
      cbn [shared commands returned] in *.
      exists trace, s'. split; [exact Hsteps|]. split; [exact Hidle'|].
      split; [exact Hcommands|]. rewrite Hshared, Hreturned.
      destruct (mapM readItem items c) as [[bs|message] c2]; simpl;
        [now rewrite <- app_assoc | now split].
    + set (request := {| at_scopeUri := default "" (scopeUri item);
                         at_resource := resourceOf item;
                         at_config := itemConfig c item;
                         at_workspaceFolder := itemFolder c item;
                         rest := items; result := result |}).
      set (call := {| call_id := n; call_request := request |}).
      destruct (uncontended_thunk request c n answers others) as (trace1 & Hthunk).
      cbv zeta in Hthunk. fold call in Hthunk.
      change (at_resource request) with (resourceOf item) in Hthunk.
      change (at_workspaceFolder request) with (itemFolder c item) in Hthunk.
      change (itemSettings _) with (itemSettings request).
      assert (Hfinish : forall outcome c1,
                 step {| shared := c1; issued := S n; active := 1; waiting := [];
                         running := {[ n := (call, Leaving outcome) ]};
                         returned := answers; commands := others |}
                   (Finished n)
                   (resume call outcome
                      {| shared := c1; issued := S n; active := 0; waiting := [];
                         running := ∅; returned := answers; commands := others |})).
      { intros outcome c1.
        assert (Hstep := step_finish
                      {| shared := c1; issued := S n; active := 1; waiting := [];
                         running := {[ n := (call, Leaving outcome) ]};
                         returned := answers; commands := others |}
                      call outcome (lookup_insert_eq ∅ n (call, Leaving outcome))).
        unfold release in Hstep. cbn in Hstep. now rewrite delete_singleton_eq in Hstep. }
      change (migrate _ _ c) with (migrate (resourceOf item) (itemFolder c item) c).
      destruct (migrate (resourceOf item) (itemFolder c item) c) as [[[]|message] c1];
        cbn [fst snd] in Hthunk.
      * destruct (itemSettings request c1) as [[settings|message] c2] eqn:Hsettings.
        -- destruct (IH (result ++ [Some settings])%list
                       {| shared := c2; issued := S n; active := 0; waiting := [];
                          running := ∅; returned := answers; commands := others |})
             as (trace2 & s' & Hsteps & Hidle' & Hcommands & Hshared & Hreturned);
             [now repeat split|].
           cbn [shared commands returned] in *.
           exists (trace1 ++ Finished n :: trace2)%list, s'.
           split; [|split; [exact Hidle'|split; [exact Hcommands|]]].
           ++ eapply steps_app; [exact Hthunk|].
              eapply steps_next; [apply Hfinish|].
              unfold resume. change (call_request call) with request. cbn [shared]. rewrite Hsettings. exact Hsteps.
           ++ rewrite Hshared, Hreturned.
              destruct (mapM readItem items c2) as [[bs|message] c3]; simpl;
                [now rewrite <- app_assoc | now split].
        -- eexists (trace1 ++ [Finished n])%list, _.
           split; [|split; [|split; [|split]]].
           ++ eapply steps_app; [exact Hthunk|].
              eapply steps_next; [apply Hfinish | constructor].
           ++ unfold resume. change (call_request call) with request. cbn [shared]. rewrite Hsettings. now repeat split.
           ++ unfold resume. change (call_request call) with request. cbn [shared]. now rewrite Hsettings.
           ++ unfold resume. change (call_request call) with request. cbn [shared]. now rewrite Hsettings.
           ++ unfold resume. change (call_request call) with request. cbn [shared]. now rewrite Hsettings.
      * eexists (trace1 ++ [Finished n])%list, _.
        split; [|split; [|split; [|split]]].
        -- eapply steps_app; [exact Hthunk|].
           eapply steps_next; [apply Hfinish | constructor].
        -- now repeat split.
        -- reflexivity.
        -- reflexivity.
        -- reflexivity.
Qed.

(** So a configuration request that arrives while the semaphore is free,
    and is not overlapped, is handled by the system as [handle] says, and
    answered with what [readConfiguration] returns. *)
Lemma uncontended_request (params : ConfigurationParams) (s : System) :
  idle s ->
  exists trace s',
    steps s (Occurred (ConfigurationRequest params) :: trace) s'
    /\ idle s'
    /\ commands s' = commands s
    /\ shared s' = handle (shared s) (ConfigurationRequest params)
    /\ returned s' = (returned s ++ [fst (readConfiguration params (shared s))])%list.
Proof.
  intros Hidle. unfold handle, readConfiguration.
  destruct (items params) as [items|] eqn:Hitems.
  - destruct (uncontended_items items [] s Hidle)
      as (trace & s' & Hsteps & Hidle' & Hcommands & Hshared & Hreturned).
    exists trace, s'. split; [|split; [exact Hidle'|split; [exact Hcommands|]]].
    + eapply steps_next; [apply step_request|]. unfold begin. now rewrite Hitems.
    + split; [exact Hshared|]. rewrite Hreturned.
      now destruct (mapM readItem items (shared s)) as [[results|message] c'].
  - exists [], (answer (Ok []) s). split; [|now repeat split; try apply Hidle].
    eapply steps_next; [apply step_request|]. unfold begin. rewrite Hitems. constructor.
Qed.


End Serialization.

Section SerializationExample.
Import Sample SamplePlatform Interleaving.
#[local] Existing Instance guards.
#[local] Existing Instance posix.
#[local] Existing Instance legacySetting.
#[local] Existing Instance sharedSettings.
#[local] Existing Instance dismissing.






End SerializationExample.

(** ** The status bar and the notifications of the server *)

Section ShellFacts.
Context `{Platform}.

Lemma statusBar_updateStatusBar requested sh :
  let item := statusBarItem (updateStatusBar requested sh) in
  sbi_text item = statusText (statusOf sh requested)
  /\ sbi_visible item =
     JS.truthy (WorkspaceConfiguration.getOr
                  (getConfiguration (shellWorkspace sh) "eslint" None)
                  "alwaysShowStatus" (JBool false))
     || negb (Status.eqb (statusOf sh requested) Status.ok)
  /\ sbi_tooltip item =
     Some match serverRunning sh with
          | None => starting
          | Some true => running_text
          | Some false => stopped
          end.
Proof. simpl. now destruct (statusOf sh requested). Qed.

(** The status bar item a handler leaves is the one it found, or the one
    written by [updateStatusBar] in a state with the same server flag. *)
Lemma shellHandle_statusBar sh e :
  statusBarItem (shellHandle sh e) = statusBarItem sh
  \/ exists requested sh0,
       statusBarItem (shellHandle sh e) = statusBarItem (updateStatusBar requested sh0)
       /\ serverRunning sh0 = serverRunning (shellHandle sh e).
Proof.
  destruct e as [ws active| |u state|code detail answer|documentUri|sourceUri answer|url
                |newState| |document]; cbn [shellHandle].
  - now left.
  - now left.
  - right. unfold updateDocumentStatus. eexists _, _. split; reflexivity.
  - left. unfold onExitCalled. now destruct answer as [[|[|n]]|].
  - right. unfold onNoConfig, updateDocumentStatus. eexists _, _. split; reflexivity.
  - left. unfold onNoESLintLibrary.
    destruct (getWorkspaceFolder _ _) as [folder|]; simpl;
      destruct (negb _); simpl; try reflexivity; now destruct answer as [[|[|n]]|].
  - now left.
  - right. unfold onDidChangeState. eexists _, _. split; reflexivity.
  - right. eexists _, _. split; reflexivity.
  - right. unfold onDidCloseTextDocument. eexists _, _. split; reflexivity.
Qed.

Lemma shellRun_snoc events e sh :
  shellRun (events ++ [e]) sh = shellHandle (shellRun events sh) e.
Proof. unfold shellRun. now rewrite fold_left_app. Qed.

(** X1. Whatever happens in a session, the status bar item shows the text of
    one of the three states, and it is never hidden while that state is a
    warning or an error. *)
Theorem problems_are_never_hidden (stored : option NoESLintState) (ws : Workspace)
    (active : option TextDocument) (events : list ShellEvent) :
  let item := statusBarItem (shellRun events (shellCreate stored ws active)) in
  exists status,
    sbi_text item = statusText status
    /\ (status <> Status.ok -> sbi_visible item = true).
Proof.
  induction events as [|e events IH] using rev_ind; simpl.
  - exists Status.ok. now split.
  - rewrite shellRun_snoc.
    destruct (shellHandle_statusBar (shellRun events (shellCreate stored ws active)) e)
      as [-> | (requested & sh0 & -> & _)]; [exact IH|].
    destruct (statusBar_updateStatusBar requested sh0) as (Htext & Hvisible & _).
    exists (statusOf sh0 requested). split; [exact Htext|].
    intros Hstatus. rewrite Hvisible.
    destruct (statusOf sh0 requested); [congruence | apply orb_true_r..].
Qed.

Lemma serverRunning_shellHandle sh e :
  isDidChangeState e = false -> serverRunning (shellHandle sh e) = serverRunning sh.
Proof.
  destruct e as [ws active| |u state|code detail answer|documentUri|sourceUri answer|url
                |newState| |document]; simpl; intros He; try discriminate; try reflexivity.
  - unfold onExitCalled. now destruct answer as [[|[|n]]|].
  - unfold onNoESLintLibrary.
    destruct (getWorkspaceFolder _ _) as [folder|]; simpl;
      destruct (negb _); simpl; try reflexivity; now destruct answer as [[|[|n]]|].
Qed.

(** X2. Once the server has stopped, the status bar shows the error state,
    visibly and with the "stopped" tooltip, whatever the documents report
    and whichever editor is active, until the next change of state. *)
Theorem stopped_server_shows_error (sh : Shell) (events : list ShellEvent) :
  Forall (fun e => isDidChangeState e = false) events ->
  let item :=
    statusBarItem (shellRun events (shellHandle sh (DidChangeState State.Stopped))) in
  sbi_text item = statusText Status.error
  /\ sbi_visible item = true
  /\ sbi_tooltip item = Some stopped.
Proof.
  intros Hevents.
  set (sh1 := shellHandle sh (DidChangeState State.Stopped)).
  assert (Hinv : serverRunning (shellRun events sh1) = Some false
                 /\ sbi_text (statusBarItem (shellRun events sh1)) = statusText Status.error
                 /\ sbi_visible (statusBarItem (shellRun events sh1)) = true
                 /\ sbi_tooltip (statusBarItem (shellRun events sh1)) = Some stopped).
  { induction events as [|e events IH] using rev_ind.
    - simpl. repeat split; try reflexivity. apply orb_true_r.
    - apply Forall_app in Hevents as [Hevents He]. apply Forall_cons in He as [He _].
      destruct (IH Hevents) as (Hrun & Htext & Hvisible & Htooltip).
      rewrite shellRun_snoc.
      assert (Hrun' : serverRunning (shellHandle (shellRun events sh1) e) = Some false).
      { now rewrite serverRunning_shellHandle. }
      split; [exact Hrun'|].
      destruct (shellHandle_statusBar (shellRun events sh1) e)
        as [-> | (requested & sh0 & -> & Hsame)]; [now repeat split|].
      rewrite Hrun' in Hsame.
      destruct (statusBar_updateStatusBar requested sh0) as (Ht & Hv & Htip).
      assert (Hstatus : statusOf sh0 requested = Status.error).
      { unfold statusOf. now rewrite Hsame. }
      rewrite Ht, Hv, Htip, Hstatus, Hsame. repeat split. apply orb_true_r. }
  apply Hinv.
Qed.

(** X3. A status notification puts the state of its document into the status
    bar, whether or not that document is the one in the active editor; the
    next change of the active editor shows the stored state of the active
    document instead, and the plain text when it has none. (The server is
    not stopped.) *)
Theorem status_notification_is_displayed (sh : Shell) (params_uri : string)
    (state : Status.t) (ws : Workspace) (active : option TextDocument) :
  serverRunning sh <> Some false ->
  let sh1 := shellHandle sh (StatusNotification params_uri state) in
  let sh2 := shellRun [ShellEditorChanged ws active; DidChangeActiveTextEditor] sh1 in
  documentStatus sh1 !! params_uri = Some state
  /\ sbi_text (statusBarItem sh1) = statusText state
  /\ sbi_text (statusBarItem sh2) =
     statusText match active with
                | Some editor =>
                    if decide (toString (uri editor) = params_uri) then state
                    else default Status.ok (documentStatus sh !! toString (uri editor))
                | None => Status.ok
                end.
Proof.
  intros Hrun sh1 sh2.
  assert (Hone : forall requested (sh0 : Shell),
             serverRunning sh0 = serverRunning sh ->
             sbi_text (statusBarItem (updateStatusBar requested sh0))
             = statusText match match requested with
                                | Some u => Some u
                                | None => (fun editor => toString (uri editor))
                                            <$> activeTextEditor sh0
                                end with
                          | Some u => default Status.ok (documentStatus sh0 !! u)
                          | None => Status.ok
                          end).
  { intros requested sh0 Hsame.
    destruct (statusBar_updateStatusBar requested sh0) as (-> & _). f_equal.
    unfold statusOf. rewrite Hsame.
    destruct (serverRunning sh) as [[|]|]; try reflexivity. congruence. }
  subst sh1 sh2. unfold shellRun. cbn [fold_left shellHandle]. unfold updateDocumentStatus.
  split; [apply lookup_insert_eq|]. split.
  - rewrite Hone by reflexivity. simpl. now rewrite lookup_insert_eq.
  - rewrite Hone by reflexivity. simpl. destruct active as [editor|]; simpl; [|reflexivity].
    rewrite lookup_insert. destruct (decide (toString (uri editor) = params_uri)) as [->|Hne].
    + now rewrite decide_True.
    + rewrite decide_False by congruence. reflexivity.
Qed.

(** X4. Closing a document forgets its state: the entry of its URI is gone,
    the other entries stay, and while the closed document is still the one
    in the active editor the status bar goes back to the plain text. (The
    server is not stopped.) *)
Theorem closed_document_has_no_status (sh : Shell) (document : TextDocument) :
  serverRunning sh <> Some false ->
  activeTextEditor sh = Some document ->
  let sh' := shellHandle sh (DidCloseTextDocument document) in
  documentStatus sh' !! toString (uri document) = None
  /\ (forall other, other <> toString (uri document) ->
        documentStatus sh' !! other = documentStatus sh !! other)
  /\ sbi_text (statusBarItem sh') = "ESLint".
Proof.
  intros Hrun Hactive sh'. subst sh'. cbn [shellHandle]. unfold onDidCloseTextDocument.
  pose proof (statusBar_updateStatusBar None
                (setDocumentStatus (delete (toString (uri document)) (documentStatus sh)) sh))
    as (Htext & _).
  split; [apply lookup_delete_eq|]. split.
  - intros other Hother. now apply lookup_delete_ne.
  - rewrite Htext. unfold statusOf. simpl. rewrite Hactive. simpl.
    rewrite lookup_delete_eq. simpl.
    destruct (serverRunning sh) as [[|]|]; try reflexivity. congruence.
Qed.

(** X5. A request that reports a missing configuration marks the document as
    an error and shows the error state in the status bar, visibly, whatever
    the state of the server and whichever editor is active. *)
Theorem missing_configuration_shows_error (sh : Shell) (documentUri : string) :
  let sh' := shellHandle sh (NoConfigRequest documentUri) in
  documentStatus sh' !! documentUri = Some Status.error
  /\ sbi_text (statusBarItem sh') = statusText Status.error
  /\ sbi_visible (statusBarItem sh') = true.
Proof.
  intros sh'. subst sh'. cbn [shellHandle]. unfold onNoConfig, updateDocumentStatus.
  match goal with
  | |- context [updateStatusBar ?r ?s0] =>
      pose proof (statusBar_updateStatusBar r s0) as (Htext & Hvisible & _);
      assert (Hstatus : statusOf s0 r = Status.error)
  end.
  { unfold statusOf. simpl. rewrite lookup_insert_eq. simpl.
    now destruct (serverRunning sh) as [[|]|]. }
  split; [apply lookup_insert_eq|].
  rewrite Htext, Hvisible, Hstatus. split; [reflexivity | apply orb_true_r].
Qed.

Lemma serverCalledProcessExit_shellHandle sh e :
  serverCalledProcessExit (shellHandle sh e) = isExitCalled e || serverCalledProcessExit sh.
Proof.
  destruct e as [ws active| |u state|code detail answer|documentUri|sourceUri answer|url
                |newState| |document]; simpl; try reflexivity.
  - unfold onExitCalled. now destruct answer as [[|[|n]]|].
  - unfold onNoESLintLibrary.
    destruct (getWorkspaceFolder _ _) as [folder|]; simpl;
      destruct (negb _); simpl; try reflexivity; now destruct answer as [[|[|n]]|].
  - now destruct newState.
Qed.

(** X6. Once the server has announced, at some point of the session, that
    it called [process.exit], the client refuses to restart a closed
    connection, whatever the default handler of the language client would
    answer; the flag is never taken back, not even by a later change of
    state. Until then the answer is the default handler's, which may be a
    refusal as well. *)
Theorem restart_refused_after_exit (stored : option NoESLintState) (ws : Workspace)
    (active : option TextDocument) (events : list ShellEvent)
    (defaultClosed : CloseHandlerResult) :
  errorHandler_closed (shellRun events (shellCreate stored ws active)) defaultClosed
  = if existsb isExitCalled events
    then {| action := DoNotRestart; close_message := None |}
    else defaultClosed.
Proof.
  unfold errorHandler_closed.
  assert (Hflag : serverCalledProcessExit (shellRun events (shellCreate stored ws active))
                  = existsb isExitCalled events).
  { induction events as [|e events IH] using rev_ind; [reflexivity|].
    rewrite shellRun_snoc, serverCalledProcessExit_shellHandle, IH, existsb_app. simpl.
    rewrite orb_false_r. apply orb_comm. }
  now rewrite Hflag.
Qed.

Lemma hintsShown_notice n sh :
  hintsShown (notice n sh)
  = (hintsShown sh + match n with MessageNoLibrary _ => 1 | _ => 0 end)%nat.
Proof.
  unfold hintsShown, notice. simpl. rewrite List.filter_app, length_app.
  f_equal. now destruct n.
Qed.

Lemma hintsShown_setNoESLintMessageShown state sh :
  hintsShown (setNoESLintMessageShown state sh) = hintsShown sh.
Proof. reflexivity. Qed.

(** What one install-hint request does: the hint is shown unless it is
    remembered as shown for the key of the document, and it is remembered
    afterwards. *)
Lemma onNoESLintLibrary_hint sourceUri answer sh :
  let sh' := onNoESLintLibrary sourceUri answer sh in
  hintsShown sh' = (hintsShown sh + if hintShown sh (hintKey sh sourceUri) then 0 else 1)%nat
  /\ hintShown sh' (hintKey sh sourceUri) = true
  /\ (forall key, hintShown sh key = true -> hintShown sh' key = true).
Proof.
  unfold onNoESLintLibrary, hintKey, hintShown.
  destruct (getWorkspaceFolder (shellWorkspace sh) (Uri_parse sourceUri)) as [folder|]; simpl.
  - destruct (default false (default ∅ (nes_workspaces _) !! toString (wf_uri folder)))
      eqn:Hshown; simpl.
    + rewrite hintsShown_notice. simpl. split; [lia|]. split; [exact Hshown | now intros].
    + assert (Hcount : forall sh0 : Shell,
                 hintsShown match answer with
                            | Some 1 => notice (OutputChannelShow true) sh0
                            | _ => sh0
                            end = hintsShown sh0).
      { intros sh0. destruct answer as [[|[|n]]|]; try reflexivity.
        rewrite hintsShown_notice. simpl. lia. }
      assert (Hstate : forall sh0 : Shell,
                 noESLintMessageShown match answer with
                                      | Some 1 => notice (OutputChannelShow true) sh0
                                      | _ => sh0
                                      end = noESLintMessageShown sh0).
      { intros sh0. now destruct answer as [[|[|n]]|]. }
      rewrite Hcount, Hstate, !hintsShown_notice, hintsShown_setNoESLintMessageShown,
        hintsShown_notice. simpl. split; [lia|]. split.
      * now rewrite lookup_insert_eq.
      * intros [k|]; simpl; [|now intros].
        rewrite lookup_insert. case_decide; [reflexivity | now intros].
  - destruct (default false (nes_global _)) eqn:Hshown; simpl.
    + rewrite hintsShown_notice. simpl. split; [lia|].
      split; [first [exact Hshown | reflexivity]|].
      intros [k|] Hk; [exact Hk | first [exact Hshown | reflexivity]].
    + assert (Hcount : forall sh0 : Shell,
                 hintsShown match answer with
                            | Some 1 => notice (OutputChannelShow true) sh0
                            | _ => sh0
                            end = hintsShown sh0).
      { intros sh0. destruct answer as [[|[|n]]|]; try reflexivity.
        rewrite hintsShown_notice. simpl. lia. }
      assert (Hstate : forall sh0 : Shell,
                 noESLintMessageShown match answer with
                                      | Some 1 => notice (OutputChannelShow true) sh0
                                      | _ => sh0
                                      end = noESLintMessageShown sh0).
      { intros sh0. now destruct answer as [[|[|n]]|]. }
      rewrite Hcount, Hstate, !hintsShown_notice, hintsShown_setNoESLintMessageShown,
        hintsShown_notice. simpl. split; [lia|]. split; [reflexivity|].
      intros [k|]; simpl; now intros.
Qed.

Lemma hintShown_shellHandle sh e key :
  hintShown sh key = true -> hintShown (shellHandle sh e) key = true.
Proof.
  destruct e as [ws active| |u state|code detail answer|documentUri|sourceUri answer|url
                |newState| |document]; cbn [shellHandle]; try (intros Hk; exact Hk).
  - unfold onExitCalled. now destruct answer as [[|[|n]]|].
  - apply onNoESLintLibrary_hint.
  - now destruct newState.
Qed.

Lemma hintShown_shellRun events sh key :
  hintShown sh key = true -> hintShown (shellRun events sh) key = true.
Proof.
  revert sh. induction events as [|e events IH]; intros sh Hk; [exact Hk|].
  apply IH. now apply hintShown_shellHandle.
Qed.

(** X7. The install hint is shown at most once for a workspace folder (and
    at most once for files outside every folder): a request shows it unless
    it is remembered for the folder of the document, and after a request no
    later request for a document of the same folder shows it again,
    whatever happens in between. *)
Theorem install_hint_shown_once (sh : Shell) (sourceUri : string) (answer : option nat)
    (events : list ShellEvent) (sourceUri' : string) (answer' : option nat) :
  let sh1 := shellHandle sh (NoESLintLibraryRequest sourceUri answer) in
  let sh2 := shellRun events sh1 in
  hintKey sh2 sourceUri' = hintKey sh sourceUri ->
  hintsShown sh1 = (hintsShown sh + if hintShown sh (hintKey sh sourceUri) then 0 else 1)%nat
  /\ hintsShown (shellHandle sh2 (NoESLintLibraryRequest sourceUri' answer')) = hintsShown sh2.
Proof.
  intros sh1 sh2 Hkey.
  destruct (onNoESLintLibrary_hint sourceUri answer sh) as (Hcount & Hshown & _).
  split; [exact Hcount|].
  assert (Hkept : hintShown sh2 (hintKey sh2 sourceUri') = true).
  { rewrite Hkey. now apply hintShown_shellRun. }
  destruct (onNoESLintLibrary_hint sourceUri' answer' sh2) as (Hcount' & _).
  cbn [shellHandle]. rewrite Hcount', Hkept. lia.
Qed.

End ShellFacts.

Section ShellExamples.
Import SamplePlatform.
#[local] Existing Instance platform.

Lemma stopped_server_shows_error_witness :
  let events := [StatusNotification "file:///ws/a.js" Status.ok; DidChangeActiveTextEditor] in
  let item := statusBarItem (shellRun events (shellHandle shell (DidChangeState State.Stopped))) in
  sbi_text item = "$(issue-opened) ESLint" /\ sbi_visible item = true
  /\ sbi_tooltip item = Some "ESLint server stopped.".
Proof.
  apply (stopped_server_shows_error shell
           [StatusNotification "file:///ws/a.js" Status.ok; DidChangeActiveTextEditor]).
  repeat constructor.
Defined.

Lemma status_notification_is_displayed_witness :
  let sh1 := shellHandle shell (StatusNotification "file:///ws/a.js" Status.warn) in
  let sh2 :=
    shellRun [ShellEditorChanged (inFolder ∅) (Some (Sample.javascript "/ws/b.js"));
              DidChangeActiveTextEditor] sh1 in
  documentStatus sh1 !! "file:///ws/a.js" = Some Status.warn
  /\ sbi_text (statusBarItem sh1) = "$(alert) ESLint"
  /\ sbi_text (statusBarItem sh2) = "ESLint".
Proof.
  apply (status_notification_is_displayed shell "file:///ws/a.js" Status.warn
           (inFolder ∅) (Some (Sample.javascript "/ws/b.js"))).
  discriminate.
Defined.

Lemma closed_document_has_no_status_witness :
  let document := Sample.javascript "/ws/a.js" in
  let sh :=
    shellRun [ShellEditorChanged (inFolder ∅) (Some document);
              StatusNotification "file:///ws/a.js" Status.error] shell in
  sbi_text (statusBarItem sh) = "$(issue-opened) ESLint"
  /\ documentStatus (shellHandle sh (DidCloseTextDocument document)) !! "file:///ws/a.js" = None
  /\ sbi_text (statusBarItem (shellHandle sh (DidCloseTextDocument document))) = "ESLint".
Proof.
  split; [reflexivity|].
  destruct (closed_document_has_no_status
              (shellRun [ShellEditorChanged (inFolder ∅) (Some (Sample.javascript "/ws/a.js"));
                         StatusNotification "file:///ws/a.js" Status.error] shell)
              (Sample.javascript "/ws/a.js")) as (Hgone & _ & Htext).
  - discriminate.
  - reflexivity.
  - split; [exact Hgone | exact Htext].
Defined.

Lemma install_hint_shown_once_witness :
  let sh1 := shellHandle shell (NoESLintLibraryRequest "file:///ws/a.js" None) in
  let sh2 := shellRun [DidChangeActiveTextEditor] sh1 in
  hintsShown sh1 = 1%nat
  /\ hintsShown (shellHandle sh2 (NoESLintLibraryRequest "file:///ws/lib/b.js" (Some 1)))
     = hintsShown sh2.
Proof.
  destruct (install_hint_shown_once shell "file:///ws/a.js" None [DidChangeActiveTextEditor]
              "file:///ws/lib/b.js" (Some 1)) as [Hfirst Hlater].
  - reflexivity.
  - split; [exact Hfirst | exact Hlater].
Defined.

End ShellExamples.

(** ** The server options and the code action filter *)

Section ServerOptionsFacts.
Context `{Platform}.

Lemma filter_typeof_Forall type (items : list JValue) :
  Forall (fun item => JS_typeof item = type)
    (List.filter (fun item => JS_typeof item =? type) items).
Proof.
  apply Forall_forall. intros item Hin. apply list_elem_of_In, filter_In in Hin as [_ Hin].
  now apply String.eqb_eq.
Qed.

Lemma filter_idempotent {A} (f : A -> bool) (l : list A) :
  List.filter f (List.filter f l) = List.filter f l.
Proof.
  induction l as [|a l IH]; [reflexivity|]. simpl.
  destruct (f a) eqn:Ha; simpl; [rewrite Ha, IH|]; auto.
Qed.

(** X8. [sanitize] returns the default, or a value of the type asked for, or
    an array all of whose elements have that type; an array is filtered
    element by element and never replaced by the default. *)
Theorem sanitize_result (value : JValue) (type : string) (def : JValue) :
  match value with
  | JArray items =>
      exists kept,
        sanitize value type def = JArray kept
        /\ Forall (fun item => JS_typeof item = type) kept
        /\ sublist kept items
        /\ (forall item, item ∈ items -> JS_typeof item = type -> item ∈ kept)
  | _ =>
      (JS_typeof value = type /\ sanitize value type def = value)
      \/ (JS_typeof value <> type /\ sanitize value type def = def)
  end.
Proof.
  destruct value as [| |b|n|s|items|props];
    try (cbv beta iota delta [sanitize];
         match goal with
         | |- context [JS_typeof ?v =? type] =>
             destruct (String.eqb_spec (JS_typeof v) type) as [Heq|Hne]
         end; [left | right]; (split; [assumption | reflexivity])).
  eexists. split; [reflexivity|]. split; [apply filter_typeof_Forall|]. split.
  - induction items as [|a items IH]; simpl; [constructor|].
    destruct (JS_typeof a =? type); now constructor.
  - intros item Hin Htype. apply list_elem_of_In, filter_In.
    split; [now apply list_elem_of_In | now apply String.eqb_eq].
Qed.

(** X9. Sanitizing twice is sanitizing once, for a default that is not an
    array (the defaults in use are [false] and [undefined]). *)
Theorem sanitize_idempotent (value : JValue) (type : string) (def : JValue) :
  JS.asArray def = None ->
  sanitize (sanitize value type def) type def = sanitize value type def.
Proof.
  intros Hdef.
  assert (Hd : sanitize def type def = def).
  { destruct def; try discriminate; cbv beta iota delta [sanitize];
      now destruct (_ =? type). }
  destruct value as [| |b|n|s|items|props];
    try (cbv beta iota delta [sanitize];
         match goal with
         | |- context [JS_typeof ?v =? type] =>
             destruct (JS_typeof v =? type) eqn:Htype
         end; cbv beta iota delta [negb]; [now rewrite Htype | exact Hd]).
  cbv beta iota delta [sanitize]. now rewrite filter_idempotent.
Qed.

(** X10. [createServerOptions] never fails, whatever the settings hold. The
    [execArgv] of the run options is absent, a string, or an array of
    strings (the string elements of the setting, in order); the debug
    options carry the two inspector flags after it: alone when it is
    absent, appended to the array, or glued to the string as text. *)
Theorem createServerOptions_execArgv (ws : Workspace) (extensionUri : Uri) :
  exists options,
    createServerOptions ws extensionUri = Ok options
    /\ nm_env (so_debug options) = nm_env (so_run options)
    /\ match nm_execArgv (so_run options) with
       | JUndefined =>
           nm_execArgv (so_debug options) = JArray [JString "--nolazy"; JString "--inspect=6011"]
       | JArray items =>
           Forall (fun item => JS_typeof item = "string") items
           /\ nm_execArgv (so_debug options)
              = JArray (items ++ [JString "--nolazy"; JString "--inspect=6011"])
       | JString s =>
           nm_execArgv (so_debug options) = JString (s +:+ "--nolazy,--inspect=6011")
       | _ => False
       end.
Proof.
  unfold createServerOptions.
  set (config := getConfiguration ws "eslint" None).
  destruct (JS_coalesce (WorkspaceConfiguration.getOr config "execArgv" JNull) JUndefined)
    as [| |b|n|s|items|props] eqn:Hexec; simpl;
    try (eexists; split; [reflexivity|]; split; reflexivity).
  eexists. split; [reflexivity|]. split; [reflexivity|]. simpl.
  split; [apply (filter_typeof_Forall "string") | reflexivity].
Qed.

End ServerOptionsFacts.

Section CodeActionFacts.
Context `{SettingsGuards, NodeUtils, MigrationClass, Host, SharedSettings, Platform}.

Lemma filter_empty_existsb {A} (f : A -> bool) (l : list A) :
  (length (List.filter f l) =? 0)%nat = negb (existsb f l).
Proof.
  induction l as [|a l IH]; [reflexivity|]. simpl. now destruct (f a).
Qed.

(** X11. The code action middleware asks the server exactly when the document
    is synced and either the requested kind is one of the four supported
    kinds, or no kind is requested and some diagnostic comes from ESLint.
    The context it passes on keeps the kind and holds the ESLint
    diagnostics only, in their order; a request for a supported kind is
    passed on even without any diagnostic. *)
Theorem provideCodeActions_forwards (c : Client) (document : TextDocument)
    (context : CodeActionContext) :
  provideCodeActions c document context =
  if passesOn c document
     && match only context with
        | Some kind => bool_decide (kind ∈ supportedQuickFixKinds)
        | None => existsb isESLintDiagnostic (diagnostics context)
        end
  then Some {| only := only context;
               diagnostics := List.filter isESLintDiagnostic (diagnostics context);
               triggerKind := triggerKind context |}
  else None.
Proof.
  unfold provideCodeActions, passesOn.
  destruct (bool_decide (is_Some _)); simpl; [|reflexivity].
  destruct (only context) as [kind|]; simpl.
  - now destruct (bool_decide (kind ∈ supportedQuickFixKinds)).
  - rewrite filter_empty_existsb.
    destruct (diagnostics context) as [|d l]; simpl; [reflexivity|].
    now destruct (isESLintDiagnostic d || existsb isESLintDiagnostic l).
Qed.

End CodeActionFacts.

Section ServerOptionsExamples.
Import SamplePlatform.
#[local] Existing Instance platform.

Lemma sanitize_idempotent_witness :
  let value := JArray [JString "--max-old-space-size=4096"; JNumber 1; JNull] in
  sanitize value "string" JUndefined = JArray [JString "--max-old-space-size=4096"]
  /\ sanitize (sanitize value "string" JUndefined) "string" JUndefined
     = sanitize value "string" JUndefined.
Proof.
  split; [reflexivity|].
  apply (sanitize_idempotent
           (JArray [JString "--max-old-space-size=4096"; JNumber 1; JNull])
           "string" JUndefined).
  reflexivity.
Defined.

End ServerOptionsExamples.

(** ** The synced documents and the notifications of a session *)

Section SessionFacts.
Context `{SettingsGuards, NodeUtils, MigrationClass, Host, SharedSettings}.

(** *** What sending through the middleware does to the synced set *)

Lemma lookup_sendDidClose document c k :
  syncedDocuments (sendDidClose document c) !! k =
  if getProvider "textDocument/didClose" document
     && bool_decide (k = toString (uri document))
  then None else syncedDocuments c !! k.
Proof.
  unfold sendDidClose. destruct (getProvider _ _); [|reflexivity].
  unfold didClose. cbn [syncedDocuments emit andb].
  destruct (decide (k = toString (uri document))) as [->|Hk].
  - rewrite (bool_decide_eq_true_2 (_ = _)) by reflexivity.
    destruct (decide (is_Some (syncedDocuments c !! toString (uri document))))
      as [Hsynced|Hsynced].
    + rewrite (bool_decide_eq_true_2 _ Hsynced).
      cbn [syncedDocuments emit setSyncedDocuments]. apply lookup_delete_eq.
    + rewrite (bool_decide_eq_false_2 _ Hsynced). cbn [syncedDocuments emit].
      destruct (syncedDocuments c !! toString (uri document)) eqn:Hlookup; [|reflexivity].
      exfalso. apply Hsynced. now eexists.
  - rewrite (bool_decide_eq_false_2 (k = _)) by exact Hk.
    destruct (bool_decide (is_Some _)); cbn [syncedDocuments emit setSyncedDocuments];
      [|reflexivity].
    apply lookup_delete_ne. congruence.
Qed.

Lemma lookup_sendDidOpen document c k :
  syncedDocuments (sendDidOpen document c) !! k =
  if getProvider "textDocument/didOpen" document && shouldSync c document
     && bool_decide (k = toString (uri document))
  then Some document else syncedDocuments c !! k.
Proof.
  unfold sendDidOpen. destruct (getProvider _ _); [|reflexivity].
  unfold didOpen. change (shouldSync (emit _ c) document) with (shouldSync c document).
  destruct (shouldSync c document); cbn [syncedDocuments emit setSyncedDocuments andb];
    [|reflexivity].
  destruct (decide (k = toString (uri document))) as [->|Hk].
  - rewrite (bool_decide_eq_true_2 (_ = _)) by reflexivity. apply lookup_insert_eq.
  - rewrite (bool_decide_eq_false_2 (k = _)) by exact Hk.
    apply lookup_insert_ne. congruence.
Qed.

Lemma frame_sendDidClose document c :
  validator (sendDidClose document c) = validator c
  /\ workspace (sendDidClose document c) = workspace c.
Proof. destruct (silent_sendDidClose document c) as (Hv & _ & Hw & _). now split. Qed.

Lemma frame_sendDidOpen document c :
  validator (sendDidOpen document c) = validator c
  /\ workspace (sendDidOpen document c) = workspace c.
Proof. destruct (silent_sendDidOpen document c) as (Hv & _ & Hw & _). now split. Qed.

(** *** The loop over the synced documents *)

Section CloseLoop.
Variables (V : Validator.t) (W : Workspace).

#[local] Abbreviation off := (fun d => Validate.eqb (Validator.check V W d) Validate.off).
#[local] Abbreviation closeLoop :=
  (fold_left (fun (c : Client) (entry : string * TextDocument) =>
     if bool_decide (is_Some (syncedDocuments c !! fst entry))
        && Validate.eqb (Validator.check (validator c) (workspace c) (snd entry)) Validate.off
     then sendDidClose (snd entry) c else c)).

Lemma closeLoop_frame l c :
  validator (closeLoop l c) = validator c /\ workspace (closeLoop l c) = workspace c.
Proof.
  revert c. induction l as [|entry l IH]; intros c; simpl; [now split|].
  destruct (IH (if bool_decide (is_Some (syncedDocuments c !! fst entry))
                   && Validate.eqb
                        (Validator.check (validator c) (workspace c) (snd entry))
                        Validate.off
                then sendDidClose (snd entry) c else c)) as [-> ->].
  destruct (_ && _); [apply frame_sendDidClose | now split].
Qed.

(** The loop only takes documents away. *)
Lemma closeLoop_subset l c k x :
  syncedDocuments (closeLoop l c) !! k = Some x -> syncedDocuments c !! k = Some x.
Proof.
  revert c. induction l as [|entry l IH]; intros c; simpl; [trivial|].
  intros Hk. apply IH in Hk. destruct (_ && _); [|exact Hk].
  rewrite lookup_sendDidClose in Hk. now destruct (_ && _).
Qed.

(** A document that is still synced after its turn is not one to close. *)
Lemma closeLoop_closed l c k d x :
  validator c = V -> workspace c = W ->
  (k, d) ∈ l -> k = toString (uri d) ->
  syncedDocuments (closeLoop l c) !! k = Some x ->
  off d = false \/ getProvider "textDocument/didClose" d = false.
Proof.
  revert c. induction l as [|entry l IH]; intros c Hv Hw Hin Hkey Hk.
  - now apply elem_of_nil in Hin.
  - simpl in Hk. apply elem_of_cons in Hin as [<-|Hin].
    + apply closeLoop_subset in Hk. cbn [fst snd] in Hk. rewrite Hv, Hw in Hk.
      destruct (Validate.eqb (Validator.check V W d) Validate.off) eqn:Hoff; [|now left].
      right.
      destruct (bool_decide (is_Some (syncedDocuments c !! k))) eqn:Hlive; simpl in Hk.
      * rewrite lookup_sendDidClose in Hk.
        destruct (getProvider "textDocument/didClose" d); [|reflexivity].
        rewrite bool_decide_eq_true_2 in Hk by exact Hkey. discriminate.
      * apply bool_decide_eq_false in Hlive. exfalso. apply Hlive. rewrite Hk. now eexists.
    + refine (IH _ _ _ Hin Hkey Hk).
      * destruct (_ && _); [now rewrite (proj1 (frame_sendDidClose _ _)) | exact Hv].
      * destruct (_ && _); [now rewrite (proj2 (frame_sendDidClose _ _)) | exact Hw].
Qed.

(** A synced document that is not one to close stays synced. *)
Lemma closeLoop_kept l c k x :
  validator c = V -> workspace c = W ->
  Forall (fun entry => fst entry = toString (uri (snd entry))) l ->
  (forall d, (k, d) ∈ l -> off d = false \/ getProvider "textDocument/didClose" d = false) ->
  syncedDocuments c !! k = Some x ->
  syncedDocuments (closeLoop l c) !! k = Some x.
Proof.
  revert c. induction l as [|[k1 d1] l IH]; intros c Hv Hw Hkeys Hkeep Hk; [exact Hk|].
  apply Forall_cons in Hkeys as [Hkey1 Hkeys]. cbn [fst snd] in Hkey1. simpl.
  apply IH.
  - destruct (_ && _); [now rewrite (proj1 (frame_sendDidClose _ _)) | exact Hv].
  - destruct (_ && _); [now rewrite (proj2 (frame_sendDidClose _ _)) | exact Hw].
  - exact Hkeys.
  - intros d Hin. apply Hkeep. now right.
  - rewrite Hv, Hw.
    destruct (bool_decide (is_Some (syncedDocuments c !! k1))
              && Validate.eqb (Validator.check V W d1) Validate.off) eqn:Hclose;
      [|exact Hk].
    rewrite lookup_sendDidClose.
    destruct (getProvider "textDocument/didClose" d1) eqn:Hprovider; [|exact Hk].
    cbn [andb]. destruct (decide (k = toString (uri d1))) as [Hsame|Hother];
      [|now rewrite (bool_decide_eq_false_2 _ Hother)].
    exfalso. rewrite <- Hkey1 in Hsame.
    apply andb_true_iff in Hclose as [_ Hoff].
    assert (Hin : (k, d1) ∈ (k1, d1) :: l) by (rewrite Hsame; now left).
    destruct (Hkeep d1 Hin) as [Hno|Hno]; congruence.
Qed.

End CloseLoop.

(** *** The loop over the open documents of the editor *)

Section OpenLoop.
Variables (V : Validator.t) (W : Workspace).

#[local] Abbreviation openLoop :=
  (fold_left (fun (c : Client) (textDocument : TextDocument) =>
     if negb (bool_decide (is_Some (syncedDocuments c !! toString (uri textDocument))))
        && negb (Validate.eqb (Validator.check (validator c) (workspace c) textDocument)
                   Validate.off)
     then sendDidOpen textDocument c else c)).

Lemma openLoop_frame l c :
  validator (openLoop l c) = validator c /\ workspace (openLoop l c) = workspace c.
Proof.
  revert c. induction l as [|d l IH]; intros c; simpl; [now split|].
  destruct (IH (if negb (bool_decide (is_Some (syncedDocuments c !! toString (uri d))))
                   && negb (Validate.eqb (Validator.check (validator c) (workspace c) d)
                              Validate.off)
                then sendDidOpen d c else c)) as [-> ->].
  destruct (_ && _); [apply frame_sendDidOpen | now split].
Qed.

(** The loop only adds documents, under keys that are free. *)
Lemma openLoop_kept l c k x :
  syncedDocuments c !! k = Some x -> syncedDocuments (openLoop l c) !! k = Some x.
Proof.
  revert c. induction l as [|d l IH]; intros c Hk; [exact Hk|]. simpl. apply IH.
  destruct (decide (is_Some (syncedDocuments c !! toString (uri d)))) as [Hsynced|Hsynced].
  - now rewrite (bool_decide_eq_true_2 _ Hsynced).
  - rewrite (bool_decide_eq_false_2 _ Hsynced). cbn [negb andb].
    destruct (negb _); [|exact Hk]. rewrite lookup_sendDidOpen.
    destruct (decide (k = toString (uri d))) as [->|Hother].
    + exfalso. apply Hsynced. rewrite Hk. now eexists.
    + rewrite (bool_decide_eq_false_2 _ Hother). now rewrite andb_false_r.
Qed.

(** A document the loop has added is an open document of the editor that
    is not classified [off]. *)
Lemma openLoop_origin l c k x :
  validator c = V -> workspace c = W ->
  syncedDocuments (openLoop l c) !! k = Some x ->
  syncedDocuments c !! k = Some x
  \/ (x ∈ l /\ k = toString (uri x)
      /\ Validate.eqb (Validator.check V W x) Validate.off = false).
Proof.
  revert c. induction l as [|d l IH]; intros c Hv Hw Hk; [now left|]. simpl in Hk.
  apply IH in Hk as [Hk|(Hin & Hkey & Hoff)].
  - rewrite Hv, Hw in Hk.
    destruct (negb (bool_decide (is_Some (syncedDocuments c !! toString (uri d))))
              && negb (Validate.eqb (Validator.check V W d) Validate.off)) eqn:Hopen;
      [|now left].
    rewrite lookup_sendDidOpen in Hk.
    destruct (getProvider "textDocument/didOpen" d && shouldSync c d
              && bool_decide (k = toString (uri d))) eqn:Hadded; [|now left].
    injection Hk as <-. right.
    apply andb_true_iff in Hadded as [_ Hkey%bool_decide_eq_true].
    apply andb_true_iff in Hopen as [_ Hoff%negb_true_iff].
    split; [now left | now split].
  - right. split; [now right | now split].
  - destruct (_ && _); [now rewrite (proj1 (frame_sendDidOpen _ _)) | exact Hv].
  - destruct (_ && _); [now rewrite (proj2 (frame_sendDidOpen _ _)) | exact Hw].
Qed.

(** Every open document that is not classified [off] and has a provider
    is synced after the loop. *)
Lemma openLoop_opened l c d :
  validator c = V -> workspace c = W ->
  d ∈ l ->
  Validate.eqb (Validator.check V W d) Validate.off = false ->
  getProvider "textDocument/didOpen" d = true ->
  is_Some (syncedDocuments (openLoop l c) !! toString (uri d)).
Proof.
  revert c. induction l as [|d1 l IH]; intros c Hv Hw Hin Hoff Hprovider.
  - now apply elem_of_nil in Hin.
  - simpl. apply elem_of_cons in Hin as [<-|Hin].
    + rewrite Hv, Hw, Hoff. cbn [negb]. rewrite andb_true_r.
      destruct (decide (is_Some (syncedDocuments c !! toString (uri d))))
        as [[x Hsynced]|Hsynced].
      * rewrite bool_decide_eq_true_2 by (rewrite Hsynced; now eexists). cbn [negb].
        exists x. now apply openLoop_kept.
      * rewrite (bool_decide_eq_false_2 _ Hsynced). cbn [negb].
        exists d. apply openLoop_kept. rewrite lookup_sendDidOpen, Hprovider.
        unfold shouldSync. rewrite Hv, Hw, Hoff. cbn [negb]. rewrite orb_true_r.
        now rewrite bool_decide_eq_true_2.
    + apply IH; try assumption.
      * destruct (_ && _); [now rewrite (proj1 (frame_sendDidOpen _ _)) | exact Hv].
      * destruct (_ && _); [now rewrite (proj2 (frame_sendDidOpen _ _)) | exact Hw].
Qed.

End OpenLoop.

(** *** One event and the synced set *)

Lemma syncedDocuments_onProbeFailed failed c k x :
  syncedDocuments (onProbeFailed failed c) !! k = Some x -> syncedDocuments c !! k = Some x.
Proof.
  unfold onProbeFailed. cbv zeta.
  set (c0 := setValidator _ c). change (syncedDocuments c) with (syncedDocuments c0).
  generalize (textDocuments (workspace c0)) as l. generalize c0 as cur. clear c0.
  intros cur l. revert cur. induction l as [|d l IH]; intros cur; simpl; [trivial|].
  intros Hk. apply IH in Hk. destruct (_ =? _); [|exact Hk].
  rewrite lookup_sendDidClose in Hk. now destruct (_ && _).
Qed.

Lemma onDidChangeConfiguration_frame c :
  validator (onDidChangeConfiguration c) = Validator.new
  /\ workspace (onDidChangeConfiguration c) = workspace c.
Proof.
  destruct (silent_onDidChangeConfiguration c) as (Hv & _ & Hw & _). now split.
Qed.

(** A document is in the synced set after the settings-change listener only
    if it was there before, or is an open document of the editor. *)
Lemma syncedDocuments_onDidChangeConfiguration c k x :
  syncedDocuments (onDidChangeConfiguration c) !! k = Some x ->
  syncedDocuments c !! k = Some x
  \/ (x ∈ textDocuments (workspace c) /\ k = toString (uri x)).
Proof.
  unfold onDidChangeConfiguration. cbv zeta.
  set (c0 := setValidator (Validator.clear (validator c)) c).
  set (c1 := fold_left _ (map_to_list (syncedDocuments c0)) c0).
  assert (Hw1 : workspace c1 = workspace c)
    by apply (closeLoop_frame (map_to_list (syncedDocuments c0)) c0).
  intros Hk.
  apply (openLoop_origin (validator c1) (workspace c1)) in Hk as [Hk|(Hin & Hkey & _)];
    [| |reflexivity..].
  - left. now apply closeLoop_subset in Hk.
  - right. rewrite Hw1 in Hin. now split.
Qed.

#[local] Instance keepsDocuments_preorder' : PreOrder keepsDocuments.
Proof.
  split; [now intros c | intros a b c [? ?] [? ?]; split; congruence].
Qed.

Lemma keepsDocuments_readConfiguration params : respects keepsDocuments (readConfiguration params).
Proof.
  apply respects_readConfiguration; [apply _|]. intros resource folder.
  apply respects_migrate; try apply _; now intros.
Qed.

Lemma syncedDocuments_syncCells cells c k d :
  syncedDocuments (syncCells cells c) !! k = Some d ->
  (d ∈ cells /\ k = toString (uri d)) \/ syncedDocuments c !! k = Some d.
Proof.
  unfold syncCells. revert c. induction cells as [|cell cells IH]; intros c; simpl.
  - now right.
  - intros Hk. apply IH in Hk as [[Hin ->]|Hk].
    + left. split; [now right | reflexivity].
    + simpl in Hk. destruct (decide (toString (uri cell) = k)) as [<-|Hne].
      * rewrite lookup_insert_eq in Hk. injection Hk as ->. left. split; [now left | reflexivity].
      * rewrite lookup_insert_ne in Hk by exact Hne. now right.
Qed.

Lemma syncedDocuments_unsyncCells cells c k d :
  syncedDocuments (unsyncCells cells c) !! k = Some d -> syncedDocuments c !! k = Some d.
Proof.
  unfold unsyncCells. revert c. induction cells as [|cell cells IH]; intros c; simpl.
  - trivial.
  - intros Hk. apply IH in Hk. simpl in Hk.
    destruct (decide (toString (uri cell) = k)) as [<-|Hne].
    + now rewrite lookup_delete_eq in Hk.
    + now rewrite lookup_delete_ne in Hk by exact Hne.
Qed.

(** A document is in the synced set after an event only if the event
    opened it, or it is an open document of the editor and the event is a
    settings change, in both cases under its own URI, or it was there
    before. *)
Lemma syncedDocuments_handle c e k d :
  syncedDocuments (handle c e) !! k = Some d ->
  (d ∈ opens e /\ k = toString (uri d))
  \/ (isSettingsChange e = true /\ d ∈ textDocuments (workspace c) /\ k = toString (uri d))
  \/ syncedDocuments c !! k = Some d.
Proof.
  destruct e as [ws| |u| |document|document|cells|opened closed|cells|params]; simpl.
  - now right; right.
  - intros Hk. apply syncedDocuments_onDidChangeConfiguration in Hk as [Hk|[Hin Hkey]];
      [now right; right | right; left; now repeat split].
  - intros Hk. right. right. now apply syncedDocuments_onProbeFailed in Hk.
  - now right; right.
  - unfold didOpen. destruct (shouldSync c document); [|now right; right]. simpl.
    destruct (decide (toString (uri document) = k)) as [<-|Hne].
    + rewrite lookup_insert_eq. intros [= ->]. left. split; [now left | reflexivity].
    + rewrite lookup_insert_ne by exact Hne. now right; right.
  - unfold didClose. destruct (bool_decide _); [|now right; right]. simpl.
    destruct (decide (toString (uri document) = k)) as [<-|Hne].
    + now rewrite lookup_delete_eq.
    + rewrite lookup_delete_ne by exact Hne. now right; right.
  - unfold notebooksDidOpen. intros Hk.
    apply syncedDocuments_syncCells in Hk as [Hk|Hk]; [now left | now right; right].
  - unfold notebooksDidChange. cbv zeta. simpl. intros Hk.
    destruct closed as [closed|]; [apply syncedDocuments_unsyncCells in Hk|];
      (destruct opened as [opened|];
       [apply syncedDocuments_syncCells in Hk as [Hk|Hk]; [now left | now right; right]
       | now right; right]).
  - unfold notebooksDidClose. simpl. intros Hk. right. right.
    now apply syncedDocuments_unsyncCells in Hk.
  - destruct (keepsDocuments_readConfiguration params c) as [_ ->]. now right; right.
Qed.

Lemma runEvents_snoc events e c : runEvents (events ++ [e]) c = handle (runEvents events c) e.
Proof. unfold runEvents. now rewrite fold_left_app. Qed.

Lemma syncedDocuments_runEvents events c k d :
  syncedDocuments (runEvents events c) !! k = Some d ->
  (k = toString (uri d)
   /\ ((exists e, e ∈ events /\ d ∈ opens e)
       \/ exists before after,
            events = (before ++ DidChangeConfiguration :: after)%list
            /\ d ∈ textDocuments (workspace (runEvents before c))))
  \/ syncedDocuments c !! k = Some d.
Proof.
  induction events as [|e events IH] using rev_ind; [now right|].
  rewrite runEvents_snoc. intros Hk.
  apply syncedDocuments_handle in Hk as [[Hopen ->]|[(Hchange & Hin & ->)|Hk]].
  - left. split; [reflexivity|]. left. exists e. split; [|exact Hopen].
    apply elem_of_app. right. constructor.
  - left. split; [reflexivity|]. right. exists events, [].
    destruct e; try discriminate. now split.
  - apply IH in Hk as [[Hkey [(e' & Hin & Hopen)|(before & after & -> & Hin)]]|Hk];
      [left; split; [exact Hkey|].. | now right].
    + left. exists e'. split; [|exact Hopen]. apply elem_of_app. now left.
    + right. exists before, (after ++ [e])%list. split; [|exact Hin].
      now rewrite <- app_assoc.
Qed.

Lemma syncedDocuments_keys v ws events k d :
  syncedDocuments (runEvents events (create v ws)) !! k = Some d -> k = toString (uri d).
Proof.
  intros Hk. apply syncedDocuments_runEvents in Hk as [[Hkey _]|Hk]; [exact Hkey|].
  simpl in Hk. now rewrite lookup_empty in Hk.
Qed.

(** X12. In every state of a session, a synced document is stored under the
    text of its own URI, and it went through the open middleware of this
    file: an event of the session handed it over (an open notification, an
    opened notebook cell), or it was an open document of the editor when a
    settings change made the listener send it. No request and no other
    listener puts a document there. *)
Theorem synced_documents_were_opened (v : Validator.t) (ws : Workspace)
    (events : list Event) (key : string) (document : TextDocument) :
  syncedDocuments (runEvents events (create v ws)) !! key = Some document ->
  key = toString (uri document)
  /\ ((exists e, e ∈ events /\ document ∈ opens e)
      \/ exists before after,
           events = (before ++ DidChangeConfiguration :: after)%list
           /\ document ∈ textDocuments (workspace (runEvents before (create v ws)))).
Proof.
  intros Hk. apply syncedDocuments_runEvents in Hk as [Hk|Hk]; [exact Hk|].
  simpl in Hk. now rewrite lookup_empty in Hk.
Qed.

(** *** A settings change when nothing is left to do *)

Lemma closeLoop_idle l c :
  Forall (fun entry : string * TextDocument =>
            Validate.eqb (Validator.check (validator c) (workspace c) (snd entry))
              Validate.off = false
            \/ getProvider "textDocument/didClose" (snd entry) = false) l ->
  fold_left (fun (c : Client) (entry : string * TextDocument) =>
     if bool_decide (is_Some (syncedDocuments c !! fst entry))
        && Validate.eqb (Validator.check (validator c) (workspace c) (snd entry)) Validate.off
     then sendDidClose (snd entry) c else c) l c = c.
Proof.
  induction l as [|entry l IH]; intros Hl; [reflexivity|].
  apply Forall_cons in Hl as [Hentry Hl]. simpl.
  assert (Hsame : (if bool_decide (is_Some (syncedDocuments c !! fst entry))
                      && Validate.eqb
                           (Validator.check (validator c) (workspace c) (snd entry))
                           Validate.off
                   then sendDidClose (snd entry) c else c) = c).
  { destruct Hentry as [Hoff|Hprovider].
    - now rewrite Hoff, andb_false_r.
    - unfold sendDidClose. rewrite Hprovider. now destruct (_ && _). }
  rewrite Hsame. now apply IH.
Qed.

Lemma openLoop_idle l c :
  Forall (fun d : TextDocument =>
            is_Some (syncedDocuments c !! toString (uri d))
            \/ Validate.eqb (Validator.check (validator c) (workspace c) d) Validate.off = true
            \/ getProvider "textDocument/didOpen" d = false) l ->
  fold_left (fun (c : Client) (textDocument : TextDocument) =>
     if negb (bool_decide (is_Some (syncedDocuments c !! toString (uri textDocument))))
        && negb (Validate.eqb (Validator.check (validator c) (workspace c) textDocument)
                   Validate.off)
     then sendDidOpen textDocument c else c) l c = c.
Proof.
  induction l as [|d l IH]; intros Hl; [reflexivity|].
  apply Forall_cons in Hl as [Hd Hl]. simpl.
  assert (Hsame : (if negb (bool_decide (is_Some (syncedDocuments c !! toString (uri d))))
                      && negb (Validate.eqb (Validator.check (validator c) (workspace c) d)
                                 Validate.off)
                   then sendDidOpen d c else c) = c).
  { destruct Hd as [Hsynced|[Hoff|Hprovider]].
    - now rewrite (bool_decide_eq_true_2 _ Hsynced).
    - now rewrite Hoff, andb_false_r.
    - unfold sendDidOpen. rewrite Hprovider. now destruct (_ && _). }
  rewrite Hsame. now apply IH.
Qed.

(** What the listener leaves behind, for a synced set whose documents are
    stored under their own URI. *)
Lemma onDidChangeConfiguration_reconciles c :
  (forall k d, syncedDocuments c !! k = Some d -> k = toString (uri d)) ->
  let c' := onDidChangeConfiguration c in
  let off d := Validate.eqb (Validator.check Validator.new (workspace c) d) Validate.off in
  (forall k d, syncedDocuments c !! k = Some d ->
     off d = false \/ getProvider "textDocument/didClose" d = false ->
     syncedDocuments c' !! k = Some d)
  /\ (forall k d, syncedDocuments c' !! k = Some d ->
        off d = false \/ getProvider "textDocument/didClose" d = false)
  /\ (forall d, d ∈ textDocuments (workspace c) -> off d = false ->
        getProvider "textDocument/didOpen" d = true ->
        is_Some (syncedDocuments c' !! toString (uri d))).
Proof.
  intros Hkeys c' off. subst c'. unfold onDidChangeConfiguration. cbv zeta.
  set (c0 := setValidator (Validator.clear (validator c)) c).
  set (c1 := fold_left _ (map_to_list (syncedDocuments c0)) c0).
  destruct (closeLoop_frame (map_to_list (syncedDocuments c0)) c0) as [Hv1 Hw1].
  fold c1 in Hv1, Hw1.
  change (validator c0) with Validator.new in Hv1.
  change (workspace c0) with (workspace c) in Hw1.
  split; [|split].
  - intros k d Hk Hkeep. apply openLoop_kept.
    apply (closeLoop_kept Validator.new (workspace c)); try reflexivity.
    + apply Forall_forall. intros [k' d'] Hin. apply elem_of_map_to_list in Hin.
      exact (Hkeys _ _ Hin).
    + intros d' Hin. apply elem_of_map_to_list in Hin.
      change (syncedDocuments c0) with (syncedDocuments c) in Hin.
      assert (d' = d) as -> by congruence. exact Hkeep.
    + exact Hk.
  - intros k d Hk.
    apply (openLoop_origin Validator.new (workspace c)) in Hk as [Hk|(_ & _ & Hoff)];
      [|now left|exact Hv1|exact Hw1].
    pose proof (closeLoop_subset _ _ _ _ Hk) as Hbefore.
    apply (closeLoop_closed Validator.new (workspace c)
             (map_to_list (syncedDocuments c0)) c0 k d d); try reflexivity.
    + now apply elem_of_map_to_list.
    + exact (Hkeys _ _ Hbefore).
    + exact Hk.
  - intros d Hin Hoff Hprovider. rewrite Hw1.
    now apply (openLoop_opened Validator.new (workspace c)).
Qed.

(** X13. A settings change reconciles the synced set with the settings, in
    any state of a session; [off] is the classification by the emptied
    validator. A synced document that is not [off] stays synced; every
    document synced afterwards is not [off], unless the language client has
    no close provider for it; every open document of the editor that is not
    [off] is synced afterwards, unless the language client has no open
    provider for it. A second settings change right after the first finds
    nothing to do: it leaves the synced set as it is and sends nothing. *)
Theorem settings_change_reconciles (v : Validator.t) (ws : Workspace) (events : list Event) :
  let c := runEvents events (create v ws) in
  let c' := handle c DidChangeConfiguration in
  let c'' := handle c' DidChangeConfiguration in
  let off d := Validate.eqb (Validator.check Validator.new (workspace c) d) Validate.off in
  (forall k d, syncedDocuments c !! k = Some d -> off d = false ->
     syncedDocuments c' !! k = Some d)
  /\ (forall k d, syncedDocuments c' !! k = Some d ->
        off d = false \/ getProvider "textDocument/didClose" d = false)
  /\ (forall d, d ∈ textDocuments (workspace c) -> off d = false ->
        getProvider "textDocument/didOpen" d = true ->
        is_Some (syncedDocuments c' !! toString (uri d)))
  /\ syncedDocuments c'' = syncedDocuments c' /\ effects c'' = effects c'.
Proof.
  intros c c' c'' off.
  destruct (onDidChangeConfiguration_reconciles c (syncedDocuments_keys v ws events))
    as (Hkept & Hclosed & Hopened).
  fold off in Hkept, Hclosed, Hopened. change (onDidChangeConfiguration c) with c' in *.
  split; [intros k d Hk Hoff; apply Hkept; [exact Hk | now left]|].
  split; [exact Hclosed|]. split; [exact Hopened|].
  destruct (onDidChangeConfiguration_frame c) as [Hv Hw]. change (onDidChangeConfiguration c) with c' in *.
  assert (Hidle : c'' = setValidator (Validator.clear (validator c')) c').
  { subst c''. change (handle c' DidChangeConfiguration) with (onDidChangeConfiguration c').
    unfold onDidChangeConfiguration. cbv zeta.
    set (c0 := setValidator (Validator.clear (validator c')) c').
    rewrite (closeLoop_idle (map_to_list (syncedDocuments c0)) c0).
    - apply openLoop_idle. apply Forall_forall. intros d Hin.
      change (workspace c0) with (workspace c') in *. rewrite Hw in *.
      change (validator c0) with Validator.new.
      change (syncedDocuments c0) with (syncedDocuments c').
      destruct (off d) eqn:Hoff; [right; now left|].
      destruct (getProvider "textDocument/didOpen" d) eqn:Hprovider; [|right; now right].
      left. now apply Hopened.
    - apply Forall_forall. intros [k d] Hin. apply elem_of_map_to_list in Hin.
      change (workspace c0) with (workspace c'). rewrite Hw.
      change (validator c0) with Validator.new. cbn [snd].
      exact (Hclosed k d Hin). }
  rewrite Hidle. now split.
Qed.

(** *** The migration record and what a request sends *)

Lemma migration_syncCells cells c : migration (syncCells cells c) = migration c.
Proof.
  unfold syncCells. revert c. induction cells as [|cell cells IH]; intros c; simpl;
    [reflexivity | now rewrite IH].
Qed.

Lemma migration_unsyncCells cells c : migration (unsyncCells cells c) = migration c.
Proof.
  unfold unsyncCells. revert c. induction cells as [|cell cells IH]; intros c; simpl;
    [reflexivity | now rewrite IH].
Qed.

#[local] Instance keepsMigration_preorder :
  PreOrder (fun a b : Client => migration b = migration a).
Proof. split; [now intros a | intros a b c; congruence]. Qed.

Lemma migration_didClose document c : migration (didClose document c) = migration c.
Proof. unfold didClose. now destruct (bool_decide _). Qed.

Lemma migration_didOpen document c : migration (didOpen document c) = migration c.
Proof. unfold didOpen. now destruct (shouldSync c document). Qed.

Lemma migration_sendDidClose document c : migration (sendDidClose document c) = migration c.
Proof.
  unfold sendDidClose. destruct (getProvider _ _); [|reflexivity].
  now rewrite migration_didClose.
Qed.

Lemma migration_sendDidOpen document c : migration (sendDidOpen document c) = migration c.
Proof.
  unfold sendDidOpen. destruct (getProvider _ _); [|reflexivity].
  now rewrite migration_didOpen.
Qed.

Lemma migration_onDidChangeConfiguration c :
  migration (onDidChangeConfiguration c) = migration c.
Proof.
  unfold onDidChangeConfiguration. cbv zeta.
  etransitivity;
    [apply (fold_left_related (fun a b : Client => migration b = migration a))|].
  - intros c' d. destruct (_ && _); [apply migration_sendDidOpen | reflexivity].
  - etransitivity;
      [apply (fold_left_related (fun a b : Client => migration b = migration a))|reflexivity].
    intros c' entry. destruct (_ && _); [apply migration_sendDidClose | reflexivity].
Qed.

Lemma migration_onProbeFailed failed c : migration (onProbeFailed failed c) = migration c.
Proof.
  unfold onProbeFailed. cbv zeta.
  etransitivity;
    [apply (fold_left_related (fun a b : Client => migration b = migration a))|reflexivity].
  intros c' d. destruct (_ =? _); [apply migration_sendDidClose | reflexivity].
Qed.

#[local] Instance migration_unset_preorder :
  PreOrder (fun a b : Client => migration a = None -> migration b = None).
Proof. split; [now intros a | intros a b c; auto]. Qed.

Lemma migration_unset_migrate resource folder :
  respects (fun a b : Client => migration a = None -> migration b = None)
    (migrate resource folder).
Proof.
  intros c. unfold migrate, tryFinally, bind, gets, modify, ret. simpl.
  destruct (negb (notNow c) && _); simpl; [|trivial].
  intros _.
  match goal with |- context [let (r, c') := ?body in _] => destruct body end.
  reflexivity.
Qed.

Lemma migration_unset_handle c e : migration c = None -> migration (handle c e) = None.
Proof.
  intros Hstart.
  destruct e as [ws| |u| |document|document|cells|opened closed|cells|params]; simpl.
  - exact Hstart.
  - now rewrite migration_onDidChangeConfiguration.
  - now rewrite migration_onProbeFailed.
  - exact Hstart.
  - now rewrite migration_didOpen.
  - now rewrite migration_didClose.
  - unfold notebooksDidOpen. now rewrite migration_syncCells.
  - unfold notebooksDidChange. cbv zeta. simpl.
    destruct closed as [closed|], opened as [opened|];
      rewrite ?migration_unsyncCells, ?migration_syncCells; exact Hstart.
  - unfold notebooksDidClose. simpl. now rewrite migration_unsyncCells.
  - apply (respects_readConfiguration _ params migration_unset_migrate c Hstart).
Qed.

(** X14. The transient migration record never outlives the request that made
    it: after any events handled to their end, also a configuration request
    that threw, [migration] is unset again, so a settings notification that
    arrives then is passed on directly and not captured. *)
Theorem migration_record_is_transient `{Platform} (v : Validator.t) (ws : Workspace)
    (events : list Event) (sections : option (list string)) :
  let c := runEvents events (create v ws) in
  migration c = None /\ didChangeConfiguration c sections = Forwarded.
Proof.
  intros c.
  assert (Hnone : migration c = None).
  { subst c. unfold runEvents.
    assert (Hgen : forall c0, migration c0 = None ->
                              migration (fold_left handle events c0) = None).
    { induction events as [|e events IH]; intros c0 Hstart; simpl; [exact Hstart|].
      apply IH. now apply migration_unset_handle. }
    now apply Hgen. }
  split; [exact Hnone|]. unfold didChangeConfiguration. now rewrite Hnone.
Qed.

(** What [migrate] does to the outside: it may show the prompt, open the
    readme and report a failed migration. *)
Lemma migrate_sends_no_notification resource folder c :
  exists added,
    effects (snd (migrate resource folder c)) = (effects c ++ added)%list
    /\ Forall (fun e => isNotification e = false) added.
Proof.
  unfold migrate, tryFinally, bind, gets, modify, ret. simpl.
  destruct (negb (notNow c) && _); simpl;
    [|exists []; split; [now rewrite app_nil_r | constructor]].
  destruct (Migration_needsUpdate _); simpl;
    [|exists []; split; [now rewrite app_nil_r | constructor]].
  unfold onSelected, bind, gets, modify, liftResult, ret.
  destruct (selectedAt _) as [[]|]; simpl;
    try (eexists [_]; split; [reflexivity | now repeat constructor]).
  - destruct (Migration_update _ _) as [ws' [message|]]; simpl.
    + eexists [_; _]. split; [now rewrite <- app_assoc | now repeat constructor].
    + eexists [_]. split; [reflexivity | now repeat constructor].
  - eexists [_; _]. split; [now rewrite <- app_assoc | now repeat constructor].
  - destruct (config_update _ _ _) as [ws' [message|]]; simpl;
      (eexists [_]; split; [reflexivity | now repeat constructor]).
Qed.

#[local] Instance quiet_preorder :
  PreOrder (fun c c' : Client =>
              exists added,
                effects c' = (effects c ++ added)%list
                /\ Forall (fun e => isNotification e = false) added).
Proof.
  split.
  - intros c. exists []. split; [now rewrite app_nil_r | constructor].
  - intros a b c (l1 & H1' & Hl1) (l2 & H2' & Hl2). exists (l1 ++ l2)%list.
    split; [now rewrite H2', H1', app_assoc | now apply Forall_app].
Qed.

(** X15. A configuration request leaves the probe-failed set and the synced
    documents as they are, and sends or passes on no notification: all it
    adds to what the client has done is the migration prompt, the readme
    being opened and the report of a failed migration. This holds for a
    request that throws as well. *)
Theorem configuration_request_sends_nothing (c : Client) (params : ConfigurationParams) :
  let c' := handle c (ConfigurationRequest params) in
  validator c' = validator c
  /\ syncedDocuments c' = syncedDocuments c
  /\ exists added,
       effects c' = (effects c ++ added)%list
       /\ Forall (fun e => isNotification e = false) added.
Proof.
  intros c'. subst c'. simpl.
  destruct (keepsDocuments_readConfiguration params c) as [Hv Hs].
  split; [exact Hv|]. split; [exact Hs|].
  apply (respects_readConfiguration
           (fun c c' : Client =>
              exists added,
                effects c' = (effects c ++ added)%list
                /\ Forall (fun e => isNotification e = false) added) params).
  intros resource folder c0. apply migrate_sends_no_notification.
Qed.

(** X16. Once the close notification of a document has gone through the
    middleware, nothing about that document is passed on to the server:
    changes, saves and code action requests are answered by the client
    itself, until an event opens a document with that URI again or a
    settings change makes the listener look at the open documents. *)
Theorem closed_document_is_not_forwarded `{Platform} (c : Client) (document : TextDocument)
    (events : list Event) (context : CodeActionContext) :
  let c' := runEvents events (handle c (DidClose document)) in
  Forall (fun e => isSettingsChange e = false
                   /\ Forall (fun opened => toString (uri opened) <> toString (uri document))
                        (opens e)) events ->
  passesOn c' document = false /\ provideCodeActions c' document context = None.
Proof.
  intros c' Hevents. rewrite Forall_forall in Hevents.
  assert (Hgone : syncedDocuments c' !! toString (uri document) = None).
  { destruct (syncedDocuments c' !! toString (uri document)) as [d|] eqn:Hk; [|reflexivity].
    exfalso.
    apply syncedDocuments_runEvents
      in Hk as [[Hkey [(e & Hin & Hopen)|(before & after & Hsplit & _)]]|Hk].
    - destruct (Hevents e Hin) as [_ Hopens]. rewrite Forall_forall in Hopens.
      apply (Hopens d Hopen). now symmetry.
    - assert (Hin : DidChangeConfiguration ∈ events).
      { rewrite Hsplit. apply elem_of_app. right. now left. }
      now destruct (Hevents _ Hin) as [[=] _].
    - simpl in Hk. unfold didClose in Hk.
      destruct (decide (is_Some (syncedDocuments c !! toString (uri document))))
        as [Hsynced|Hsynced].
      + rewrite (bool_decide_eq_true_2 _ Hsynced) in Hk. simpl in Hk.
        now rewrite lookup_delete_eq in Hk.
      + rewrite (bool_decide_eq_false_2 _ Hsynced) in Hk.
        apply Hsynced. rewrite Hk. now eexists. }
  assert (Hpass : bool_decide (is_Some (syncedDocuments c' !! toString (uri document))) = false).
  { apply bool_decide_eq_false. rewrite Hgone. now intros [? [=]]. }
  split; [exact Hpass|]. unfold provideCodeActions. now rewrite Hpass.
Qed.

End SessionFacts.

(** ** A recorded probe failure and the other documents *)

Section ProbeFailureFacts.
Context `{SettingsGuards}.

(** X17. Recording a failed probe changes the answer of [check] for the
    documents with that URI only, and there it only turns [probe] into
    [off]: a document that is validated because of the [validate] list
    stays [on], and every other document is classified as before. *)
Theorem probe_failure_only_lowers_probe (this : Validator.t) (failed : Uri)
    (ws : Workspace) (document : TextDocument) :
  Validator.check (Validator.add this failed) ws document =
  if bool_decide (toString (uri document) = toString failed) then
    match Validator.check this ws document with
    | Validate.probe => Validate.off
    | answer => answer
    end
  else Validator.check this ws document.
Proof.
  rewrite !check_classify. unfold classify, Validator.add. simpl.
  destruct (negb _); [now destruct (bool_decide _)|].
  destruct (existsb (namesLanguage _) _); [now destruct (bool_decide _)|].
  destruct (decide (toString (uri document) = toString failed)) as [Heq|Hne].
  - rewrite (bool_decide_eq_true_2 _ Heq).
    rewrite bool_decide_eq_true_2 by set_solver.
    destruct (bool_decide (_ ∈ _)); [reflexivity|]. now destruct (existsb _ _).
  - rewrite (bool_decide_eq_false_2 _ Hne).
    destruct (decide (toString (uri document) ∈ Validator.probeFailed this)) as [Hin|Hout].
    + rewrite !bool_decide_eq_true_2 by set_solver. reflexivity.
    + assert (Hunion : toString (uri document)
                       ∉ ({[toString failed]} ∪ Validator.probeFailed this : gset string)).
      { intros [Hs%elem_of_singleton|Hp]%elem_of_union; contradiction. }
      now rewrite (bool_decide_eq_false_2 _ Hunion), (bool_decide_eq_false_2 _ Hout).
Qed.

End ProbeFailureFacts.

(** ** The settings of a resolved item, field by field *)

Section SettingsFacts.
Context `{SettingsGuards, NodeUtils, MigrationClass, Host, SharedSettings}.

(** [completeSettings] neither throws nor changes the state; it assigns
    five fields. *)
Lemma completeSettings_fields config folder document settings c :
  exists settings',
    completeSettings config folder document settings c = (Ok settings', c)
    /\ validate settings' =
       (if resourceEnabled config
        then Validator.check (validator c) (workspace c) document
        else validate settings)
    /\ (format settings', codeActionOnSave settings') =
       (if Validate.eqb (validate settings') Validate.off
        then (format settings, codeActionOnSave settings)
        else (JS.truthy (WorkspaceConfiguration.getOr config "format.enable" (JBool false)),
              {| caos_mode :=
                   CodeActionsOnSaveMode_from
                     (WorkspaceConfiguration.getOr config "codeActionsOnSave.mode"
                        CodeActionsOnSaveMode_all);
                 caos_rules :=
                   CodeActionsOnSaveRules_from
                     (WorkspaceConfiguration.getOr config "codeActionsOnSave.rules" JNull) |}))
    /\ workspaceFolder settings' =
       match folder with
       | Some f => Some {| wfs_name := wf_name f; wfs_uri := code2Protocol_asUri (wf_uri f) |}
       | None => workspaceFolder settings
       end
    /\ workingDirectory settings' =
       match JS.asArray (WorkspaceConfiguration.getOr config "workingDirectories" JUndefined) with
       | Some entries => selectWorkingDirectory document folder entries
       | None => workingDirectory settings
       end.
Proof.
  unfold completeSettings, resourceEnabled, bind, gets, ret.
  destruct (JS.truthy (WorkspaceConfiguration.getOr config "enabled" (JBool true))); simpl.
  - eexists. split; [reflexivity|].
    destruct (Validate.eqb (Validator.check _ _ _) Validate.off) eqn:Hoff, folder,
      (JS.asArray _); simpl; rewrite ?Hoff; repeat split.
  - eexists. split; [reflexivity|].
    destruct (Validate.eqb (validate settings) Validate.off) eqn:Hoff, folder,
      (JS.asArray _); simpl; rewrite ?Hoff; repeat split.
Qed.

(** The settings of an item come from the initial object, completed when
    the scope URI is the key of a synced document. *)
Lemma readItem_settings c item settings :
  fst (readItem item c) = Ok (Some settings) ->
  exists rules,
    getRuleCustomizations (itemConfig c item) (resourceOf item) = Ok rules
    /\ match syncedDocuments c !! default "" (scopeUri item) with
       | None => settings = initialSettings (itemConfig c item) rules
       | Some document =>
           completeSettings (itemConfig c item) (itemFolder c item) document
             (initialSettings (itemConfig c item) rules) (afterMigration c item)
           = (Ok settings, afterMigration c item)
       end.
Proof.
  unfold readItem. fold (notPerResource item).
  destruct (notPerResource item); [discriminate|].
  unfold migrationSemaphore_lock, bind, gets, liftResult, ret. cbv beta.
  fold (resourceOf item). fold (itemFolder c item). fold (itemConfig c item).
  assert (Hs : syncedDocuments (afterMigration c item) = syncedDocuments c).
  { apply (keepsDocuments_migrate (resourceOf item) (itemFolder c item) c). }
  unfold afterMigration in *.
  destruct (migrate (resourceOf item) (itemFolder c item) c) as [[[]|message] c'];
    simpl in Hs; [|discriminate]. simpl.
  destruct (getRuleCustomizations _ _) as [rules|message]; [|discriminate].
  rewrite Hs.
  destruct (syncedDocuments c !! default "" (scopeUri item)) as [document|].
  - destruct (completeSettings_fields (itemConfig c item) (itemFolder c item) document
                (initialSettings (itemConfig c item) rules) c') as (settings' & Hrun & _).
    rewrite Hrun. simpl. intros [= <-]. now exists rules.
  - simpl. intros [= <-]. now exists rules.
Qed.

(** X19. Formatting and the code-actions-on-save settings are read only for
    a document that is validated: in every answer whose [validate] is [off],
    [format] is false and [codeActionOnSave] is the default (mode [all], no
    rules), whatever [format.enable] and [codeActionsOnSave] are set to. *)
Theorem format_needs_validation (c : Client) (item : ConfigurationItem)
    (settings : ConfigurationSettings) :
  fst (readItem item c) = Ok (Some settings) ->
  validate settings = Validate.off ->
  format settings = false
  /\ codeActionOnSave settings
     = {| caos_mode := CodeActionsOnSaveMode_all; caos_rules := JUndefined |}.
Proof.
  intros Hrun Hoff. destruct (readItem_settings c item settings Hrun) as (rules & _ & Hs).
  destruct (syncedDocuments c !! default "" (scopeUri item)) as [document|].
  - destruct (completeSettings_fields (itemConfig c item) (itemFolder c item) document
                (initialSettings (itemConfig c item) rules) (afterMigration c item))
      as (settings' & Hrun' & _ & Hformat & _).
    rewrite Hs in Hrun'. injection Hrun' as <-.
    rewrite Hoff in Hformat. simpl in Hformat. now injection Hformat as -> ->.
  - now subst settings.
Qed.


End SettingsFacts.

(** ** Where a selected working directory comes from *)

Section WorkingDirectoryFacts.
Context `{SettingsGuards, NodeUtils}.

Lemma append_empty s : s +:+ "" = s.
Proof.
  induction s as [|a s IH]; [reflexivity|].
  change (String a (s +:+ "") = String a s). now rewrite IH.
Qed.

Lemma last_character s c :
  String.get (String.length s - 1) s = Some c -> exists front, s = front +:+ String c "".
Proof.
  induction s as [|a s IH]; simpl; [discriminate|].
  rewrite Nat.sub_0_r. destruct s as [|b s].
  - simpl. intros [= ->]. now exists "".
  - simpl in *. rewrite Nat.sub_0_r in IH. intros Hget.
    destruct (IH Hget) as [front Hfront]. exists (String a front).
    change (String a (String b s) = String a (front +:+ String c "")). now rewrite <- Hfront.
Qed.

Lemma terminate_endsWith sep s : endsWith (terminate sep s) sep.
Proof.
  unfold terminate, endsWith.
  destruct (JS.charAt s (Z.of_nat (String.length s) - 1) =? sep) eqn:Hlast; simpl;
    [|now exists s].
  apply String.eqb_eq in Hlast. unfold JS.charAt in Hlast.
  destruct (Z.of_nat (String.length s) - 1 <? 0)%Z eqn:Hneg.
  - subst sep. exists s. now rewrite append_empty.
  - replace (Z.to_nat (Z.of_nat (String.length s) - 1)) with (String.length s - 1)%nat
      in Hlast by lia.
    destruct (String.get (String.length s - 1) s) as [c|] eqn:Hget.
    + subst sep. now apply last_character.
    + subst sep. exists s. now rewrite append_empty.
Qed.

(** X21. The match value of a [Directory] rule (a plain string, a
    [{directory}] object or its legacy form) is a directory prefix of the
    file's path: the path starts with it and it ends with the platform's
    separator, so a rule for [/a/b] does not match a file under [/a/bc]. *)
Theorem directory_match_is_terminated_prefix (filePath : string)
    (workspaceFolderPath : option string) (dir : string) (pat : option string)
    (value : string) :
  itemValue (Some filePath) workspaceFolderPath (Some dir) pat = Some value ->
  JS.startsWith filePath value = true /\ endsWith value path_sep.
Proof.
  unfold itemValue.
  set (resolved := terminate path_sep _).
  destruct (JS.startsWith filePath resolved) eqn:Hstarts; [|discriminate].
  intros [= <-]. split; [exact Hstarts | apply terminate_endsWith].
Qed.

Lemma matchOf_without_path workspaceFolderPath entry :
  matchOf None workspaceFolderPath entry = None.
Proof.
  unfold matchOf, itemValue. destruct (readEntry entry) as [item|[dir|] [pat|] noCWD];
    reflexivity.
Qed.

(** Whatever the loop holds comes from one of the rules it has seen. *)
Lemma fold_origin filePath workspaceFolderPath entries :
  match fold_left (workingDirectoryStep filePath workspaceFolderPath) entries None with
  | None =>
      Forall (fun e => isModeRule e = false
                       /\ matchOf filePath workspaceFolderPath e = None) entries
  | Some (WDMode item) => exists e, e ∈ entries /\ readEntry e = ModeEntry item
  | Some (WDDirectory item) =>
      exists e noCWD,
        e ∈ entries
        /\ matchOf filePath workspaceFolderPath e = Some (directory item, noCWD)
        /\ notCwd item = Some noCWD
  end.
Proof.
  induction entries as [|entry entries IH] using rev_ind; [constructor|].
  rewrite fold_left_app. simpl.
  set (current := fold_left _ entries None) in *.
  destruct (isModeRule entry) eqn:Hmode.
  - unfold isModeRule in Hmode.
    destruct (readEntry entry) as [item|] eqn:Hentry; [|discriminate].
    rewrite (step_mode _ _ _ _ _ Hentry). exists entry. split; [apply elem_of_app; right; constructor | exact Hentry].
  - destruct (matchOf filePath workspaceFolderPath entry) as [[value noCWD]|] eqn:Hmatch.
    + rewrite (step_match _ _ _ _ _ _ Hmatch).
      destruct current as [[m|item]|].
      * exists entry, noCWD. split; [apply elem_of_app; right; constructor | now split].
      * destruct (String.length (directory item) <? String.length value)%nat.
        -- exists entry, noCWD. split; [apply elem_of_app; right; constructor | now split].
        -- destruct IH as (e & flag & Hin & He & Hflag).
           exists e, flag. split; [apply elem_of_app; now left | now split].
      * exists entry, noCWD. split; [apply elem_of_app; right; constructor | now split].
    + rewrite (step_no_match _ _ _ _ Hmode Hmatch).
      destruct current as [[m|item]|].
      * destruct IH as (e & Hin & He). exists e. split; [apply elem_of_app; now left | exact He].
      * destruct IH as (e & flag & Hin & He & Hflag).
        exists e, flag. split; [apply elem_of_app; now left | now split].
      * apply Forall_app. split; [exact IH | now repeat constructor].
Qed.

(** X22. The selected working directory always comes from a declared rule,
    for any sequence of rules: a directory is the match value of one of the
    [Directory] or [Pattern] rules on the file path, with that rule's
    [noCWD] flag; a mode is the item of one of the [Mode] rules; and nothing
    is selected exactly when there is no [Mode] rule and no rule matches. *)
Theorem working_directory_comes_from_a_rule (document : TextDocument)
    (workspaceFolder : option WorkspaceFolder) (workingDirectories : list JValue) :
  let filePath := documentFilePath document in
  let root := folderPath workspaceFolder in
  match selectWorkingDirectory document workspaceFolder workingDirectories with
  | None =>
      Forall (fun e => isModeRule e = false /\ matchOf filePath root e = None)
        workingDirectories
  | Some (WDMode item) =>
      exists e, e ∈ workingDirectories /\ readEntry e = ModeEntry item
  | Some (WDDirectory item) =>
      exists e noCWD,
        e ∈ workingDirectories
        /\ matchOf filePath root e = Some (directory item, noCWD)
        /\ notCwd item = Some noCWD
  end.
Proof.
  intros filePath root. unfold selectWorkingDirectory. apply fold_origin.
Qed.

(** X23. Only documents with the scheme [file] have a path to match: for any
    other document (untitled, a notebook cell, ...) no [Directory] or
    [Pattern] rule is ever selected, and the result is a [Mode] rule or
    nothing. *)
Theorem only_files_get_a_directory (document : TextDocument)
    (workspaceFolder : option WorkspaceFolder) (workingDirectories : list JValue) :
  scheme (uri document) <> "file" ->
  match selectWorkingDirectory document workspaceFolder workingDirectories with
  | Some (WDDirectory _) => False
  | _ => True
  end.
Proof.
  intros Hscheme. unfold selectWorkingDirectory.
  pose proof (fold_origin (documentFilePath document) (folderPath workspaceFolder)
                workingDirectories) as Horigin.
  destruct (fold_left _ workingDirectories None) as [[m|item]|]; [exact I| |exact I].
  destruct Horigin as (e & noCWD & _ & Hmatch & _).
  unfold documentFilePath in Hmatch.
  destruct (String.eqb_spec (scheme (uri document)) "file") as [Heq|_]; [contradiction|].
  now rewrite matchOf_without_path in Hmatch.
Qed.

(** After a [Mode] rule the loop goes on as from the start, except that
    the mode stands where nothing would. *)
Lemma fold_after_mode filePath workspaceFolderPath item entries :
  fold_left (workingDirectoryStep filePath workspaceFolderPath) entries (Some (WDMode item))
  = match fold_left (workingDirectoryStep filePath workspaceFolderPath) entries None with
    | None => Some (WDMode item)
    | selected => selected
    end.
Proof.
  induction entries as [|entry entries IH] using rev_ind; [reflexivity|].
  rewrite !fold_left_app. simpl. rewrite IH.
  destruct (fold_left _ entries None) as [[m|current]|];
    unfold workingDirectoryStep;
    destruct (readEntry entry) as [mode|dir pat noCWD]; try reflexivity;
    destruct (itemValue _ _ dir pat); try reflexivity.
  destruct (_ <? _)%nat; reflexivity.
Qed.

(** X24. The rules declared before a [Mode] rule have no effect on the
    result: with a [Mode] rule anywhere in the sequence, the selection is
    the one made by the rules after it alone, and the mode is selected when
    they select nothing. *)
Theorem rules_before_a_mode_rule_are_ignored (document : TextDocument)
    (workspaceFolder : option WorkspaceFolder) (before after : list JValue)
    (entry : JValue) (item : ModeItem) :
  readEntry entry = ModeEntry item ->
  selectWorkingDirectory document workspaceFolder (before ++ entry :: after)
  = match selectWorkingDirectory document workspaceFolder after with
    | None => Some (WDMode item)
    | selected => selected
    end.
Proof.
  intros Hentry. unfold selectWorkingDirectory. rewrite fold_left_app. simpl.
  rewrite (step_mode _ _ _ _ _ Hentry). apply fold_after_mode.
Qed.

End WorkingDirectoryFacts.

(** ** Notebook cells *)

Section NotebookFacts.
Context `{SettingsGuards, NodeUtils, MigrationClass, Host, SharedSettings}.

Lemma lookup_unsyncCells cells c k :
  syncedDocuments (unsyncCells cells c) !! k =
  if bool_decide (k ∈ map (fun d => toString (uri d)) cells) then None
  else syncedDocuments c !! k.
Proof.
  unfold unsyncCells. revert c.
  induction cells as [|cell cells IH]; intros c; cbn [fold_left map].
  - rewrite bool_decide_eq_false_2; [reflexivity | apply not_elem_of_nil].
  - rewrite IH. cbn [syncedDocuments setSyncedDocuments].
    destruct (decide (k ∈ map (fun d => toString (uri d)) cells)) as [Hin|Hout].
    + rewrite !bool_decide_eq_true_2; [reflexivity | now right | exact Hin].
    + rewrite (bool_decide_eq_false_2 _ Hout).
      destruct (decide (toString (uri cell) = k)) as [<-|Hne].
      * rewrite lookup_delete_eq. rewrite bool_decide_eq_true_2; [reflexivity | now left].
      * rewrite lookup_delete_ne by exact Hne.
        rewrite bool_decide_eq_false_2; [reflexivity|].
        intros [Heq|Hin]%elem_of_cons; [now apply Hne | now apply Hout].
Qed.

Lemma lookup_syncCells_other cells c k :
  k ∉ map (fun d => toString (uri d)) cells ->
  syncedDocuments (syncCells cells c) !! k = syncedDocuments c !! k.
Proof.
  unfold syncCells. revert c. induction cells as [|cell cells IH]; intros c; simpl;
    [reflexivity|].
  intros Hout. apply not_elem_of_cons in Hout as [Hne Hout].
  rewrite (IH _ Hout). simpl. now rewrite lookup_insert_ne.
Qed.

(** X25. Closing a notebook undoes its opening: after the two notifications
    none of the cells is synced, also a cell whose document had been synced
    before, and every other document is synced exactly if it was. *)
Theorem notebook_close_unsyncs_the_cells (c : Client) (cells : list TextDocument)
    (key : string) :
  let c' := handle (handle c (NotebooksDidOpen cells)) (NotebooksDidClose cells) in
  syncedDocuments c' !! key =
  if bool_decide (key ∈ map (fun d => toString (uri d)) cells) then None
  else syncedDocuments c !! key.
Proof.
  intros c'. subst c'. simpl. unfold notebooksDidClose, notebooksDidOpen. simpl.
  rewrite lookup_unsyncCells. case_bool_decide as Hin; [reflexivity|].
  now rewrite lookup_syncCells_other.
Qed.

End NotebookFacts.

(** ** The facts above on the concrete host *)

Section SessionExamples.
Import Sample SamplePlatform.
#[local] Existing Instance guards.
#[local] Existing Instance posix.
#[local] Existing Instance legacySetting.
#[local] Existing Instance sharedSettings.
#[local] Existing Instance dismissing.
#[local] Existing Instance platform.

Lemma synced_documents_were_opened_witness :
  let events := [DidChangeConfiguration; DidOpen (javascript "/c.js")] in
  syncedDocuments (runEvents events (client legacy)) !! "file:///a/b.js"
  = Some (javascript "/a/b.js")
  /\ "file:///a/b.js" = toString (uri (javascript "/a/b.js"))
  /\ ((exists e, e ∈ events /\ javascript "/a/b.js" ∈ opens e)
      \/ exists before after,
           events = (before ++ DidChangeConfiguration :: after)%list
           /\ javascript "/a/b.js"
              ∈ textDocuments (workspace (runEvents before (client legacy)))).
Proof.
  split; [vm_compute; reflexivity|].
  apply (synced_documents_were_opened Validator.new legacy
           [DidChangeConfiguration; DidOpen (javascript "/c.js")]
           "file:///a/b.js" (javascript "/a/b.js")).
  vm_compute. reflexivity.
Defined.

(** A settings change that switches validation off for a synced document:
    the listener sends the close notification, and the middleware passes it
    on and forgets the document. *)
Lemma settings_change_closes_example :
  let c := runEvents [DidOpen (javascript "/a/b.js"); EditorChanged nullRule]
             (client legacy) in
  let c' := handle c DidChangeConfiguration in
  syncedDocuments c !! "file:///a/b.js" = Some (javascript "/a/b.js")
  /\ syncedDocuments c' !! "file:///a/b.js" = None
  /\ effects c'
     = (effects c
        ++ [SendDidClose (javascript "/a/b.js"); Next "textDocument/didClose"])%list.
Proof. vm_compute. repeat split. Qed.

Lemma closed_document_is_not_forwarded_witness :
  let document := javascript "/a/b.js" in
  let c := handle (client legacy) (DidOpen document) in
  let c' := runEvents [DidChangeWatchedFile; DidOpen (javascript "/c.js")]
              (handle c (DidClose document)) in
  let context := {| only := Some "quickfix"; diagnostics := []; triggerKind := 1 |} in
  passesOn c document = true
  /\ passesOn c' document = false
  /\ provideCodeActions c' document context = None.
Proof.
  split; [vm_compute; reflexivity|].
  apply (closed_document_is_not_forwarded
           (handle (client legacy) (DidOpen (javascript "/a/b.js")))
           (javascript "/a/b.js")
           [DidChangeWatchedFile; DidOpen (javascript "/c.js")]
           {| only := Some "quickfix"; diagnostics := []; triggerKind := 1 |}).
  repeat constructor. discriminate.
Defined.

Lemma format_needs_validation_witness :
  let c := handle (client formatting) (DidOpen (javascript "/a/b.js")) in
  let item := {| scopeUri := Some "file:///a/b.js"; section := None |} in
  is_Some (syncedDocuments c !! "file:///a/b.js")
  /\ exists settings,
       fst (readItem item c) = Ok (Some settings)
       /\ format settings = false
       /\ codeActionOnSave settings = {| caos_mode := JString "all"; caos_rules := JUndefined |}.
Proof.
  split; [vm_compute; eexists; reflexivity|].
  eexists. split; [vm_compute; reflexivity|].
  match goal with
  | |- format ?s = _ /\ _ =>
      destruct (format_needs_validation
                  (handle (client formatting) (DidOpen (javascript "/a/b.js")))
                  {| scopeUri := Some "file:///a/b.js"; section := None |} s)
        as [Hformat Hactions]
  end.
  - vm_compute. reflexivity.
  - vm_compute. reflexivity.
  - split; [exact Hformat | exact Hactions].
Defined.


Lemma directory_match_is_terminated_prefix_witness :
  itemValue (Some "/a/b/c.js") (Some "/a") (Some "b") None = Some "/a/b/"
  /\ JS.startsWith "/a/b/c.js" "/a/b/" = true
  /\ endsWith "/a/b/" "/".
Proof.
  split; [reflexivity|].
  exact (directory_match_is_terminated_prefix "/a/b/c.js" (Some "/a") "b" None "/a/b/"
           eq_refl).
Defined.

Lemma only_files_get_a_directory_witness :
  let untitled :=
    {| uri := {| scheme := "untitled"; fsPath := "/a/b.js"; toString := "untitled:/a/b.js" |};
       languageId := "javascript" |} in
  selectWorkingDirectory (javascript "/a/b.js") None [directoryRule "/a"]
  = Some (WDDirectory {| directory := "/a/"; notCwd := Some false |})
  /\ match selectWorkingDirectory untitled None [directoryRule "/a"] with
     | Some (WDDirectory _) => False
     | _ => True
     end.
Proof.
  split; [reflexivity|].
  apply (only_files_get_a_directory
           {| uri := {| scheme := "untitled"; fsPath := "/a/b.js";
                        toString := "untitled:/a/b.js" |};
              languageId := "javascript" |} None [directoryRule "/a"]).
  discriminate.
Defined.

Lemma rules_before_a_mode_rule_are_ignored_witness :
  selectWorkingDirectory (javascript "/a/b/c.js") None
    [directoryRule "/a/b"; modeRule "location"; directoryRule "/a"]
  = Some (WDDirectory {| directory := "/a/"; notCwd := Some false |}).
Proof.
  etransitivity.
  - apply (rules_before_a_mode_rule_are_ignored (javascript "/a/b/c.js") None
             [directoryRule "/a/b"] [directoryRule "/a"] (modeRule "location")
             {| mode := "location" |}).
    reflexivity.
  - reflexivity.
Defined.

End SessionExamples.
